(** * BiMPM sentence matching: the drivers and layer definitions

    A shallow embedding of [train.py], [test.py] and [model/layers.py].
    Python code becomes Rocq functions in a state-and-exception monad over
    an explicit world (object heap, file system, event trace).  Attribute
    access, unbound locals and imports are modelled with the exceptions
    Python raises for them.  Floating-point numbers are idealised as
    rationals ([Q]), with a separate value for NaN where the code can
    produce one.  What depends on the machine or on the release of the
    tensor library (whether CUDA answers, whether a 0-dim tensor can be
    indexed) is a parameter of the development, and the theorems on
    training runs say which case they are about. *)

From Stdlib Require Import ZArith QArith Ascii String List Bool Lia.
From stdpp Require Import gmap strings list.

Local Open Scope string_scope.
Local Open Scope list_scope.

(** ** The Python runtime the sources rely on *)

Module Py.

(** Exceptions raised by the modelled code paths.  [ModuleNotFoundError] is
    a subclass of [ImportError], which here stands for a failed
    [from m import name]; [UnboundLocalError] is a subclass of [NameError]. *)
Inductive exn : Type :=
| AttributeError (owner attr : string)
| ModuleNotFoundError (name : string)
| ImportError (name : string)
| NameError (name : string)
| RuntimeError (msg : string)
| TypeError (msg : string)
| UnboundLocalError (var : string)
| ZeroDivisionError
| IndexError
| ValueError (msg : string)
| FileExistsError (path : string)
| FileNotFoundError (path : string).

Definition is_import_error (e : exn) : bool :=
  match e with
  | ModuleNotFoundError _ | ImportError _ => true
  | _ => false
  end.

Definition is_attribute_error (e : exn) : bool :=
  match e with AttributeError _ _ => true | _ => false end.

Definition is_runtime_error (e : exn) : bool :=
  match e with RuntimeError _ => true | _ => false end.

Inductive result (A : Type) : Type :=
| Ok (a : A)
| Raise (e : exn).
Arguments Ok {A} a.
Arguments Raise {A} e.

Definition is_ok {A} (r : result A) : bool :=
  match r with Ok _ => true | Raise _ => false end.

(** Exception-only computations (layer constructors and forward passes). *)
Definition rbind {A B} (r : result A) (k : A -> result B) : result B :=
  match r with
  | Ok a => k a
  | Raise e => Raise e
  end.

(** Python values that flow through the argument objects.  [VMethod] is
    what attribute access yields for a method name. *)
#[warnings="-register-all"]
Inductive value : Type :=
| VNone
| VBool (b : bool)
| VInt (z : Z)
| VFloat (q : Q)
| VStr (s : string)
| VList (l : list value)
| VMethod (name : string).

(** [v == 'literal'] as the drivers use it on the dataset name. *)
Definition str_eq (v : value) (s : string) : bool :=
  match v with
  | VStr t => String.eqb t s
  | _ => false
  end.

(** Truthiness, as used by [if args.gpu:]. *)
Definition truthy (v : value) : bool :=
  match v with
  | VNone => false
  | VBool b => b
  | VInt z => negb (z =? 0)%Z
  | VFloat q => negb (Qeq_bool q 0)
  | VStr s => negb (String.eqb s "")
  | VList l => match l with [] => false | _ => true end
  | VMethod _ => true
  end.

Definition as_int (v : value) : result Z :=
  match v with
  | VInt z => Ok z
  | VBool b => Ok (if b then 1 else 0)%Z
  | _ => Raise (TypeError "an integer is required")
  end.

(** Sizes handed to layer constructors: non-negative integers. *)
Definition as_size (v : value) : result nat :=
  rbind (as_int v) (fun z =>
    if (z <? 0)%Z then Raise (RuntimeError "negative dimension")
    else Ok (Z.to_nat z)).

Definition as_str (v : value) : result string :=
  match v with
  | VStr s => Ok s
  | _ => Raise (TypeError "can only concatenate str to str")
  end.

(** Association lists keep insertion order, as Python dicts do. *)
Definition items := list (string * value).

Fixpoint assoc {A} (k : string) (d : list (string * A)) : option A :=
  match d with
  | [] => None
  | (k', v) :: d' => if String.eqb k k' then Some v else assoc k d'
  end.

(** [d[k] = v]: overwrite in place or append at the end. *)
Fixpoint setitem (k : string) (v : value) (d : items) : items :=
  match d with
  | [] => [(k, v)]
  | (k', v') :: d' =>
      if String.eqb k k' then (k, v) :: d' else (k', v') :: setitem k v d'
  end.

Definition keys (d : items) : list string := map fst d.
Definition values (d : items) : list value := map snd d.

(** The three kinds of object the drivers call [args]: the dict returned
    by [locals()], a namedtuple, and the attribute bag [model.utils.Args]. *)
Inductive pyobj : Type :=
| Dict (d : items)
| NamedTuple (tyname : string) (fields : items)
| Namespace (cls : string) (attrs : items).

(** Names that resolve on every [dict] instance. *)
Definition dict_methods : list string :=
  ["clear"; "copy"; "fromkeys"; "get"; "items"; "keys"; "pop"; "popitem";
   "setdefault"; "update"; "values"].

Definition mem (name : string) (names : list string) : bool :=
  existsb (String.eqb name) names.

(** [obj.name].  A dict exposes its methods, never its keys. *)
Definition getattr (o : pyobj) (name : string) : result value :=
  match o with
  | Dict _ =>
      if mem name dict_methods then Ok (VMethod name)
      else Raise (AttributeError "dict" name)
  | NamedTuple ty fields =>
      match assoc name fields with
      | Some v => Ok v
      | None => Raise (AttributeError ty name)
      end
  | Namespace cls attrs =>
      match assoc name attrs with
      | Some v => Ok v
      | None => Raise (AttributeError cls name)
      end
  end.

(** [namedtuple(tyname, d.keys())] applied to the unpacked [d.values()]. *)
Definition namedtuple (tyname : string) (d : items) : pyobj :=
  NamedTuple tyname (combine (keys d) (values d)).

End Py.
Import Py.

#[global] Instance result_ret : MRet result := @Ok.
#[global] Instance result_bind : MBind result := fun A B k r => rbind r k.

(** ** Tensors, parameters and the mutable world *)

Module Torch.

Definition loc := nat.

(** A contiguous tensor: its shape and its elements in row-major order. *)
Record Tensor : Type := mkTensor { shape : list nat; elems : list Q }.

Definition numel (s : list nat) : nat := fold_right Nat.mul 1%nat s.

Definition zeros (s : list nat) : Tensor := mkTensor s (repeat 0%Q (numel s)).

(** A [torch.nn.Parameter] on the heap.  [padding_row] records the
    [padding_idx] of the embedding that owns the weight, whose row receives
    no gradient. *)
Record Param : Type := mkParam {
  data : Tensor;
  requires_grad : bool;
  grad : option (list Q);
  padding_row : option nat
}.

(** An [nn.Module] object: its parameters by name and its mode flag. *)
Record Module_ : Type := mkModule {
  named_parameters : list (string * loc);
  training : bool
}.

(** The values a Python float takes in the accuracy computation. *)
Inductive num : Type :=
| Fin (q : Q)
| Inf
| NaN.

Inductive event : Type :=
| Print (line : string)
| PrintMetrics (vals : list (string * num))
| Forward (model : loc) (train_mode grad_mode : bool)
| WriterOpen (log_dir : string)
| AddScalar (tag : string) (v : num) (step : Z)
| AddGraph (model : loc)
| WriterClose
| Cuda (model : loc)
| Saved (path : string).

Record World : Type := mkWorld {
  tensors : gmap loc Param;
  modules : gmap loc Module_;
  grad_enabled : bool;          (* torch.is_grad_enabled() *)
  dirs : gset string;           (* directories that exist *)
  files : gmap string (list (string * Tensor)); (* saved state dicts *)
  trace : list event
}.

(** State and exceptions; the world survives a raise. *)
Definition M (A : Type) : Type := World -> result A * World.

Definition ret {A} (a : A) : M A := fun w => (Ok a, w).
Definition raise {A} (e : exn) : M A := fun w => (Raise e, w).
Definition bind {A B} (m : M A) (k : A -> M B) : M B :=
  fun w => match m w with
           | (Ok a, w') => k a w'
           | (Raise e, w') => (Raise e, w')
           end.
Definition lift {A} (r : result A) : M A := fun w => (r, w).
Definition get : M World := fun w => (Ok w, w).
Definition put (w : World) : M unit := fun _ => (Ok tt, w).
Definition modify (f : World -> World) : M unit := fun w => (Ok tt, f w).
Definition emit (e : event) : M unit :=
  modify (fun w => mkWorld (tensors w) (modules w) (grad_enabled w)
                           (dirs w) (files w) (trace w ++ [e])).

End Torch.
Import Torch.

#[global] Instance M_ret : MRet M := @ret.
#[global] Instance M_bind : MBind M := fun A B k m => bind m k.

(** ** External collaborators

    The tensor library's numeric primitives and the repository modules
    that are not among the sources ([model/utils.py], [model/bimpm.py])
    are taken as parameters. *)

Class Framework : Type := {
  (** a batch as yielded by the data iterators, and its gold labels *)
  Batch : Type;
  label : Batch -> list nat;
  (** the pair [(p, q)] built by [Sentence(batch, ...).generate(device)] *)
  Sentence : Type;
  generate : Batch -> value -> value -> Sentence;
  (** weight initialisers, as a function of the flat index *)
  normal_ : nat -> Q;
  uniform_ : nat -> Q;
  (** one LSTM cell step: hidden size, weights, (h, c), input *)
  lstm_cell : nat -> list Tensor -> list Q * list Q -> list Q ->
              list Q * list Q;
  (** [F.dropout] in training mode, [F.softmax] *)
  dropout_mask : Q -> Tensor -> Tensor;
  softmax : Tensor -> Tensor;
  (** [BiMPM.forward]: parameter values, training flag, inputs *)
  model_forward : list Tensor -> bool -> Sentence -> list (list Q);
  CrossEntropyLoss : list (list Q) -> list nat -> Q;
  (** gradient of the loss, one flat tensor per model parameter *)
  autograd : list Tensor -> Sentence -> list nat -> list (list Q);
  (** Adam, element by element: learning rate, state, value, gradient *)
  adam_state : Type;
  adam_init : adam_state;
  adam : value -> adam_state -> Q -> Q -> adam_state * Q;
  (** [Module.cuda(device)] for a device that is not a [bool]: the answer
      of the CUDA runtime of the machine *)
  cuda : value -> result unit;
  (** indexing a 0-dim tensor, [t[0]]: releases before 0.5 return its
      value, later releases raise [IndexError] *)
  scalar_index_allowed : bool;
  (** the wall clock read by [strftime('%H:%M:%S', gmtime())] *)
  strftime : string
}.

(** ** model/layers.py *)

Module Layers.

(** *** Tensor primitives used by the layers *)

Record IntTensor : Type := mkIntTensor { ishape : list nat; ielems : list nat }.

(** Consecutive chunks of [n] elements. *)
Fixpoint chunks_fuel {A} (fuel n : nat) (l : list A) : list (list A) :=
  match fuel with
  | O => []
  | S fuel' =>
      match l with
      | [] => []
      | _ => take n l :: chunks_fuel fuel' n (drop n l)
      end
  end.

Definition chunks {A} (n : nat) (l : list A) : list (list A) :=
  chunks_fuel (length l) n l.

(** [t.view(s)] on a contiguous tensor. *)
Definition view (t : Tensor) (s : list nat) : result Tensor :=
  if (numel s =? length (elems t))%nat then Ok (mkTensor s (elems t))
  else Raise (RuntimeError "shape is invalid for input size").

Definition iview (t : IntTensor) (s : list nat) : result IntTensor :=
  if (numel s =? length (ielems t))%nat then Ok (mkIntTensor s (ielems t))
  else Raise (RuntimeError "shape is invalid for input size").

(** [t.view(-1, rest...)]: the leading dimension is inferred. *)
Definition view_infer (t : Tensor) (rest : list nat) : result Tensor :=
  let n := length (elems t) in
  let r := numel rest in
  if (r =? 0)%nat then
    Raise (RuntimeError "cannot infer the unspecified dimension")
  else if (n mod r =? 0)%nat then Ok (mkTensor ((n / r)%nat :: rest) (elems t))
  else Raise (RuntimeError "shape is invalid for input size").

(** [torch.cat([a, b], dim=-1)] *)
Definition cat_last (a b : Tensor) : result Tensor :=
  match reverse (shape a), reverse (shape b) with
  | da :: ra, db :: rb =>
      if decide (ra = rb) then
        Ok (mkTensor (reverse ra ++ [(da + db)%nat])
              (concat (zip_with app (chunks da (elems a))
                                    (chunks db (elems b)))))
      else Raise (RuntimeError "sizes of tensors must match")
  | _, _ => Raise (RuntimeError "zero-dimensional tensor cannot be concatenated")
  end.

Section WithFramework.
Context `{Framework}.

(** [nn.Embedding] *)
Record Embedding : Type := mkEmbedding {
  num_embeddings : nat;
  embedding_dim : nat;
  padding_idx : option nat;
  weight : Tensor;
  weight_requires_grad : bool
}.

(** Zero the [k]-th row of a row-major table with rows of width [dim]. *)
Definition zero_row (k dim : nat) (l : list Q) : list Q :=
  take (k * dim) l ++ repeat 0%Q dim ++ drop ((k + 1) * dim) l.

Definition nn_Embedding (num dim : value) (padding : option nat)
  : result Embedding :=
  n ← as_size num;
  d ← as_size dim;
  let w := map normal_ (seq 0 (n * d)) in
  match padding with
  | None => Ok (mkEmbedding n d None (mkTensor [n; d] w) true)
  | Some k =>
      if (k <? n)%nat then
        Ok (mkEmbedding n d (Some k) (mkTensor [n; d] (zero_row k d w)) true)
      else Raise (RuntimeError "Padding_idx must be within num_embeddings")
  end.

Definition row (dim : nat) (table : list Q) (i : nat) : list Q :=
  take dim (drop (i * dim) table).

Fixpoint lookup_rows (e : Embedding) (ids : list nat) : result (list (list Q)) :=
  match ids with
  | [] => Ok []
  | i :: ids' =>
      if (i <? num_embeddings e)%nat then
        rs ← lookup_rows e ids';
        Ok (row (embedding_dim e) (elems (weight e)) i :: rs)
      else Raise IndexError
  end.

(** Calling an embedding on an integer tensor. *)
Definition Embedding_forward (e : Embedding) (x : IntTensor) : result Tensor :=
  rs ← lookup_rows e (ielems x);
  Ok (mkTensor (ishape x ++ [embedding_dim e]) (concat rs)).

(** [nn.LSTM], single layer. *)
Record LSTM : Type := mkLSTM {
  input_size : nat;
  hidden_size : nat;
  num_layers : nat;
  bidirectional : bool;
  batch_first : bool;
  weights_fwd : list (string * Tensor);
  weights_bwd : list (string * Tensor)
}.

Definition lstm_weights (suffix : string) (inp hid : nat)
  : list (string * Tensor) :=
  let mk name s := ((name ++ suffix)%string, mkTensor s (map uniform_ (seq 0 (numel s)))) in
  [ mk "weight_ih_l0" [(4 * hid)%nat; inp];
    mk "weight_hh_l0" [(4 * hid)%nat; hid];
    mk "bias_ih_l0" [(4 * hid)%nat];
    mk "bias_hh_l0" [(4 * hid)%nat] ].

Definition nn_LSTM (inp hid : value) (layers : nat) (bidir bfirst : bool)
  : result LSTM :=
  i ← as_size inp;
  h ← as_size hid;
  Ok (mkLSTM i h layers bidir bfirst
        (lstm_weights "" i h)
        (if bidir then lstm_weights "_reverse" i h else [])).

(** Hidden states after each step of one sequence, and the last (h, c). *)
Fixpoint lstm_scan (hid : nat) (ws : list Tensor) (st : list Q * list Q)
    (xs : list (list Q)) : list (list Q) * (list Q * list Q) :=
  match xs with
  | [] => ([], st)
  | x :: xs' =>
      let st' := lstm_cell hid ws st x in
      let '(hs, last) := lstm_scan hid ws st' xs' in
      (fst st' :: hs, last)
  end.

Definition lstm_run (l : LSTM) (ws : list (string * Tensor))
    (xs : list (list Q)) : list (list Q) * (list Q * list Q) :=
  lstm_scan (hidden_size l) (map snd ws)
    (repeat 0%Q (hidden_size l), repeat 0%Q (hidden_size l)) xs.

(** Calling an LSTM built with [batch_first=True] on an input of shape
    (N, L, input_size); returns [(output, (h_n, c_n))]. *)
Definition LSTM_forward (l : LSTM) (x : Tensor)
  : result (Tensor * (Tensor * Tensor)) :=
  match shape x with
  | [n; len; i] =>
      if negb (i =? input_size l)%nat then
        Raise (RuntimeError "input.size(-1) must be equal to input_size")
      else if (len =? 0)%nat then
        Raise (RuntimeError "Expected sequence length to be larger than 0")
      else
        let seqs := chunks len (chunks i (elems x)) in
        let hid := hidden_size l in
        let fwd := map (lstm_run l (weights_fwd l)) seqs in
        let bwd := map (fun s => lstm_run l (weights_bwd l) (reverse s)) seqs in
        let d := if bidirectional l then 2%nat else 1%nat in
        let out :=
          if bidirectional l then
            zip_with (fun f b => concat (zip_with app (fst f) (reverse (fst b))))
                     fwd bwd
          else map (fun f => concat (fst f)) fwd in
        let h_n := concat (map (fun f => fst (snd f)) fwd) ++
                   (if bidirectional l
                    then concat (map (fun b => fst (snd b)) bwd) else []) in
        let c_n := concat (map (fun f => snd (snd f)) fwd) ++
                   (if bidirectional l
                    then concat (map (fun b => snd (snd b)) bwd) else []) in
        Ok (mkTensor [n; len; (d * hid)%nat] (concat out),
            (mkTensor [d; n; hid] h_n, mkTensor [d; n; hid] c_n))
  | _ => Raise (RuntimeError "input must have 3 dimensions")
  end.

(** [nn.Linear] *)
Record Linear : Type := mkLinear {
  in_features : nat;
  out_features : nat;
  lin_weight : Tensor;
  lin_bias : Tensor
}.

Definition nn_Linear (i o : value) : result Linear :=
  n ← as_size i;
  m ← as_size o;
  Ok (mkLinear n m (mkTensor [m; n] (map uniform_ (seq 0 (m * n))))
                   (mkTensor [m] (map uniform_ (seq 0 m)))).

Definition dot (a b : list Q) : Q :=
  fold_right Qplus 0%Q (zip_with Qmult a b).

Definition Linear_forward (l : Linear) (x : Tensor) : result Tensor :=
  match reverse (shape x) with
  | d :: lead =>
      if (d =? in_features l)%nat then
        let w := chunks (in_features l) (elems (lin_weight l)) in
        let out r := zip_with (fun wj bj => (dot r wj + bj)%Q) w (elems (lin_bias l)) in
        Ok (mkTensor (reverse lead ++ [out_features l])
              (concat (map out (chunks d (elems x)))))
      else Raise (RuntimeError "mat1 and mat2 shapes cannot be multiplied")
  | [] => Raise (RuntimeError "both arguments to matmul need to be at least 1D")
  end.

(** [v * k] and [v + u] on integer configuration values *)
Definition mul_int (v : value) (k : Z) : result value :=
  z ← as_int v; Ok (VInt (z * k)).

Definition add_int (v u : value) : result value :=
  a ← as_int v; b ← as_int u; Ok (VInt (a + b)).

(** *** Attribute resolution on [nn.Module] instances *)

(** Names every [nn.Module] instance inherits. *)
Definition nn_Module_members : list string :=
  ["training"; "forward"; "train"; "eval"; "parameters"; "named_parameters";
   "children"; "modules"; "cuda"; "cpu"; "to"; "float"; "double"; "half";
   "apply"; "zero_grad"; "state_dict"; "load_state_dict"; "add_module";
   "register_parameter"; "register_buffer"; "requires_grad_"; "type";
   "extra_repr"; "named_children"; "named_modules"; "buffers";
   "named_buffers"; "share_memory"].

Inductive member : Type :=
| InstanceAttr
| ClassAttr
| InheritedAttr.

(** [self.name]: the instance dictionary and registered submodules, then
    the class, then [nn.Module]; otherwise [AttributeError]. *)
Definition lookup_attr (cls : string) (instance_attrs class_attrs : list string)
    (name : string) : result member :=
  if mem name instance_attrs then Ok InstanceAttr
  else if mem name class_attrs then Ok ClassAttr
  else if mem name nn_Module_members then Ok InheritedAttr
  else Raise (AttributeError cls name).

Definition method (Self : Type) : Type := Self -> Tensor -> result Tensor.

(** [self.name(x)] for a name that is not a submodule: the method of that
    name defined on the class is applied.  [methods] lists the methods of
    the class besides [__init__] and the calling [forward]. *)
Definition call_method {Self : Type} (cls : string)
    (instance_attrs : list string) (methods : list (string * method Self))
    (self : Self) (name : string) (x : Tensor) : result Tensor :=
  m ← lookup_attr cls instance_attrs (map fst methods) name;
  match m with
  | ClassAttr =>
      match assoc name methods with
      | Some f => f self x
      | None => Raise (AttributeError cls name)
      end
  | InstanceAttr => Raise (TypeError "object is not callable")
  | InheritedAttr => Raise (TypeError "unexpected positional argument")
  end.

(** The functions of [torch.nn.functional] the layers name through [F]. *)
Inductive functional : Type :=
| F_dropout
| F_relu
| F_softmax.

Definition F_getattr (name : string) : result functional :=
  if String.eqb name "dropout" then Ok F_dropout
  else if String.eqb name "relu" then Ok F_relu
  else if String.eqb name "softmax" then Ok F_softmax
  else Raise (AttributeError "torch.nn.functional" name).

Definition relu (t : Tensor) : Tensor :=
  mkTensor (shape t) (map (fun x => if Qle_bool x 0 then 0%Q else x) (elems t)).

(** [F.dropout(V, p, training)]: the identity unless [training]. *)
Definition dropout (V : Tensor) (p : Q) (training : bool) : Tensor :=
  if training then dropout_mask p V else V.

(** [f(x)] with one positional argument. *)
Definition call1 (f : functional) (x : Tensor) : result Tensor :=
  match f with
  | F_dropout => Ok (dropout x (1 # 2) true)
  | F_relu => Ok (relu x)
  | F_softmax => Ok (softmax x)
  end.

(** [f(V, p=p, training=training)] *)
Definition call_dropout_kwargs (f : functional) (V : Tensor) (p : value)
    (training : bool) : result Tensor :=
  match f with
  | F_dropout =>
      match p with
      | VFloat q => Ok (dropout V q training)
      | VInt z => Ok (dropout V (inject_Z z) training)
      | _ => Raise (TypeError "dropout probability has to be a number")
      end
  | _ => Raise (TypeError "got an unexpected keyword argument 'p'")
  end.

(** *** CharacterRepresentationEncoder *)

Record CharacterRepresentationEncoder : Type := mkCRE {
  cre_args : pyobj;
  cre_char_encoder : Embedding;
  cre_lstm : LSTM;
  cre_training : bool
}.

Definition CharacterRepresentationEncoder_init (args : pyobj)
  : result CharacterRepresentationEncoder :=
  vocab ← getattr args "char_vocab_size";
  dim ← getattr args "char_dim";
  char_encoder ← nn_Embedding vocab dim (Some 0%nat);
  inp ← getattr args "char_input_size";
  hid ← getattr args "char_hidden_size";
  lstm ← nn_LSTM inp hid 1 false true;
  Ok (mkCRE args char_encoder lstm true).

Definition CharacterRepresentationEncoder_forward
    (self : CharacterRepresentationEncoder) (chars : IntTensor)
  : result Tensor :=
  match ishape chars with
  | [batch_size; seq_len; max_word_len] =>
      chars ← iview chars [(batch_size * seq_len)%nat; max_word_len];
      emb ← Embedding_forward (cre_char_encoder self) chars;
      out ← LSTM_forward (cre_lstm self) emb;
      let chars := fst (snd out) in
      hid ← getattr (cre_args self) "char_hidden_size";
      hid ← as_size hid;
      view_infer chars [seq_len; hid]
  | _ => Raise (ValueError "not enough values to unpack")
  end.

(** What the encoder computes for one word: the last hidden state of the
    recurrent encoder run over the embedded characters of that word. *)
Definition char_representation (self : CharacterRepresentationEncoder)
    (word : list nat) : list Q :=
  fst (snd (lstm_run (cre_lstm self) (weights_fwd (cre_lstm self))
              (map (row (embedding_dim (cre_char_encoder self))
                        (elems (weight (cre_char_encoder self)))) word))).


(** *** WordRepresentationLayer *)

(** One side of a [Sentence]: embedded words and raw character ids. *)
Record SentenceInput : Type := mkSentenceInput {
  words : Tensor;
  chars : IntTensor
}.

Record WordRepresentationLayer : Type := mkWRL {
  wrl_args : pyobj;
  wrl_word_encoder : Embedding;
  wrl_char_encoder : CharacterRepresentationEncoder;
  wrl_training : bool
}.

(** [weight.data.copy_(src)]; the shapes must agree. *)
Definition copy_ (e : Embedding) (src : Tensor) : result Embedding :=
  if decide (shape (weight e) = shape src) then
    Ok (mkEmbedding (num_embeddings e) (embedding_dim e) (padding_idx e)
          (mkTensor (shape src) (elems src)) (weight_requires_grad e))
  else Raise (RuntimeError "The size of tensor a must match the size of tensor b").

Definition set_requires_grad (e : Embedding) (b : bool) : Embedding :=
  mkEmbedding (num_embeddings e) (embedding_dim e) (padding_idx e) (weight e) b.

(** [vectors] is [data.TEXT.vocab.vectors]. *)
Definition WordRepresentationLayer_init (args : pyobj) (vectors : Tensor)
  : result WordRepresentationLayer :=
  vocab ← getattr args "word_vocab_size";
  dim ← getattr args "word_dim";
  word_encoder ← nn_Embedding vocab dim None;
  word_encoder ← copy_ word_encoder vectors;
  let word_encoder := set_requires_grad word_encoder false in
  char_encoder ← CharacterRepresentationEncoder_init args;
  Ok (mkWRL args word_encoder char_encoder true).

Definition WordRepresentationLayer_droput : method WordRepresentationLayer :=
  fun self V =>
    f ← F_getattr "droput";
    p ← getattr (wrl_args self) "dropout";
    call_dropout_kwargs f V p (wrl_training self).

Definition WordRepresentationLayer_forward (self : WordRepresentationLayer)
    (sentence : SentenceInput) : result Tensor :=
  let words := words sentence in
  chars ← CharacterRepresentationEncoder_forward (wrl_char_encoder self)
            (chars sentence);
  sentence ← cat_last words chars;
  call_method "WordRepresentationLayer"
    ["training"; "args"; "word_encoder"; "char_encoder"]
    [("droput", WordRepresentationLayer_droput)] self "dropout" sentence.

(** *** ContextRepresentationLayer *)

Record ContextRepresentationLayer : Type := mkCRL {
  crl_input_size : value;
  crl_lstm : LSTM;
  crl_training : bool
}.

Definition ContextRepresentationLayer_init (args : pyobj)
  : result ContextRepresentationLayer :=
  wd ← getattr args "word_dim";
  ch ← getattr args "char_hidden_size";
  input_size ← add_int wd ch;
  hid ← getattr args "hidden_size";
  lstm ← nn_LSTM input_size hid 1 true true;
  Ok (mkCRL input_size lstm true).

Definition ContextRepresentationLayer_instance_attrs : list string :=
  ["training"; "input_size"; "lstm"].

(** [self.args] is never assigned in this class. *)
Definition ContextRepresentationLayer_droput : method ContextRepresentationLayer :=
  fun self V =>
    f ← F_getattr "droput";
    _ ← lookup_attr "ContextRepresentationLayer"
          ContextRepresentationLayer_instance_attrs ["droput"; "forward"] "args";
    Raise (AttributeError "method" "dropout").

Definition ContextRepresentationLayer_forward (self : ContextRepresentationLayer)
    (sentence : Tensor) : result Tensor :=
  out ← LSTM_forward (crl_lstm self) sentence;
  let sentence := fst out in
  call_method "ContextRepresentationLayer"
    ContextRepresentationLayer_instance_attrs
    [("droput", ContextRepresentationLayer_droput)] self "dropout" sentence.

(** *** MatchingLayer: both bodies are [pass] *)

Record MatchingLayer : Type := mkML { ml_training : bool }.

Definition MatchingLayer_init (args : pyobj) : result MatchingLayer :=
  Ok (mkML true).

(** [forward(self)] takes no input and returns [None]. *)
Definition MatchingLayer_forward (self : MatchingLayer)
    (inputs : list Tensor) : result (option Tensor) :=
  match inputs with
  | [] => Ok None
  | _ => Raise (TypeError "forward() takes 1 positional argument")
  end.

(** *** AggregationLayer *)

Record AggregationLayer : Type := mkAL {
  al_args : pyobj;
  al_lstm : LSTM;
  al_training : bool
}.

(** Calling a resolved member of the instance with [nn.LSTM]'s keyword
    arguments: none of them accepts [input_size]. *)
Definition call_lstm_kwargs (m : member) (inp hid : value) (layers : nat)
    (bidir bfirst : bool) : result LSTM :=
  Raise (TypeError "got an unexpected keyword argument 'input_size'").

Definition AggregationLayer_init (args : pyobj) : result AggregationLayer :=
  ctor ← lookup_attr "AggregationLayer" ["training"; "args"]
           ["__init__"; "droput"; "forward"] "LSTM";
  np ← getattr args "num_perpectives";
  inp ← mul_int np 8;
  hid ← getattr args "hidden_size";
  lstm ← call_lstm_kwargs ctor inp hid 1 true true;
  Ok (mkAL args lstm true).

Definition AggregationLayer_droput : method AggregationLayer :=
  fun self V =>
    f ← F_getattr "droput";
    p ← getattr (al_args self) "dropout";
    call_dropout_kwargs f V p (al_training self).

(** [h.permute(1, 0, 2).view(-1, cols)] for [h] of shape (D, N, H).  The
    permuted tensor shares storage with [h]; [view] accepts it only when
    the permutation leaves the memory order unchanged. *)
Definition permute_view (h : Tensor) (cols : nat) : result Tensor :=
  match shape h with
  | [d; n; hid] =>
      if ((d =? 1) || (n =? 1))%nat then view_infer h [cols]
      else Raise (RuntimeError "view size is not compatible with input tensor's size and stride")
  | _ => Raise (RuntimeError "number of dims don't match in permute")
  end.

(** [torch.cat([a, b], dim=1)] on two matrices. *)
Definition cat_dim1 (a b : Tensor) : result Tensor :=
  match shape a, shape b with
  | [_; _], [_; _] => cat_last a b
  | _, _ => Raise (RuntimeError "dimension out of range")
  end.

Definition AggregationLayer_forward (self : AggregationLayer) (p q : Tensor)
  : result Tensor :=
  rp ← LSTM_forward (al_lstm self) p;
  let p := fst (snd rp) in
  rq ← LSTM_forward (al_lstm self) q;
  let q := fst (snd rq) in
  hs ← getattr (al_args self) "hidden_size";
  hs2 ← mul_int hs 2;
  cols ← as_size hs2;
  pv ← permute_view p cols;
  qv ← permute_view q cols;
  x ← cat_dim1 pv qv;
  call_method "AggregationLayer" ["training"; "args"; "lstm"]
    [("droput", AggregationLayer_droput)] self "dropout" x.

(** *** PredictionLayer *)

Record PredictionLayer : Type := mkPL {
  pl_hidden_layer : Linear;
  pl_output_layer : Linear;
  pl_training : bool
}.

Definition PredictionLayer_init (args : pyobj) : result PredictionLayer :=
  hs ← getattr args "hidden_size";
  h4 ← mul_int hs 4;
  hs ← getattr args "hidden_size";
  h2 ← mul_int hs 2;
  hidden_layer ← nn_Linear h4 h2;
  hs ← getattr args "hidden_size";
  h2 ← mul_int hs 2;
  nc ← getattr args "num_classes";
  output_layer ← nn_Linear h2 nc;
  Ok (mkPL hidden_layer output_layer true).

Definition PredictionLayer_instance_attrs : list string :=
  ["training"; "hidden_layer"; "output_layer"].

Definition PredictionLayer_droput : method PredictionLayer :=
  fun self V =>
    f ← F_getattr "droput";
    _ ← lookup_attr "PredictionLayer" PredictionLayer_instance_attrs
          ["droput"; "forward"] "args";
    Raise (AttributeError "method" "dropout").

Definition PredictionLayer_forward (self : PredictionLayer)
    (match_vec : Tensor) : result Tensor :=
  f_relu ← F_getattr "relu";
  h ← Linear_forward (pl_hidden_layer self) match_vec;
  x ← call1 f_relu h;
  f_softmax ← F_getattr "softmax";
  d ← call_method "PredictionLayer" PredictionLayer_instance_attrs
        [("droput", PredictionLayer_droput)] self "dropout" x;
  o ← Linear_forward (pl_output_layer self) d;
  call1 f_softmax o.

(** *** [parameters()] of the word representation layer

    Parameters in registration order, under their dotted names. *)
Definition Embedding_parameters (prefix : string) (e : Embedding)
  : list (string * Param) :=
  [((prefix ++ "weight")%string,
    mkParam (weight e) (weight_requires_grad e) None (padding_idx e))].

Definition LSTM_parameters (prefix : string) (l : LSTM)
  : list (string * Param) :=
  map (fun '(n, t) => ((prefix ++ n)%string, mkParam t true None None))
      (weights_fwd l ++ weights_bwd l).

Definition CharacterRepresentationEncoder_parameters (prefix : string)
    (m : CharacterRepresentationEncoder) : list (string * Param) :=
  Embedding_parameters (prefix ++ "char_encoder.") (cre_char_encoder m) ++
  LSTM_parameters (prefix ++ "lstm.") (cre_lstm m).

Definition WordRepresentationLayer_parameters (prefix : string)
    (m : WordRepresentationLayer) : list (string * Param) :=
  Embedding_parameters (prefix ++ "word_encoder.") (wrl_word_encoder m) ++
  CharacterRepresentationEncoder_parameters (prefix ++ "char_encoder.")
    (wrl_char_encoder m).

End WithFramework.

(** *** The module body, as the importer executes it *)

Inductive stmt : Type :=
| Import (path : list string)                    (* import a.b.c *)
| ImportAs (path : list string) (alias : string) (* import a.b.c as x *)
| Def (name : string)
| ClassDef (name : string) (base : list string)  (* class name(base): ... *)
| IfNameCalled.                                  (* if __name__() == ...: *)

Definition layers_py : list stmt :=
  [ Import ["torch"];
    ImportAs ["torch"; "nn"] "nn";
    ImportAs ["torch"; "nn"; "Functional"] "F";
    Import ["plac"];
    Def "main";
    ClassDef "CharacterRepresentationEncoder" ["nn"; "Module"];
    ClassDef "WordRepresentationLayer" ["nn"; "Module"];
    ClassDef "ContextRepresentationLayer" ["nn"; "Module"];
    ClassDef "MatchingLayer" ["nn"; "Module"];
    ClassDef "AggregationLayer" ["nn"; "Module"];
    ClassDef "PredictionLayer" ["nn"; "Module"];
    IfNameCalled ].

Definition layer_classes : list string :=
  ["CharacterRepresentationEncoder"; "WordRepresentationLayer";
   "ContextRepresentationLayer"; "MatchingLayer"; "AggregationLayer";
   "PredictionLayer"].

Definition dotted (path : list string) : string := String.concat "." path.

(** Import the packages [a], [a.b], [a.b.c] in turn; the first one that
    is not installed raises. *)
Fixpoint import_path (installed : gset string) (done todo : list string)
  : result unit :=
  match todo with
  | [] => Ok tt
  | c :: todo' =>
      let name := dotted (done ++ [c]) in
      if decide (name ∈ installed) then import_path installed (done ++ [c]) todo'
      else Raise (ModuleNotFoundError name)
  end.

(** Execute one statement in the module namespace [ns] (the bound names). *)
Definition exec_stmt (installed : gset string) (ns : list string) (st : stmt)
  : result (list string) :=
  match st with
  | Import path =>
      _ ← import_path installed [] path;
      Ok (ns ++ take 1 path)
  | ImportAs path alias =>
      _ ← import_path installed [] path;
      Ok (ns ++ [alias])
  | Def name => Ok (ns ++ [name])
  | ClassDef name base =>
      match base with
      | b :: _ => if mem b ns then Ok (ns ++ [name]) else Raise (NameError b)
      | [] => Ok (ns ++ [name])
      end
  | IfNameCalled => Raise (TypeError "'str' object is not callable")
  end.

(** Run the body; on an exception, report it with the names bound so far. *)
Fixpoint exec_body (installed : gset string) (ns : list string)
    (body : list stmt) : result unit * list string :=
  match body with
  | [] => (Ok tt, ns)
  | st :: body' =>
      match exec_stmt installed ns st with
      | Ok ns' => exec_body installed ns' body'
      | Raise e => (Raise e, ns)
      end
  end.

(** [import model.layers]: the module object exists only if its body ran
    to the end. *)
Definition import_layers (installed : gset string) : result (list string) :=
  match exec_body installed ["__name__"] layers_py with
  | (Ok _, ns) => Ok ns
  | (Raise e, _) => Raise e
  end.

(** [from model.layers import name] *)
Definition from_layers_import (installed : gset string) (name : string)
  : result unit :=
  ns ← import_layers installed;
  if mem name ns then Ok tt else Raise (ImportError name).

End Layers.

(** ** Objects on the heap *)

Module Heap.

Definition with_tensors (w : World) (t : gmap loc Param) : World :=
  mkWorld t (modules w) (grad_enabled w) (dirs w) (files w) (trace w).

Definition with_modules (w : World) (m : gmap loc Module_) : World :=
  mkWorld (tensors w) m (grad_enabled w) (dirs w) (files w) (trace w).

Definition alloc_param (p : Param) : M loc :=
  fun w => let l := fresh (dom (tensors w)) in
           (Ok l, with_tensors w (<[l := p]> (tensors w))).

Definition alloc_module (m : Module_) : M loc :=
  fun w => let l := fresh (dom (modules w)) in
           (Ok l, with_modules w (<[l := m]> (modules w))).

(** Allocating a list of parameters one after the other, each at the
    first free location. *)
Fixpoint alloc_all (ps : list (string * Param)) (t : gmap loc Param)
  : list (string * loc) * gmap loc Param :=
  match ps with
  | [] => ([], t)
  | (n, p) :: ps' =>
      let l := fresh (dom t) in
      let '(ls, t') := alloc_all ps' (<[l := p]> t) in
      ((n, l) :: ls, t')
  end.

Definition alloc_params (ps : list (string * Param)) : M (list (string * loc)) :=
  fun w => let '(ls, t) := alloc_all ps (tensors w) in
           (Ok ls, with_tensors w t).

(** The locations a list of named parameters refers to. *)
Definition locs (ps : list (string * loc)) : list loc := map snd ps.

(** The module object a reference denotes. *)
Definition module_at (w : World) (m : loc) : Module_ :=
  default (mkModule [] true) (modules w !! m).

(** The parameter tensors of a module, in registration order. *)
Definition params_of (w : World) (m : loc) : list Param :=
  omap (fun '(_, l) => tensors w !! l) (named_parameters (module_at w m)).

Definition param_values (w : World) (m : loc) : list Tensor :=
  map data (params_of w m).

(** [m.train()] and [m.eval()] *)
Definition set_training (m : loc) (b : bool) : M unit :=
  modify (fun w =>
    with_modules w (alter (fun o => mkModule (named_parameters o) b) m (modules w))).

(** The world after some events were recorded, and after a mode switch. *)
Definition log (w : World) (es : list event) : World :=
  mkWorld (tensors w) (modules w) (grad_enabled w) (dirs w) (files w)
          (trace w ++ es).

Definition set_mode (w : World) (m : loc) (b : bool) : World :=
  with_modules w (alter (fun o => mkModule (named_parameters o) b) m (modules w)).


(** [m.state_dict()] *)
Definition state_dict (w : World) (m : loc) : list (string * Tensor) :=
  omap (fun '(n, l) => p ← tensors w !! l; Some (n, data p))
       (named_parameters (module_at w m)).

(** The copies [copy.deepcopy] makes of a module's parameters: same
    values and flags, no gradient. *)
Fixpoint copies (t : gmap loc Param) (ps : list (string * loc))
  : result (list (string * Param)) :=
  match ps with
  | [] => Ok []
  | (n, l) :: ps' =>
      match t !! l with
      | Some p =>
          cs ← copies t ps';
          Ok ((n, mkParam (data p) (requires_grad p) None (padding_row p)) :: cs)
      | None => Raise (RuntimeError "dangling parameter")
      end
  end.

(** [copy.deepcopy(m)]: fresh parameter objects holding the same values,
    in a fresh module object. *)
Definition deepcopy (m : loc) : M loc :=
  w ← get;
  let o := module_at w m in
  cs ← lift (copies (tensors w) (named_parameters o));
  ps ← alloc_params cs;
  alloc_module (mkModule ps (training o)).

End Heap.
Import Heap.

(** ** The repository modules that are not among the sources *)

(** What the drivers read from a data object of [model/utils.py]. *)
Record ModelData `{Framework} : Type := mkModelData {
  train_iter : list Batch;
  valid_iter : list Batch;
  test_iter : list Batch;
  batch : option Batch;            (* set by AppData only *)
  keep_training : nat -> bool;     (* by the number of batches drawn before *)
  char_vocab : nat;                (* len(model_data.char_vocab) *)
  TEXT_vocab : nat;                (* len(model_data.TEXT.vocab) *)
  LABEL_vocab : nat;               (* len(model_data.LABEL.vocab) *)
  max_word_len : value;
  vectors : Tensor                 (* model_data.TEXT.vocab.vectors *)
}.
Arguments mkModelData {_} _ _ _ _ _ _ _ _ _ _.

Class Repo `{Framework} : Type := {
  SNLI : pyobj -> ModelData;
  Quora : pyobj -> ModelData;
  AppData : pyobj -> ModelData;
  (** the name under which [BiMPM] registers its word representation
      layer, and the parameters of its other layers *)
  word_layer_name : string;
  other_parameters : pyobj -> ModelData -> list (string * Param);
  (** [torch.device('cuda:0' if torch.cuda.is_available() else 'cpu')] *)
  device : value
}.

Module Bimpm.
Section WithRepo.
Context `{Repo}.

(** Modelled from the spec: [model/bimpm.py] is not among the sources.
    Per the spec's overview the model's pipeline starts with the Word
    Representation Layer, so [BiMPM(args, data)] builds that layer with
    [layers.py] and registers its parameters first, followed by the
    parameters of the remaining layers, which are left abstract.  The new
    module starts in training mode, as every [nn.Module] does. *)
Definition BiMPM (args : pyobj) (model_data : ModelData) : M loc :=
  wrl ← lift (Layers.WordRepresentationLayer_init args (vectors model_data));
  ps ← alloc_params
         (Layers.WordRepresentationLayer_parameters
            (word_layer_name ++ ".")%string wrl ++
          other_parameters args model_data);
  alloc_module (mkModule ps true).

(** [model(p, q)]: the forward pass sees the current parameter values and
    the module's mode; the call is recorded with both switches. *)
Definition call_model (model : loc) (s : Sentence) : M (list (list Q)) :=
  w ← get;
  let mode := training (module_at w model) in
  _ ← emit (Forward model mode (grad_enabled w));
  mret (model_forward (param_values w model) mode s).

End WithRepo.
End Bimpm.
Import Bimpm.

(** ** test.py *)

Module Test.
Section WithRepo.
Context `{Repo}.

Inductive test_result : Type :=
| Metrics (loss : Q) (acc : num)
| AppPreds (row : list Q).

(** Index of the first largest entry of a row. *)
Fixpoint argmax_from (best : Q) (besti i : nat) (l : list Q) : nat :=
  match l with
  | [] => besti
  | x :: l' =>
      if Qle_bool x best then argmax_from best besti (S i) l'
      else argmax_from x i (S i) l'
  end.

(** [preds.max(dim=1)], indices only. *)
Fixpoint max_dim1 (preds : list (list Q)) : result (list nat) :=
  match preds with
  | [] => Ok []
  | [] :: _ => Raise (RuntimeError "cannot perform reduction on an empty dimension")
  | (x :: r) :: preds' =>
      idx ← max_dim1 preds';
      Ok (argmax_from x 0 1 r :: idx)
  end.

Definition count_eq (a b : list nat) : nat :=
  length (filter (fun '(x, y) => x = y) (zip a b)).

(** [(preds == label).sum()], with broadcasting of a single element. *)
Definition eq_sum (preds labels : list nat) : result nat :=
  if (length preds =? length labels)%nat then Ok (count_eq preds labels)
  else match preds, labels with
       | [x], _ => Ok (count_eq (repeat x (length labels)) labels)
       | _, [y] => Ok (count_eq preds (repeat y (length preds)))
       | _, _ => Raise (RuntimeError "The size of tensor a must match the size of tensor b")
       end.

(** The accumulators of the evaluation loop.  [acc] is the integer [0]
    until the first batch turns it into a tensor. *)
Record Acc : Type := mkAcc {
  acc : option Q;
  loss : Q;
  size : nat
}.

Definition test_body (model : loc) (args : pyobj) (b : Batch) (a : Acc)
  : M Acc :=
  dt ← lift (getattr args "data_type");
  dev ← lift (getattr args "device");
  let pq := generate b dt dev in
  preds ← call_model model pq;
  let batch_loss := CrossEntropyLoss preds (label b) in
  let loss := (loss a + batch_loss)%Q in
  preds ← lift (max_dim1 preds);
  correct ← lift (eq_sum preds (label b));
  let acc := (default 0%Q (acc a) + inject_Z (Z.of_nat correct))%Q in
  mret (mkAcc (Some acc) loss (size a + length preds)).

Fixpoint test_loop (model : loc) (args : pyobj) (iterator : list Batch)
    (a : Acc) : M Acc :=
  match iterator with
  | [] => mret a
  | b :: rest => a' ← test_body model args b a; test_loop model args rest a'
  end.

(** [acc /= size]: integer division by zero raises; a tensor divided by
    zero is NaN or infinite. *)
Definition div_size (a : Acc) : result num :=
  match acc a with
  | None =>
      if (size a =? 0)%nat then Raise ZeroDivisionError
      else Ok (Fin (0 / inject_Z (Z.of_nat (size a))))
  | Some x =>
      if (size a =? 0)%nat then Ok (if Qeq_bool x 0 then NaN else Inf)
      else Ok (Fin (x / inject_Z (Z.of_nat (size a))))
  end.

(** Lines 156 to 175: the loop over the chosen iterator, which is unbound
    when [mode] named no split. *)
Definition test_split (model : loc) (args : pyobj)
    (iterator : option (list Batch)) : M test_result :=
  match iterator with
  | None => raise (UnboundLocalError "iterator")
  | Some it =>
      a ← test_loop model args it (mkAcc None 0 0);
      acc ← lift (div_size a);
      mret (Metrics (loss a) acc)
  end.

Definition test (model : loc) (args : pyobj) (model_data : ModelData)
    (mode : string) : M test_result :=
  _ ← set_training model false;
  if String.eqb mode "valid" then
    test_split model args (Some (valid_iter model_data))
  else if String.eqb mode "test" then
    test_split model args (Some (test_iter model_data))
  else if String.eqb mode "app" then
    match batch model_data with
    | None => raise (AttributeError "ModelData" "batch")
    | Some b =>
        dt ← lift (getattr args "data_type");
        dev ← lift (getattr args "device");
        preds ← call_model model (generate b dt dev);
        match preds with
        | row :: _ => mret (AppPreds row)
        | [] => raise IndexError
        end
    end
  else test_split model args None.

(** *** The evaluation as a function of the parameter values

    What [test] computes, stated over the values of the model's
    parameters instead of the heap. *)

(** Loss, number of correct predictions and number of predictions of one
    batch, for a model in inference mode. *)
Definition batch_stats (values : list Tensor) (dt dev : value) (b : Batch)
  : result (Q * nat * nat) :=
  let preds := model_forward values false (generate b dt dev) in
  idx ← max_dim1 preds;
  correct ← eq_sum idx (label b);
  Ok (CrossEntropyLoss preds (label b), correct, length idx).

Fixpoint split_stats (values : list Tensor) (dt dev : value)
    (it : list Batch) : result (list (Q * nat * nat)) :=
  match it with
  | [] => Ok []
  | b :: rest =>
      s ← batch_stats values dt dev b;
      ss ← split_stats values dt dev rest;
      Ok (s :: ss)
  end.

Definition add_stats (a : Acc) (s : Q * nat * nat) : Acc :=
  let '(l, c, n) := s in
  mkAcc (Some (default 0%Q (acc a) + inject_Z (Z.of_nat c))%Q)
        (loss a + l)%Q (size a + n).

(** The value [test] returns for a split with the given batch statistics. *)
Definition metrics_of (stats : list (Q * nat * nat)) : result test_result :=
  let a := fold_left add_stats stats (mkAcc None 0 0) in
  acc ← div_size a;
  Ok (Metrics (loss a) acc).

Definition Qsum (l : list Q) : Q := fold_left Qplus l 0%Q.

Definition total_loss (stats : list (Q * nat * nat)) : Q :=
  Qsum (map (fun s => fst (fst s)) stats).

Definition total_correct (stats : list (Q * nat * nat)) : nat :=
  sum_list (map (fun s => snd (fst s)) stats).

Definition total_size (stats : list (Q * nat * nat)) : nat :=
  sum_list (map snd stats).

(** The claim's words: the mean of the batch losses over the split. *)
Definition mean_loss (stats : list (Q * nat * nat)) : Q :=
  (total_loss stats / inject_Z (Z.of_nat (length stats)))%Q.


(** [load_state_dict], strict: same keys in the same order of names, same
    shapes; the values are copied into the module's parameters. *)
Fixpoint load_into (ps : list (string * loc)) (sd : list (string * Tensor))
  : M unit :=
  match ps with
  | [] => mret tt
  | (n, l) :: ps' =>
      match assoc n sd with
      | None => raise (RuntimeError "Missing key(s) in state_dict")
      | Some t =>
          w ← get;
          match tensors w !! l with
          | None => raise (RuntimeError "dangling parameter")
          | Some p =>
              if decide (shape (data p) = shape t) then
                _ ← put (with_tensors w
                           (<[l := mkParam t (requires_grad p) (grad p)
                                           (padding_row p)]> (tensors w)));
                load_into ps' sd
              else raise (RuntimeError "size mismatch")
          end
      end
  end.

Definition load_state_dict (model : loc) (sd : list (string * Tensor))
  : M unit :=
  w ← get;
  let names := map fst (named_parameters (module_at w model)) in
  if forallb (fun k => mem k names) (map fst sd) then
    load_into (named_parameters (module_at w model)) sd
  else raise (RuntimeError "Unexpected key(s) in state_dict").

Definition load_model (args : pyobj) (model_data : ModelData) : M loc :=
  model ← BiMPM args model_data;
  path ← lift (getattr args "model_path");
  dev ← lift (getattr args "device");
  path ← lift (as_str path);
  w ← get;
  match files w !! path with
  | None => raise (FileNotFoundError path)
  | Some sd =>
      _ ← load_state_dict model sd;
      dev ← lift (getattr args "device");
      mret model
  end.

(** The parameters of [main], in declaration order. *)
Record MainArgs : Type := mkMainArgs {
  experiment : value;
  app : value;
  model_path : value;
  batch_size : value;
  char_input_size : value;
  char_hidden_size : value;
  data_type : value;
  dropout : value;
  epoch : value;
  hidden_size : value;
  lr : value;
  num_perspectives : value;
  print_interval : value;
  word_dim : value
}.

Definition locals (a : MainArgs) : items :=
  [("experiment", experiment a); ("app", app a); ("model_path", model_path a);
   ("batch_size", batch_size a); ("char_input_size", char_input_size a);
   ("char_hidden_size", char_hidden_size a); ("data_type", data_type a);
   ("dropout", dropout a); ("epoch", epoch a); ("hidden_size", hidden_size a);
   ("lr", lr a); ("num_perspectives", num_perspectives a);
   ("print_interval", print_interval a); ("word_dim", word_dim a)].

(** Modelled from the spec: [model/utils.py], where [Args] is defined, is
    not among the sources.  [Args(d)] is taken to be what the comment at
    its use in line 70 (store the local namespace dict in an Args object)
    and the attribute reads and assignments that follow it require: an
    object carrying the entries of the dict [d] as attributes. *)
Definition Args (d : items) : pyobj := Namespace "Args" d.

(** [o.name = v] *)
Definition setattr (o : pyobj) (name : string) (v : value) : result pyobj :=
  match o with
  | Namespace cls attrs => Ok (Namespace cls (setitem name v attrs))
  | NamedTuple _ _ => Raise (AttributeError "namedtuple" name)
  | Dict _ => Raise (AttributeError "dict" name)
  end.

Definition lower_ascii (c : ascii) : ascii :=
  let n := nat_of_ascii c in
  if ((65 <=? n) && (n <=? 90))%nat then ascii_of_nat (n + 32) else c.

Fixpoint lower (s : string) : string :=
  match s with
  | EmptyString => EmptyString
  | String c s' => String (lower_ascii c) (lower s')
  end.

(** [v.lower()] *)
Definition str_lower (v : value) : result value :=
  match v with
  | VStr s => Ok (VStr (lower s))
  | _ => Raise (AttributeError "object" "lower")
  end.

Definition nat_value (n : nat) : value := VInt (Z.of_nat n).

(** Lines 76 to 97: the choice of the data source. *)
Definition load_data (a : MainArgs) (args : pyobj) : M ModelData :=
  if truthy (app a) then
    _ ← emit (Print "Loading App data...");
    mret (AppData args)
  else
    dt ← lift (getattr args "data_type");
    dt ← lift (str_lower dt);
    if str_eq dt "snli" then
      _ ← emit (Print "Loading SNLI data...");
      mret (SNLI args)
    else
      dt ← lift (getattr args "data_type");
      dt ← lift (str_lower dt);
      if str_eq dt "quora" then
        _ ← emit (Print "Loading Quora data...");
        mret (Quora args)
      else
        raise (RuntimeError "Data source other than SNLI or Quora was provided.").

(** Lines 71 to 74 and 100 to 103: the argument object [main] hands to
    [load_model], once the data object is known. *)
Definition main_args (a : MainArgs) (model_data : ModelData) : result pyobj :=
  args ← setattr (Args (locals a)) "device" device;
  args ← setattr args "word_vocab_size" (nat_value (TEXT_vocab model_data));
  args ← setattr args "char_vocab_size" (nat_value (char_vocab model_data));
  args ← setattr args "class_size" (nat_value (LABEL_vocab model_data));
  setattr args "max_word_len" (max_word_len model_data).

Definition main (a : MainArgs) : M unit :=
  let args := Args (locals a) in
  args ← lift (setattr args "device" device);
  model_data ← load_data a args;
  args ← lift (setattr args "word_vocab_size" (nat_value (TEXT_vocab model_data)));
  args ← lift (setattr args "char_vocab_size" (nat_value (char_vocab model_data)));
  args ← lift (setattr args "class_size" (nat_value (LABEL_vocab model_data)));
  args ← lift (setattr args "max_word_len" (max_word_len model_data));
  _ ← emit (Print "Loading model...");
  model ← load_model args model_data;
  if truthy (app a) then
    w ← get;
    _ ← (if decide ("./pickle/" ∈ dirs w) then mret tt
         else put (mkWorld (tensors w) (modules w) (grad_enabled w)
                     ({["./pickle/"]} ∪ dirs w) (files w) (trace w)));
    w ← get;
    _ ← put (mkWorld (tensors w) (modules w) (grad_enabled w) (dirs w)
               (<["./pickle/app_args.pkl" := []]> (files w)) (trace w));
    r ← test model args model_data "app";
    match r with
    | AppPreds row => emit (PrintMetrics (map (fun x => ("preds", Fin x)) row))
    | Metrics l a => emit (PrintMetrics [("preds", Fin l); ("preds", a)])
    end
  else
    r ← test model args model_data "test";
    match r with
    | Metrics _ test_acc => emit (PrintMetrics [("test_acc", test_acc)])
    | AppPreds _ => raise (ValueError "not enough values to unpack")
    end.

End WithRepo.
End Test.

(** ** train.py *)

Module Train.
Section WithRepo.
Context `{Repo}.

(** *** The optimizer *)

Record Optimizer : Type := mkOptimizer {
  param_group : list loc;
  opt_lr : value;
  opt_state : gmap loc (list adam_state)
}.

(** [optim.Adam(params, lr=lr)] *)
Definition Adam (params : list loc) (lr : value) : result Optimizer :=
  match params with
  | [] => Raise (ValueError "optimizer got an empty parameter list")
  | _ => Ok (mkOptimizer params lr ∅)
  end.

Definition set_grad (p : Param) (g : option (list Q)) : Param :=
  mkParam (data p) (requires_grad p) g (padding_row p).

Definition set_data (p : Param) (xs : list Q) : Param :=
  mkParam (mkTensor (shape (data p)) xs) (requires_grad p) (grad p)
          (padding_row p).

(** [optimizer.zero_grad()]: existing gradients of the optimizer's
    parameters are zeroed. *)
Definition zero_grad_map (o : Optimizer) (t : gmap loc Param) : gmap loc Param :=
  foldr (fun l t =>
           alter (fun p => set_grad p ((fun g => map (fun _ => 0%Q) g) <$> grad p))
                 l t)
        t (param_group o).

Definition zero_grad (o : Optimizer) : M unit :=
  modify (fun w => with_tensors w (zero_grad_map o (tensors w))).

(** The gradient that reaches a weight: the padding row of an embedding
    receives none. *)
Definition mask_grad (p : Param) (g : list Q) : list Q :=
  match padding_row p with
  | Some k => Layers.zero_row k (default 0 (shape (data p) !! 1)) g
  | None => g
  end.

Definition accumulate (old : option (list Q)) (g : list Q) : list Q :=
  match old with
  | None => g
  | Some o => zip_with Qplus o g
  end.

Definition receive_grad (g : list Q) (p : Param) : Param :=
  if requires_grad p
  then set_grad p (Some (accumulate (grad p) (mask_grad p g)))
  else p.

(** [batch_loss.backward()]: every parameter of the model that requires a
    gradient accumulates its own. *)
Definition backward_map (ps : list (string * loc)) (gs : list (list Q))
    (t : gmap loc Param) : gmap loc Param :=
  foldr (fun '((_, l), g) t => alter (receive_grad g) l t) t (zip ps gs).

Definition backward (model : loc) (s : Sentence) (labels : list nat) : M unit :=
  modify (fun w =>
    with_tensors w
      (backward_map (named_parameters (module_at w model))
                    (autograd (param_values w model) s labels)
                    (tensors w))).

(** One Adam update of a flat tensor, element by element. *)
Definition adam_tensor (lr : value) (ss : list adam_state) (xs gs : list Q)
  : list adam_state * list Q :=
  let r := imap (fun i x => adam lr (default adam_init (ss !! i)) x
                                 (default 0%Q (gs !! i))) xs in
  (map fst r, map snd r).

(** The update of one parameter of the group; a parameter without a
    gradient is skipped. *)
Definition step_param (ot : Optimizer * gmap loc Param) (l : loc)
  : Optimizer * gmap loc Param :=
  let '(o, t) := ot in
  match t !! l with
  | Some p =>
      match grad p with
      | Some g =>
          let '(ss, xs) := adam_tensor (opt_lr o)
                             (default [] (opt_state o !! l))
                             (elems (data p)) g in
          (mkOptimizer (param_group o) (opt_lr o) (<[l := ss]> (opt_state o)),
           <[l := set_data p xs]> t)
      | None => (o, t)
      end
  | None => (o, t)
  end.

Definition step_map (o : Optimizer) (t : gmap loc Param)
  : Optimizer * gmap loc Param :=
  foldl step_param (o, t) (param_group o).

(** [optimizer.step()] *)
Definition step (o : Optimizer) : M Optimizer :=
  fun w => let '(o', t) := step_map o (tensors w) in
           (Ok o', with_tensors w t).

(** *** Relating two states of the parameter map *)

(** The three operations of one step, in the order the loop runs them. *)
Definition update (o : Optimizer) (ps : list (string * loc))
    (gs : list (list Q)) (t : gmap loc Param)
  : Optimizer * gmap loc Param :=
  step_map o (backward_map ps gs (zero_grad_map o t)).

(** Two states of a parameter that differ in its gradient only. *)
Definition same_weights (p p' : Param) : Prop :=
  data p = data p' /\ requires_grad p = requires_grad p' /\
  padding_row p = padding_row p'.

(** Two states of a parameter that differ in its elements only. *)
Definition same_kind (p p' : Param) : Prop :=
  shape (data p) = shape (data p') /\ requires_grad p = requires_grad p' /\
  padding_row p = padding_row p'.

Definition related (R : Param -> Param -> Prop) (t t' : gmap loc Param) : Prop :=
  forall l, option_Forall2 R (t !! l) (t' !! l).

(** *** The padding row of an embedding table *)

(** The first [d] entries of a flat tensor are zero: row 0 of a table of
    width [d]. *)
Definition zero_prefix (d : nat) (l : list Q) : Prop :=
  forall i x, (i < d)%nat -> l !! i = Some x -> x = 0%Q.

(** A table of [n] entries and width [d] with padding index 0 whose
    padding row is zero and has received no gradient. *)
Definition pad_ok (d n : nat) (p : Param) : Prop :=
  padding_row p = Some 0%nat /\
  shape (data p) !! 1%nat = Some d /\
  length (elems (data p)) = n /\
  zero_prefix d (elems (data p)) /\
  forall g, grad p = Some g -> zero_prefix d g.

(** The table at [l] is in that state, and the optimizer's per-entry
    states for its padding row satisfy [quiet]. *)
Definition padded (quiet : adam_state -> Prop) (l : loc) (d n : nat)
    (t : gmap loc Param) (o : Optimizer) : Prop :=
  (exists p, t !! l = Some p /\ pad_ok d n p) /\
  forall ss i s, opt_state o !! l = Some ss -> (i < d)%nat ->
                 ss !! i = Some s -> quiet s.


(** *** The training loop *)

Definition num_gt (a b : num) : bool :=
  match a, b with
  | Fin x, Fin y => negb (Qle_bool x y)
  | Inf, Fin _ => true
  | _, _ => false
  end.

(** The local variables of [train] that the loop updates; [best_model]
    and the pair [(p, q)] are unbound until first assigned. *)
Record Locals : Type := mkLocals {
  train_loss : Q;
  max_valid_acc : num;
  max_test_acc : num;
  best_model : option loc;
  pq : option Sentence;
  optimizer : Optimizer
}.

Definition unpack (r : Test.test_result) : M (Q * num) :=
  match r with
  | Test.Metrics l a => mret (l, a)
  | Test.AppPreds _ => raise (ValueError "not enough values to unpack")
  end.

(** [a % b == 0] and [a // b] on Python integers *)
Definition py_mod (a b : Z) : result Z :=
  if (b =? 0)%Z then Raise ZeroDivisionError else Ok (a mod b)%Z.

Definition py_floordiv (a b : Z) : result Z :=
  if (b =? 0)%Z then Raise ZeroDivisionError else Ok (a / b)%Z.

(** Lines 89 to 113: the periodic evaluation. *)
Definition evaluate (model : loc) (args : pyobj) (model_data : ModelData)
    (i : nat) (st : Locals) : M Locals :=
  r ← Test.test model args model_data "valid";
  '(valid_loss, valid_acc) ← unpack r;
  r ← Test.test model args model_data "test";
  '(test_loss, test_acc) ← unpack r;
  pi ← lift (getattr args "print_interval");
  pi ← lift (as_int pi);
  c ← lift (py_floordiv (Z.of_nat i + 1) pi);
  _ ← emit (AddScalar "loss/train" (Fin (train_loss st)) c);
  _ ← emit (AddScalar "loss/valid" (Fin valid_loss) c);
  _ ← emit (AddScalar "acc/valid" valid_acc c);
  _ ← emit (AddScalar "loss/test" (Fin test_loss) c);
  _ ← emit (AddScalar "acc/test" test_acc c);
  _ ← emit (PrintMetrics [("train_loss", Fin (train_loss st));
                          ("valid_loss", Fin valid_loss);
                          ("test_loss", Fin test_loss);
                          ("valid_acc", valid_acc);
                          ("test_acc", test_acc)]);
  st ← (if num_gt valid_acc (max_valid_acc st) then
          copy ← deepcopy model;
          mret (mkLocals (train_loss st) valid_acc test_acc (Some copy)
                         (pq st) (optimizer st))
        else mret st);
  _ ← set_training model true;
  mret (mkLocals 0 (max_valid_acc st) (max_test_acc st) (best_model st)
                 (pq st) (optimizer st)).

(** [batch_loss.data[0]], line 84: the loss of a batch is a 0-dim tensor,
    and indexing it is what the release of the tensor library makes it. *)
Definition scalar_index (x : Q) : result Q :=
  if scalar_index_allowed then Ok x else Raise IndexError.

(** Lines 78 to 113: the body of the loop, after the budget check. *)
Definition train_body (model : loc) (args : pyobj) (model_data : ModelData)
    (i : nat) (b : Batch) (st : Locals) : M Locals :=
  dt ← lift (getattr args "data_type");
  gpu ← lift (getattr args "gpu");
  let s := generate b dt gpu in
  preds ← call_model model s;
  _ ← zero_grad (optimizer st);
  let batch_loss := CrossEntropyLoss preds (label b) in
  item ← lift (scalar_index batch_loss);
  let train_loss := (train_loss st + item)%Q in
  _ ← backward model s (label b);
  o ← step (optimizer st);
  let st := mkLocals train_loss (max_valid_acc st) (max_test_acc st)
                     (best_model st) (Some s) o in
  pi ← lift (getattr args "print_interval");
  pi ← lift (as_int pi);
  r ← lift (py_mod (Z.of_nat i + 1) pi);
  if (r =? 0)%Z then evaluate model args model_data i st else mret st.

(** [for i, batch in enumerate(iterator)], leaving at the first batch for
    which [keep_training] answers no. *)
Fixpoint train_loop (model : loc) (args : pyobj) (model_data : ModelData)
    (i : nat) (iterator : list Batch) (st : Locals) : M Locals :=
  match iterator with
  | [] => mret st
  | b :: rest =>
      if keep_training model_data i then
        st' ← train_body model args model_data i b st;
        train_loop model args model_data (S i) rest st'
      else mret st
  end.

(** [(p for p in model.parameters() if p.requires_grad)] *)
Definition trainable (w : World) (model : loc) : list loc :=
  omap (fun '(_, l) =>
          p ← tensors w !! l;
          if requires_grad p then Some l else None)
       (named_parameters (module_at w model)).

(** [model.cuda(device)], line 62, on a model that has parameters, as
    the one [setup] builds always has (the word embedding at least): each
    of them is asked to move.  A [bool] is no device: the call raises
    [TypeError] whatever the machine; for any other value the CUDA
    runtime answers, and on success the parameters are moved. *)
Definition model_cuda (model : loc) (device : value) : M unit :=
  match device with
  | VBool _ =>
      raise (TypeError "cuda(): argument 'device' must be torch.device, not bool")
  | _ => _ ← lift (cuda device); emit (Cuda model)
  end.

(** Lines 60 to 72: the model, the optimizer over its trainable
    parameters, the writer, and the initial values of the locals. *)
Definition setup (args : pyobj) (model_data : ModelData) : M (loc * Locals) :=
  model ← BiMPM args model_data;
  gpu ← lift (getattr args "gpu");
  _ ← (if truthy gpu then
         gpu ← lift (getattr args "gpu");
         model_cuda model gpu
       else mret tt);
  w ← get;
  let parameters := trainable w model in
  lr ← lift (getattr args "lr");
  optimizer ← lift (Adam parameters lr);
  mt ← lift (getattr args "model_time");
  mt ← lift (as_str mt);
  _ ← emit (WriterOpen ("runs/" ++ mt)%string);
  _ ← set_training model true;
  mret (model, mkLocals 0 (Fin 0) (Fin 0) None None optimizer).

(** Lines 115 to 122: the summary, the graph of the best model, and the
    return value; [best_model], [p] and [q] must be bound by then. *)
Definition finish (st : Locals) : M loc :=
  _ ← emit (PrintMetrics [("max_valid_acc", max_valid_acc st);
                          ("max_test_acc", max_test_acc st)]);
  match best_model st with
  | None => raise (UnboundLocalError "best_model")
  | Some best =>
      match pq st with
      | None => raise (UnboundLocalError "p")
      | Some _ =>
          _ ← emit (AddGraph best);
          _ ← emit WriterClose;
          mret best
      end
  end.

Definition train (args : pyobj) (model_data : ModelData) : M loc :=
  '(model, st) ← setup args model_data;
  st ← train_loop model args model_data 0 (train_iter model_data) st;
  finish st.

(** *** The course of a training run *)

(** The number of iterations the loop performs. *)
Fixpoint iterations (model_data : ModelData) (i : nat) (iterator : list Batch)
  : nat :=
  match iterator with
  | [] => 0
  | _ :: rest =>
      if keep_training model_data i
      then S (iterations model_data (S i) rest)
      else 0
  end.

(** The locals and the world once [k] iterations are done, starting the
    loop from [st] and [w]. *)
Definition after (model : loc) (args : pyobj) (model_data : ModelData)
    (k : nat) (st : Locals) (w : World) : result Locals * World :=
  train_loop model args model_data 0 (take k (train_iter model_data)) st w.

(** The iterations, counted from one, that end in a validation pass. *)
Definition evaluations (pi : Z) (n : nat) : list nat :=
  filter (fun k => (Z.of_nat k mod pi)%Z = 0%Z) (seq 1 n).

(** The validation accuracy of a model with the given parameter values. *)
Definition valid_accuracy (values : list Tensor) (dt dev : value)
    (model_data : ModelData) : num :=
  match Test.split_stats values dt dev (valid_iter model_data) ≫= Test.metrics_of with
  | Ok (Test.Metrics _ a) => a
  | _ => NaN
  end.

(** The test accuracy of a model with the given parameter values. *)
Definition test_accuracy (values : list Tensor) (dt dev : value)
    (model_data : ModelData) : num :=
  match Test.split_stats values dt dev (test_iter model_data) ≫= Test.metrics_of with
  | Ok (Test.Metrics _ a) => a
  | _ => NaN
  end.

(** What each validation pass among the first [n] iterations of the run
    saw: the accuracy it measured and the model's parameter values at
    that time. *)
Definition records (model : loc) (args : pyobj) (model_data : ModelData)
    (dt dev : value) (pi : Z) (st : Locals) (w : World) (n : nat)
  : list (num * list Tensor) :=
  map (fun k =>
         let values := param_values (snd (after model args model_data k st w)) model in
         (valid_accuracy values dt dev model_data, values))
      (evaluations pi n).

(** The spec's words: a validation result that improves on the best
    accuracy seen so far replaces the retained snapshot; the baseline is
    accuracy zero and no snapshot. *)
Definition retain {V : Type} (best : num * option V) (r : num * V)
  : num * option V :=
  if num_gt (fst r) (fst best) then (fst r, Some (snd r)) else best.

Definition best_so_far {V : Type} (rs : list (num * V)) : num * option V :=
  fold_left retain rs (Fin 0, None).

(** [best] holds the snapshot [values]: it is unbound when there is no
    snapshot; otherwise it refers to a module other than the model whose
    parameter objects are neither parameters of the model nor known to
    the optimizer, and whose values are [values]. *)
Definition retained (model : loc) (ps : list (string * loc))
    (group : list loc) (w : World) (best : option loc)
    (snapshot : option (list Tensor)) : Prop :=
  match snapshot with
  | None => best = None
  | Some values =>
      exists c cps mode,
        best = Some c /\ c <> model /\
        modules w !! c = Some (mkModule cps mode) /\
        Forall (fun l => is_Some (tensors w !! l) /\ (l ∉ locs ps) /\ (l ∉ group))
               (locs cps) /\
        param_values w c = values
  end.


(** *** The entry point *)

(** The parameters of [main], in declaration order. *)
Record MainArgs : Type := mkMainArgs {
  batch_size : value;
  char_dim : value;
  char_hidden_size : value;
  data_type : value;
  dropout : value;
  epoch : value;
  gpu : value;
  hidden_size : value;
  lr : value;
  num_perspectives : value;
  print_interval : value;
  word_dim : value
}.

(** The defaults of the signature; [data_type] defaults to a list. *)
Definition defaults : MainArgs :=
  mkMainArgs (VInt 64) (VInt 20) (VInt 50) (VList [VStr "SNLI"; VStr "Quora"])
             (VFloat (1 # 10)) (VInt 10) (VBool true) (VInt 100)
             (VFloat (1 # 1000)) (VInt 20) (VInt 500) (VInt 300).

(** [locals()] on entry: a plain dict. *)
Definition locals (a : MainArgs) : items :=
  [("batch_size", batch_size a); ("char_dim", char_dim a);
   ("char_hidden_size", char_hidden_size a); ("data_type", data_type a);
   ("dropout", dropout a); ("epoch", epoch a); ("gpu", gpu a);
   ("hidden_size", hidden_size a); ("lr", lr a);
   ("num_perspectives", num_perspectives a);
   ("print_interval", print_interval a); ("word_dim", word_dim a)].

(** Lines 30 to 38: the choice of the data source. *)
Definition load_data (args : pyobj) : M ModelData :=
  dt ← lift (getattr args "data_type");
  if str_eq dt "SNLI" then
    _ ← emit (Print "Loading SNLI data...");
    mret (SNLI args)
  else
    dt ← lift (getattr args "data_type");
    if str_eq dt "Quora" then
      _ ← emit (Print "Loading Quoradata...");
      mret (Quora args)
    else
      raise (RuntimeError "Data source other than SNLI or Quora was provided.").

(** Lines 40 to 46: five more keys, then the dict becomes a namedtuple.
    The timestamp is stored under the key ['args']. *)
Definition finish_args (d : items) (model_data : ModelData) : pyobj :=
  let d := setitem "char_vocab_size" (Test.nat_value (char_vocab model_data)) d in
  let d := setitem "word_vocab_size" (Test.nat_value (TEXT_vocab model_data)) d in
  let d := setitem "class_size" (Test.nat_value (LABEL_vocab model_data)) d in
  let d := setitem "max_word_len" (max_word_len model_data) d in
  let d := setitem "args" (VStr strftime) d in
  namedtuple "args" d.

Definition exists_path (w : World) (path : string) : bool :=
  bool_decide (path ∈ dirs w) || bool_decide (is_Some (files w !! path)).

(** [os.makedirs(path)] without [exist_ok] *)
Definition makedirs (path : string) : M unit :=
  w ← get;
  if exists_path w path then raise (FileExistsError path)
  else put (mkWorld (tensors w) (modules w) (grad_enabled w)
              ({[path]} ∪ dirs w) (files w) (trace w)).

(** [torch.save(obj, dir/name)]: the directory must exist. *)
Definition torch_save (sd : list (string * Tensor)) (dir name : string)
  : M unit :=
  w ← get;
  if bool_decide (dir ∈ dirs w) then
    let path := (dir ++ "/" ++ name)%string in
    _ ← put (mkWorld (tensors w) (modules w) (grad_enabled w) (dirs w)
               (<[path := sd]> (files w)) (trace w));
    emit (Saved path)
  else raise (FileNotFoundError (dir ++ "/" ++ name)%string).

(** A value interpolated into an f-string. *)
Definition format (v : value) : string :=
  match v with
  | VStr s => s
  | VNone => "None"
  | VBool true => "True"
  | VBool false => "False"
  | _ => "?"
  end.

(** Lines 51 to 54: the directory check and the save.  The arguments of
    [torch.save] are evaluated before the call. *)
Definition save_best_model (args : pyobj) (best_model : loc) : M unit :=
  w ← get;
  _ ← (if exists_path w "saved_models" then mret tt
       else makedirs "save_models");
  w ← get;
  let sd := state_dict w best_model in
  dt ← lift (getattr args "data_type");
  mt ← lift (getattr args "model_time");
  torch_save sd "saved_models"
    ("bimpm_" ++ format dt ++ "_" ++ format mt ++ ".pt")%string.

Definition main (a : MainArgs) : M unit :=
  let d := locals a in
  let args := Dict d in
  model_data ← load_data args;
  let args := finish_args d model_data in
  _ ← emit (Print "Starting training...");
  best_model ← train args model_data;
  _ ← save_best_model args best_model;
  emit (Print "Finished training...").

End WithRepo.
End Train.

(** ** A small concrete instance

    A two-class toy model used to run the drivers on concrete inputs: a
    batch is its list of gold labels, the model scores class 1 with the
    first entry of its last parameter, the loss counts the examples whose
    label is not 0, and an optimizer step adds one to every entry. *)

Module Toy.

Definition score (values : list Tensor) : Q :=
  default 0%Q (last values ≫= fun t => head (elems t)).

Definition framework_with (indexing : bool) : Framework := {|
  Batch := list nat;
  label := fun b => b;
  Sentence := list nat;
  generate := fun b _ _ => b;
  normal_ := fun _ => 1%Q;
  uniform_ := fun _ => 0%Q;
  lstm_cell := fun hid _ st x =>
    (take hid (zip_with Qplus (fst st) x ++ repeat 0%Q hid), snd st);
  dropout_mask := fun _ t => t;
  softmax := fun t => t;
  model_forward := fun values _ s => map (fun _ => [0%Q; score values]) s;
  CrossEntropyLoss := fun _ labels =>
    inject_Z (Z.of_nat (length (filter (fun l => l ≠ 0%nat) labels)));
  autograd := fun values _ _ => map (fun t => map (fun _ => 1%Q) (elems t)) values;
  adam_state := unit;
  adam_init := tt;
  adam := fun _ _ x g => (tt, if Qeq_bool g 0 then x else (x + 1)%Q);
  cuda := fun _ => Raise (RuntimeError "Found no NVIDIA driver on your system");
  scalar_index_allowed := indexing;
  strftime := "12:00:00"
|}.

(** The toy world on a release that indexes 0-dim tensors. *)
#[export] Instance framework : Framework := framework_with true.

Definition dataset (train valid test : list (list nat)) : ModelData :=
  mkModelData train valid test None (fun _ => true) 3 2 2 (VInt 2)
              (mkTensor [2; 1]%nat [5%Q; 7%Q]).

#[export] Instance repo : Repo := {|
  SNLI := fun _ => dataset [[1]; [1]]%nat [[1]]%nat [[1; 0]]%nat;
  Quora := fun _ => dataset [[0]]%nat [[0]]%nat [[0]]%nat;
  AppData := fun _ => dataset [] [] [];
  word_layer_name := "word_rep";
  other_parameters := fun _ _ =>
    [("prediction.weight", mkParam (mkTensor [1]%nat [0%Q]) true None None)];
  device := VStr "cpu"
|}.

(** An argument object with every attribute the layers and drivers read. *)
Definition args : pyobj :=
  Namespace "Args"
    [("data_type", VStr "SNLI"); ("gpu", VBool false); ("device", VStr "cpu");
     ("lr", VFloat (1 # 1000)); ("model_time", VStr "12:00:00");
     ("print_interval", VInt 1); ("word_vocab_size", VInt 2);
     ("word_dim", VInt 1); ("char_vocab_size", VInt 3); ("char_dim", VInt 2);
     ("char_input_size", VInt 2); ("char_hidden_size", VInt 2);
     ("hidden_size", VInt 2); ("num_perspectives", VInt 1);
     ("dropout", VFloat (1 # 10))].

Definition world : World := mkWorld ∅ ∅ true ∅ ∅ [].

(** The SNLI toy data: two training batches, one validation batch, one
    test batch of two examples. *)
Definition model_data : ModelData := SNLI args.

(** The word representation layer that [args] and the toy vectors build. *)
Definition wrl : Layers.WordRepresentationLayer :=
  Layers.mkWRL args
    (Layers.mkEmbedding 2 1 None (vectors model_data) false)
    (Layers.mkCRE args
       (Layers.mkEmbedding 3 2 (Some 0%nat)
          (mkTensor [3; 2]%nat [0; 0; 1; 1; 1; 1]%Q) true)
       (Layers.mkLSTM 2 2 1 false true (Layers.lstm_weights "" 2 2) [])
       true)
    true.

(** A test split of two batches with one example each, and the world in
    which the model has just been built (at location 0). *)
Definition two_batches : ModelData := dataset [] [] [[1]; [1]]%nat.

Definition built : World := snd (Bimpm.BiMPM args two_batches world).

(** The parameter values of the toy model after its first update. *)
Definition snapshot : list Tensor :=
  [vectors model_data;
   mkTensor [3; 2]%nat [0; 0; 2; 2; 2; 2]%Q;
   mkTensor [8; 2]%nat (repeat 1%Q 16);
   mkTensor [8; 2]%nat (repeat 1%Q 16);
   mkTensor [8]%nat (repeat 1%Q 8);
   mkTensor [8]%nat (repeat 1%Q 8);
   mkTensor [1]%nat [1%Q]].

(** The word representation layer built from another argument object
    with the same sizes. *)
Definition wrl_of (a : pyobj) : Layers.WordRepresentationLayer :=
  Layers.mkWRL a
    (Layers.mkEmbedding 2 1 None (vectors model_data) false)
    (Layers.mkCRE a
       (Layers.mkEmbedding 3 2 (Some 0%nat)
          (mkTensor [3; 2]%nat [0; 0; 1; 1; 1; 1]%Q) true)
       (Layers.mkLSTM 2 2 1 false true (Layers.lstm_weights "" 2 2) [])
       true)
    true.

(** A data object for the app: no splits, one batch of two examples. *)
Definition app_data : ModelData :=
  mkModelData [] [] [] (Some [1; 0]%nat) (fun _ => true) 3 2 2 (VInt 2)
              (mkTensor [2; 1]%nat [5%Q; 7%Q]).

(** Command lines of [test.py]: one naming SNLI in capitals, one naming
    a data source the script does not know. *)
Definition cli (data_type : string) : Test.MainArgs :=
  Test.mkMainArgs (VBool false) (VBool false) (VStr "model.pt") (VInt 64)
                  (VInt 2) (VInt 2) (VStr data_type) (VFloat (1 # 10))
                  (VInt 10) (VInt 2) (VFloat (1 # 1000)) (VInt 1) (VInt 1)
                  (VInt 1).

(** Toy data with an empty training split, and with a validation label
    the toy model never predicts once it has been updated. *)
Definition no_training_data : ModelData := dataset [] [[1]]%nat [[1]]%nat.

Definition never_right : ModelData := dataset [[0]]%nat [[0]]%nat [[0]]%nat.

(** [args] with another reporting interval, and with the path of a
    saved model. *)
Definition args_with_interval (z : Z) : pyobj :=
  Namespace "Args"
    [("data_type", VStr "SNLI"); ("gpu", VBool false); ("device", VStr "cpu");
     ("lr", VFloat (1 # 1000)); ("model_time", VStr "12:00:00");
     ("print_interval", VInt z); ("word_vocab_size", VInt 2);
     ("word_dim", VInt 1); ("char_vocab_size", VInt 3); ("char_dim", VInt 2);
     ("char_input_size", VInt 2); ("char_hidden_size", VInt 2);
     ("hidden_size", VInt 2); ("num_perspectives", VInt 1);
     ("dropout", VFloat (1 # 10)); ("model_path", VStr "model.pt")].

(** A character encoder configuration whose embedding is wider than the
    input of its recurrent encoder. *)
Definition mismatched_args : pyobj :=
  Namespace "Args"
    [("char_vocab_size", VInt 3); ("char_dim", VInt 3);
     ("char_input_size", VInt 2); ("char_hidden_size", VInt 2)].

(** A saved state dict for the toy model, and a world whose file system
    holds it. *)
Definition saved_state : list (string * Tensor) :=
  combine ["word_rep.word_encoder.weight";
           "word_rep.char_encoder.char_encoder.weight";
           "word_rep.char_encoder.lstm.weight_ih_l0";
           "word_rep.char_encoder.lstm.weight_hh_l0";
           "word_rep.char_encoder.lstm.bias_ih_l0";
           "word_rep.char_encoder.lstm.bias_hh_l0";
           "prediction.weight"]
          snapshot.

Definition world_with_saved_model : World :=
  mkWorld ∅ ∅ true ∅ {["model.pt" := saved_state]} [].

(** A file that holds a state dict of some other model. *)
Definition world_with_foreign_model : World :=
  mkWorld ∅ ∅ true ∅
          {["model.pt" := [("encoder.weight", mkTensor [1]%nat [1%Q])]]} [].

(** [args] with the flag [gpu] set. *)
Definition args_with_gpu : pyobj :=
  Namespace "Args"
    [("data_type", VStr "SNLI"); ("gpu", VBool true); ("device", VStr "cpu");
     ("lr", VFloat (1 # 1000)); ("model_time", VStr "12:00:00");
     ("print_interval", VInt 1); ("word_vocab_size", VInt 2);
     ("word_dim", VInt 1); ("char_vocab_size", VInt 3); ("char_dim", VInt 2);
     ("char_input_size", VInt 2); ("char_hidden_size", VInt 2);
     ("hidden_size", VInt 2); ("num_perspectives", VInt 1);
     ("dropout", VFloat (1 # 10))].

(** The same toy world on a release that refuses to index a 0-dim
    tensor. *)
Definition later_framework : Framework := framework_with false.

Definition later_dataset (train valid test : list (list nat))
  : @ModelData later_framework :=
  @mkModelData later_framework train valid test None (fun _ => true) 3 2 2
               (VInt 2) (mkTensor [2; 1]%nat [5%Q; 7%Q]).

Definition later_repo : @Repo later_framework := {|
  SNLI := fun _ => later_dataset [[1]; [1]]%nat [[1]]%nat [[1; 0]]%nat;
  Quora := fun _ => later_dataset [[0]]%nat [[0]]%nat [[0]]%nat;
  AppData := fun _ => later_dataset [] [] [];
  word_layer_name := "word_rep";
  other_parameters := fun _ _ =>
    [("prediction.weight", mkParam (mkTensor [1]%nat [0%Q]) true None None)];
  device := VStr "cpu"
|}.

Definition later_model_data : @ModelData later_framework :=
  later_dataset [[1]; [1]]%nat [[1]]%nat [[1; 0]]%nat.

End Toy.

(** * Properties *)

(** ** The entry points *)

Section EntryPoints.
Context `{Repo}.

(** C3 (the code at the claim's input).  Whatever data type is passed,
    supported or not, the training entry point raises [AttributeError] at
    its first statement after [locals()]: the dict has no attribute
    [data_type].  The [RuntimeError] of the else branch is never reached,
    and the world is left as it was. *)
Theorem train_main_raises_attribute_error (a : Train.MainArgs) (w : World) :
  Train.main a w = (Raise (AttributeError "dict" "data_type"), w).
Proof. reflexivity. Qed.

(** The data-source choice of [train.py] does raise [RuntimeError] once
    [args] is an object with attributes, for every data type other than
    the two literals. *)
Lemma train_load_data_rejects (o : pyobj) (v : value) (w : World) :
  getattr o "data_type" = Ok v ->
  str_eq v "SNLI" = false -> str_eq v "Quora" = false ->
  Train.load_data o w =
    (Raise (RuntimeError "Data source other than SNLI or Quora was provided."), w).
Proof.
  intros Hg Hs Hq. unfold Train.load_data, mbind, M_bind, bind, lift.
  rewrite Hg, Hs, Hq. reflexivity.
Qed.

(** X6.  The entry point of [test.py] wraps [locals()] in [Args] and,
    with the app flag off, raises the [RuntimeError] its docstring
    announces for every data type that is neither [snli] nor [quora] in
    some capitalisation; nothing is loaded and the world is left as it
    was. *)
Lemma test_main_rejects_unknown_dataset (a : Test.MainArgs) (s : string)
    (w : World) :
  truthy (Test.app a) = false ->
  Test.data_type a = VStr s ->
  Test.lower s <> "snli" -> Test.lower s <> "quora" ->
  Test.main a w =
    (Raise (RuntimeError "Data source other than SNLI or Quora was provided."), w).
Proof.
  intros Happ Hdt Hs Hq.
  unfold Test.main, Test.load_data, mbind, M_bind, bind, lift. cbn.
  rewrite Happ, Hdt. cbn.
  destruct (String.eqb_spec (Test.lower s) "snli") as [E|_]; [contradiction|].
  destruct (String.eqb_spec (Test.lower s) "quora") as [E|_]; [contradiction|].
  reflexivity.
Qed.

(** The namedtuple built by lines 40 to 46 has the timestamp under [args]
    and no field [model_time]. *)
Lemma finish_args_fields (a : Train.MainArgs) (md : ModelData) :
  getattr (Train.finish_args (Train.locals a) md) "args" = Ok (VStr strftime) /\
  getattr (Train.finish_args (Train.locals a) md) "model_time" =
    Raise (AttributeError "args" "model_time").
Proof. split; reflexivity. Qed.

(** C10.  The training entry point never saves the model.  Run as a
    whole, [main] raises an attribute error and leaves the world, hence
    the file system, untouched.  The saving block itself, run on the
    argument object that lines 40 to 46 build and in a world where neither
    [saved_models] nor [save_models] exists, creates the directory
    [save_models], leaves [saved_models] absent, and raises
    [AttributeError] for [model_time] while evaluating the path of the
    save, so that no file is written. *)
Theorem main_never_saves (a : Train.MainArgs) (md : ModelData) (best : loc)
    (w : World) :
  Train.exists_path w "saved_models" = false ->
  Train.exists_path w "save_models" = false ->
  (exists e, Train.main a w = (Raise e, w) /\ is_attribute_error e = true) /\
  getattr (Train.finish_args (Train.locals a) md) "args" = Ok (VStr strftime) /\
  exists w',
    Train.save_best_model (Train.finish_args (Train.locals a) md) best w =
      (Raise (AttributeError "args" "model_time"), w') /\
    dirs w' = ({["save_models"]} ∪ dirs w) /\
    ("saved_models" ∉ dirs w') /\
    files w' = files w.
Proof.
  intros Hsaved Hsave. split; [|split].
  - eexists. split; reflexivity.
  - reflexivity.
  - unfold Train.save_best_model, Train.makedirs, mbind, M_bind, bind, lift,
      get, put. cbn.
    rewrite Hsaved. cbn. rewrite Hsave. cbn.
    eexists. split; [reflexivity|]. cbn. split; [reflexivity|]. split; [|reflexivity].
    unfold Train.exists_path in Hsaved.
    apply orb_false_iff in Hsaved as [Hd _].
    apply bool_decide_eq_false in Hd.
    intros [E%elem_of_singleton | E]%elem_of_union; [discriminate | contradiction].
Qed.

(** In any world the saving block on that argument object ends in an
    exception without changing the saved files. *)
Lemma save_block_writes_nothing (a : Train.MainArgs) (md : ModelData)
    (best : loc) (w : World) :
  exists e w',
    Train.save_best_model (Train.finish_args (Train.locals a) md) best w =
      (Raise e, w') /\ files w' = files w.
Proof.
  unfold Train.save_best_model, Train.makedirs, mbind, M_bind, bind, lift,
    get, put. cbn.
  destruct (Train.exists_path w "saved_models"); cbn.
  - eauto.
  - destruct (Train.exists_path w "save_models"); cbn; eauto.
Qed.

End EntryPoints.

(** ** The layer definitions *)

Section LayerFacts.
Context `{Framework}.

(** No class of the module has an attribute or method named [dropout]. *)
Lemma call_dropout_unresolved {Self : Type} (cls : string)
    (attrs : list string) (methods : list (string * Layers.method Self))
    (self : Self) (x : Tensor) :
  mem "dropout" attrs = false ->
  mem "dropout" (map fst methods) = false ->
  Layers.call_method cls attrs methods self "dropout" x =
    Raise (AttributeError cls "dropout").
Proof.
  intros Ha Hm. unfold Layers.call_method, Layers.lookup_attr.
  rewrite Ha, Hm. reflexivity.
Qed.

Lemma bind_not_ok {A B} (r : result A) (k : A -> result B) :
  (forall a, is_ok (k a) = false) -> is_ok (r ≫= k) = false.
Proof. intros Hk. destruct r; cbn; [apply Hk | reflexivity]. Qed.

(** C5 (the code at the claim's input).  In either mode and for every
    input, the forward pass of each of the four layers that apply dropout
    fails to return: when the computation before the dropout call
    succeeds, the call [self.dropout] raises [AttributeError], because
    the method is defined under the name [droput]; and that method in
    turn raises [AttributeError] for [F.droput].  In particular no
    forward pass is the identity in inference mode. *)
Theorem forward_never_reaches_dropout :
  (forall self sentence,
     is_ok (Layers.WordRepresentationLayer_forward self sentence) = false) /\
  (forall self sentence,
     is_ok (Layers.ContextRepresentationLayer_forward self sentence) = false) /\
  (forall self p q,
     is_ok (Layers.AggregationLayer_forward self p q) = false) /\
  (forall self match_vec,
     is_ok (Layers.PredictionLayer_forward self match_vec) = false) /\
  (forall self V,
     Layers.WordRepresentationLayer_droput self V =
       Raise (AttributeError "torch.nn.functional" "droput")) /\
  (forall self V,
     Layers.ContextRepresentationLayer_droput self V =
       Raise (AttributeError "torch.nn.functional" "droput")) /\
  (forall self V,
     Layers.AggregationLayer_droput self V =
       Raise (AttributeError "torch.nn.functional" "droput")) /\
  (forall self V,
     Layers.PredictionLayer_droput self V =
       Raise (AttributeError "torch.nn.functional" "droput")).
Proof.
  repeat split; try reflexivity; intros;
    unfold Layers.WordRepresentationLayer_forward,
      Layers.ContextRepresentationLayer_forward,
      Layers.AggregationLayer_forward, Layers.PredictionLayer_forward;
    repeat first [reflexivity | apply bind_not_ok; intros].
Qed.

(** C6, amended.  The matching layer is a placeholder that computes no
    similarity and no attentive output: its forward pass takes no tensor,
    returns [None] when called as declared, and raises [TypeError] when
    given the two sentences, zero vectors or not. *)
Theorem matching_layer_is_a_stub (self : Layers.MatchingLayer) :
  Layers.MatchingLayer_forward self [] = Ok None /\
  forall p q, exists msg,
    Layers.MatchingLayer_forward self [p; q] = Raise (TypeError msg).
Proof. split; [reflexivity | intros; eexists; reflexivity]. Qed.

(** C7 (the code at the claim's input).  The aggregation layer cannot be
    constructed: for every argument object its constructor raises
    [AttributeError] at [self.LSTM]. *)
Theorem aggregation_layer_init_raises (args : pyobj) :
  Layers.AggregationLayer_init args =
    Raise (AttributeError "AggregationLayer" "LSTM").
Proof. reflexivity. Qed.

End LayerFacts.

(** The body of [layers.py] stops at one of its first three statements
    when [torch.nn.Functional] cannot be imported, with a missing-module
    error and before any class statement has run. *)
Lemma layers_body_stops (installed : gset string) :
  "torch.nn.Functional" ∉ installed ->
  exists name ns,
    Layers.exec_body installed ["__name__"] Layers.layers_py =
      (Raise (ModuleNotFoundError name), ns) /\
    forallb (fun c => negb (mem c ns)) Layers.layer_classes = true.
Proof.
  intros Hno. unfold Layers.layers_py.
  cbn [Layers.exec_body Layers.exec_stmt Layers.import_path app].
  change (Layers.dotted ["torch"]) with "torch".
  change (Layers.dotted ["torch"; "nn"]) with "torch.nn".
  change (Layers.dotted ["torch"; "nn"; "Functional"]) with "torch.nn.Functional".
  destruct (decide ("torch" ∈ installed)); cbn; [|eauto].
  destruct (decide ("torch.nn" ∈ installed)); cbn; [|eauto].
  destruct (decide ("torch.nn.Functional" ∈ installed)); cbn; [contradiction|eauto].
Qed.

(** C9.  In every environment that has no module [torch.nn.Functional],
    importing the layer module raises an import error; so does importing
    any name from it, in particular each layer class; and at the point of
    failure none of the six classes has been defined. *)
Theorem import_layers_raises (installed : gset string) :
  "torch.nn.Functional" ∉ installed ->
  (exists e, Layers.import_layers installed = Raise e /\
             is_import_error e = true) /\
  (forall name, exists e, Layers.from_layers_import installed name = Raise e /\
                          is_import_error e = true) /\
  forallb (fun c => negb (mem c (snd (Layers.exec_body installed ["__name__"]
                                        Layers.layers_py))))
          Layers.layer_classes = true.
Proof.
  intros Hno. destruct (layers_body_stops installed Hno) as (name & ns & Hb & Hc).
  unfold Layers.from_layers_import, Layers.import_layers. rewrite Hb. cbn.
  repeat split; eauto.
Qed.


(** ** Reshaping *)

Section Chunks.
Context {A : Type}.
Implicit Types (l : list A) (ls : list (list A)).

Lemma chunks_fuel_concat ls (n fuel : nat) :
  (0 < n)%nat -> Forall (fun l => length l = n) ls ->
  (length ls <= fuel)%nat ->
  Layers.chunks_fuel fuel n (concat ls) = ls.
Proof.
  intros Hn Hall. revert fuel.
  induction Hall as [|l ls Hl Hall IH]; intros fuel Hfuel.
  - destruct fuel; reflexivity.
  - destruct fuel as [|fuel]; [cbn in Hfuel; lia|].
    cbn [concat Layers.chunks_fuel].
    destruct (l ++ concat ls) eqn:E.
    + destruct l; [cbn in Hl; lia | discriminate].
    + rewrite <- E.
      replace (take n (l ++ concat ls)) with l
        by (rewrite <- Hl; by rewrite take_app_length).
      replace (drop n (l ++ concat ls)) with (concat ls)
        by (rewrite <- Hl; by rewrite drop_app_length).
      f_equal. apply IH. cbn in Hfuel. lia.
Qed.

(** Cutting a concatenation of rows of equal width back into the rows. *)
Lemma chunks_concat ls (n : nat) :
  (0 < n)%nat -> Forall (fun l => length l = n) ls ->
  Layers.chunks n (concat ls) = ls.
Proof.
  intros Hn Hall. apply chunks_fuel_concat; [done..|].
  induction Hall as [|l ls Hl _ IH]; [reflexivity|].
  cbn [concat length]. rewrite length_app. lia.
Qed.

Lemma chunks_fuel_spec (n fuel : nat) l :
  (0 < n)%nat -> (length l <= fuel)%nat ->
  concat (Layers.chunks_fuel fuel n l) = l /\
  (forall k, length l = (k * n)%nat ->
     length (Layers.chunks_fuel fuel n l) = k /\
     Forall (fun c => length c = n) (Layers.chunks_fuel fuel n l)).
Proof.
  intros Hn. revert l. induction fuel as [|fuel IH]; intros l Hl.
  - destruct l; [|cbn in Hl; lia]. split; [reflexivity|].
    intros k Hk. destruct k; [split; [reflexivity | constructor]|].
    cbn in Hk. lia.
  - destruct l as [|a l]; cbn [Layers.chunks_fuel].
    + split; [reflexivity|]. intros k Hk.
      destruct k; [split; [reflexivity | constructor]|]. cbn in Hk. lia.
    + destruct (IH (drop n (a :: l))) as [Hc Hk].
      { rewrite length_drop. cbn in *. lia. }
      split.
      * cbn [concat]. rewrite Hc. apply take_drop.
      * intros k Hlen. destruct k as [|k]; [cbn in Hlen; lia|].
        destruct (Hk k) as [Hk1 Hk2].
        { rewrite length_drop, Hlen. cbn. lia. }
        split; [cbn; lia|].
        constructor; [|exact Hk2].
        rewrite length_take, Hlen. cbn. lia.
Qed.

Lemma concat_chunks (n : nat) l :
  (0 < n)%nat -> concat (Layers.chunks n l) = l.
Proof. intros Hn. apply chunks_fuel_spec; [done | reflexivity]. Qed.

Lemma length_chunks (n k : nat) l :
  (0 < n)%nat -> length l = (k * n)%nat -> length (Layers.chunks n l) = k.
Proof. intros Hn Hl. apply chunks_fuel_spec; [done | reflexivity | done]. Qed.

Lemma Forall_length_chunks (n k : nat) l :
  (0 < n)%nat -> length l = (k * n)%nat ->
  Forall (fun c => length c = n) (Layers.chunks n l).
Proof. intros Hn Hl. eapply chunks_fuel_spec; [done | reflexivity | done]. Qed.

End Chunks.

Lemma chunks_map {A B} (f : A -> B) (n k : nat) (l : list A) :
  (0 < n)%nat -> length l = (k * n)%nat ->
  Layers.chunks n (map f l) = map (map f) (Layers.chunks n l).
Proof.
  intros Hn Hl.
  rewrite <- (concat_chunks n l Hn) at 1.
  rewrite concat_map, chunks_concat; [done | done |].
  apply Forall_map. eapply Forall_impl; [eapply Forall_length_chunks; eauto|].
  intros c Hc. cbn. by rewrite length_map.
Qed.


(** ** The character representation encoder *)

Section CharEncoder.
Context `{Framework}.

Lemma as_size_of_nat (n : nat) : as_size (VInt (Z.of_nat n)) = Ok n.
Proof.
  unfold as_size. cbn.
  destruct (Z.ltb_spec (Z.of_nat n) 0); [lia|]. by rewrite Nat2Z.id.
Qed.

Lemma length_zero_row (k dim : nat) (l : list Q) :
  ((k + 1) * dim <= length l)%nat ->
  length (Layers.zero_row k dim l) = length l.
Proof.
  intros Hl. unfold Layers.zero_row.
  rewrite !length_app, length_take, repeat_length, length_drop. lia.
Qed.

Lemma row_zero_row (dim : nat) (l : list Q) :
  Layers.row dim (Layers.zero_row 0 dim l) 0 = repeat 0%Q dim.
Proof.
  unfold Layers.row, Layers.zero_row.
  rewrite take_0, drop_0, app_nil_l.
  rewrite take_app_le by (rewrite repeat_length; lia).
  rewrite take_ge by (rewrite repeat_length; lia). done.
Qed.

Lemma length_row (dim i : nat) (table : list Q) :
  ((i + 1) * dim <= length table)%nat ->
  length (Layers.row dim table i) = dim.
Proof.
  intros Hl. unfold Layers.row. rewrite length_take, length_drop. lia.
Qed.

Lemma lookup_rows_ok (e : Layers.Embedding) (ids : list nat) :
  Forall (fun i => (i < Layers.num_embeddings e)%nat) ids ->
  Layers.lookup_rows e ids =
    Ok (map (Layers.row (Layers.embedding_dim e)
                        (elems (Layers.weight e))) ids).
Proof.
  induction 1 as [|i ids Hi _ IH]; [reflexivity|].
  cbn [Layers.lookup_rows map].
  destruct (Nat.ltb_spec i (Layers.num_embeddings e)); [|lia].
  rewrite IH. reflexivity.
Qed.

Lemma length_lstm_scan (hid : nat) (ws : list Tensor) (xs : list (list Q))
    (st : list Q * list Q) :
  (forall ws st x, length (fst (lstm_cell hid ws st x)) = hid) ->
  length (fst st) = hid ->
  length (fst (snd (Layers.lstm_scan hid ws st xs))) = hid.
Proof.
  intros Hcell. revert st. induction xs as [|x xs IH]; intros st Hst; [done|].
  cbn [Layers.lstm_scan].
  specialize (IH (lstm_cell hid ws st x) (Hcell ws st x)).
  destruct (Layers.lstm_scan hid ws (lstm_cell hid ws st x) xs). exact IH.
Qed.

Lemma length_concat_const {A} (ls : list (list A)) (n : nat) :
  Forall (fun l => length l = n) ls ->
  length (concat ls) = (length ls * n)%nat.
Proof.
  induction 1 as [|l ls Hl _ IH]; [reflexivity|].
  cbn [concat length]. rewrite length_app, IH, Hl. lia.
Qed.

Lemma length_char_representation (enc : Layers.CharacterRepresentationEncoder)
    (word : list nat) :
  (forall ws st x,
     length (fst (lstm_cell (Layers.hidden_size (Layers.cre_lstm enc)) ws st x)) =
     Layers.hidden_size (Layers.cre_lstm enc)) ->
  length (Layers.char_representation enc word) =
    Layers.hidden_size (Layers.cre_lstm enc).
Proof.
  intros Hcell. unfold Layers.char_representation, Layers.lstm_run.
  apply length_lstm_scan; [exact Hcell|]. cbn. apply repeat_length.
Qed.

(** The forward pass of an encoder whose embedding width is the input
    width of its recurrent encoder. *)
Lemma char_encoder_forward_spec (enc : Layers.CharacterRepresentationEncoder)
    (B S W : nat) (ids : list nat) :
  let e := Layers.cre_char_encoder enc in
  let l := Layers.cre_lstm enc in
  Layers.embedding_dim e = Layers.input_size l ->
  Layers.bidirectional l = false ->
  length (elems (Layers.weight e)) =
    (Layers.num_embeddings e * Layers.embedding_dim e)%nat ->
  getattr (Layers.cre_args enc) "char_hidden_size" =
    Ok (VInt (Z.of_nat (Layers.hidden_size l))) ->
  (0 < Layers.embedding_dim e)%nat -> (0 < Layers.hidden_size l)%nat ->
  (0 < S)%nat -> (0 < W)%nat ->
  length ids = (B * S * W)%nat ->
  Forall (fun i => (i < Layers.num_embeddings e)%nat) ids ->
  (forall ws st x,
     length (fst (lstm_cell (Layers.hidden_size l) ws st x)) =
     Layers.hidden_size l) ->
  Layers.CharacterRepresentationEncoder_forward enc
    (Layers.mkIntTensor [B; S; W] ids) =
  Ok (mkTensor [B; S; Layers.hidden_size l]
        (concat (map (Layers.char_representation enc) (Layers.chunks W ids)))).
Proof.
  intros e l Hdim Hbi Hw Hattr HD HH HS HW Hids Hlt Hcell.
  unfold Layers.CharacterRepresentationEncoder_forward.
  cbn [Layers.ishape]. unfold Layers.iview. cbn [Layers.ielems numel fold_right].
  replace ((B * S * (W * 1)) =? length ids)%nat with true
    by (symmetry; apply Nat.eqb_eq; lia).
  cbn [mbind result_bind rbind].
  unfold Layers.Embedding_forward. cbn [Layers.ielems Layers.ishape].
  rewrite lookup_rows_ok by exact Hlt.
  cbn [mbind result_bind rbind app].
  unfold Layers.LSTM_forward. cbn [shape elems].
  fold e l. rewrite Hdim, Nat.eqb_refl. cbn [negb].
  destruct (Nat.eqb_spec W 0) as [->|_]; [lia|].
  rewrite Hbi. cbn [mbind result_bind rbind fst snd].
  rewrite <- Hdim.
  set (rows := map (Layers.row (Layers.embedding_dim e) (elems (Layers.weight e))) ids).
  assert (Hrows : Forall (fun r => length r = Layers.embedding_dim e) rows).
  { apply Forall_map. eapply Forall_impl; [exact Hlt|]. intros i Hi. cbn in *.
    apply length_row. rewrite Hw. apply Nat.mul_le_mono_r. lia. }
  rewrite chunks_concat by done.
  unfold rows. rewrite (chunks_map _ W (B * S)) by done.
  rewrite Hattr. cbn [mbind result_bind rbind]. rewrite as_size_of_nat.
  cbn [mbind result_bind rbind].
  rewrite app_nil_r, !map_map.
  change (fun x => (Layers.lstm_run l (Layers.weights_fwd l)
                      (map (Layers.row (Layers.embedding_dim e)
                                       (elems (Layers.weight e))) x)).2.1)
    with (Layers.char_representation enc).
  assert (Hlen : length (concat (map (Layers.char_representation enc)
                                     (Layers.chunks W ids))) =
                 (B * S * Layers.hidden_size l)%nat).
  { rewrite (length_concat_const _ (Layers.hidden_size l)).
    - rewrite length_map, (length_chunks W (B * S)) by done. done.
    - apply Forall_map, Forall_forall. intros w _. cbn.
      by apply length_char_representation. }
  unfold Layers.view_infer. cbn [elems numel fold_right]. rewrite Hlen.
  destruct (Nat.eqb_spec (S * (Layers.hidden_size l * 1)) 0) as [E|_]; [nia|].
  replace (B * S * Layers.hidden_size l)%nat
    with (B * (S * (Layers.hidden_size l * 1)))%nat by lia.
  rewrite Nat.Div0.mod_mul, Nat.div_mul by nia. reflexivity.
Qed.


End CharEncoder.


(** ** Construction of the layers *)

Section Construction.
Context `{Framework}.

Lemma nn_Embedding_inv (num dim : value) (pad : option nat) (e : Layers.Embedding) :
  Layers.nn_Embedding num dim pad = Ok e ->
  Layers.padding_idx e = pad /\ Layers.weight_requires_grad e = true /\
  shape (Layers.weight e) = [Layers.num_embeddings e; Layers.embedding_dim e] /\
  as_size num = Ok (Layers.num_embeddings e) /\
  as_size dim = Ok (Layers.embedding_dim e) /\
  match pad with
  | Some k => (k < Layers.num_embeddings e)%nat /\
              elems (Layers.weight e) =
                Layers.zero_row k (Layers.embedding_dim e)
                  (map normal_ (seq 0 (Layers.num_embeddings e * Layers.embedding_dim e)))
  | None => True
  end.
Proof.
  unfold Layers.nn_Embedding. intros Hinit.
  destruct (as_size num) as [n|]; [|discriminate].
  destruct (as_size dim) as [d|]; [|discriminate].
  cbn [mbind result_bind rbind] in Hinit.
  destruct pad as [k|].
  - destruct (Nat.ltb_spec k n); [|discriminate].
    injection Hinit as <-. cbn. repeat split; done.
  - injection Hinit as <-. cbn. repeat split; done.
Qed.

Lemma CharacterRepresentationEncoder_init_inv (args : pyobj)
    (enc : Layers.CharacterRepresentationEncoder) :
  Layers.CharacterRepresentationEncoder_init args = Ok enc ->
  Layers.cre_args enc = args /\
  Layers.padding_idx (Layers.cre_char_encoder enc) = Some 0%nat /\
  Layers.weight_requires_grad (Layers.cre_char_encoder enc) = true /\
  Layers.num_layers (Layers.cre_lstm enc) = 1%nat /\
  Layers.bidirectional (Layers.cre_lstm enc) = false /\
  Layers.batch_first (Layers.cre_lstm enc) = true /\
  Layers.weights_bwd (Layers.cre_lstm enc) = [] /\
  Layers.weights_fwd (Layers.cre_lstm enc) =
    Layers.lstm_weights "" (Layers.input_size (Layers.cre_lstm enc))
                           (Layers.hidden_size (Layers.cre_lstm enc)) /\
  (exists v d i h,
     getattr args "char_vocab_size" = Ok v /\ getattr args "char_dim" = Ok d /\
     getattr args "char_input_size" = Ok i /\
     getattr args "char_hidden_size" = Ok h /\
     Layers.nn_Embedding v d (Some 0%nat) = Ok (Layers.cre_char_encoder enc) /\
     as_size i = Ok (Layers.input_size (Layers.cre_lstm enc)) /\
     as_size h = Ok (Layers.hidden_size (Layers.cre_lstm enc))).
Proof.
  unfold Layers.CharacterRepresentationEncoder_init. intros Hinit.
  destruct (getattr args "char_vocab_size") as [v|] eqn:Ev; [|discriminate].
  destruct (getattr args "char_dim") as [d|] eqn:Ed; [|discriminate].
  cbn [mbind result_bind rbind] in Hinit.
  destruct (Layers.nn_Embedding v d (Some 0%nat)) as [e|] eqn:Ee; [|discriminate].
  cbn [mbind result_bind rbind] in Hinit.
  destruct (getattr args "char_input_size") as [i|] eqn:Ei; [|discriminate].
  destruct (getattr args "char_hidden_size") as [h|] eqn:Eh; [|discriminate].
  cbn [mbind result_bind rbind] in Hinit. unfold Layers.nn_LSTM in Hinit.
  destruct (as_size i) as [ni|] eqn:Eni; [|discriminate].
  destruct (as_size h) as [nh|] eqn:Enh; [|discriminate].
  cbn [mbind result_bind rbind] in Hinit. injection Hinit as <-.
  destruct (nn_Embedding_inv _ _ _ _ Ee) as (Hp & Hr & _).
  cbn. repeat split; try done. exists v, d, i, h. repeat split; done.
Qed.

Lemma WordRepresentationLayer_init_inv (args : pyobj) (vectors : Tensor)
    (wrl : Layers.WordRepresentationLayer) :
  Layers.WordRepresentationLayer_init args vectors = Ok wrl ->
  Layers.weight (Layers.wrl_word_encoder wrl) = vectors /\
  Layers.weight_requires_grad (Layers.wrl_word_encoder wrl) = false /\
  Layers.padding_idx (Layers.wrl_word_encoder wrl) = None /\
  Layers.CharacterRepresentationEncoder_init args = Ok (Layers.wrl_char_encoder wrl).
Proof.
  unfold Layers.WordRepresentationLayer_init. intros Hinit.
  destruct (getattr args "word_vocab_size") as [v|]; [|discriminate].
  destruct (getattr args "word_dim") as [d|]; [|discriminate].
  cbn [mbind result_bind rbind] in Hinit.
  destruct (Layers.nn_Embedding v d None) as [e|] eqn:Ee; [|discriminate].
  cbn [mbind result_bind rbind] in Hinit. unfold Layers.copy_ in Hinit.
  destruct (decide _); [|discriminate].
  cbn [mbind result_bind rbind] in Hinit.
  destruct (Layers.CharacterRepresentationEncoder_init args) as [enc|]; [|discriminate].
  cbn [mbind result_bind rbind] in Hinit. injection Hinit as <-.
  destruct (nn_Embedding_inv _ _ _ _ Ee) as (Hp & _).
  cbn. repeat split; try done. by destruct vectors.
Qed.

End Construction.


(** ** Allocation and copies *)

Section HeapFacts.

Lemma alloc_all_spec (ps : list (string * Param)) (t : gmap loc Param) :
  let ls := fst (alloc_all ps t) in
  let t' := snd (alloc_all ps t) in
  map fst ls = map fst ps /\
  (forall l, is_Some (t !! l) -> t' !! l = t !! l) /\
  Forall (fun l => t !! l = None /\ is_Some (t' !! l)) (locs ls) /\
  NoDup (locs ls) /\
  omap (fun '(_, l) => t' !! l) ls = map snd ps /\
  (forall l, is_Some (t' !! l) -> is_Some (t !! l) \/ l ∈ locs ls).
Proof.
  revert t. induction ps as [|[n p] ps IH]; intros t; cbn [alloc_all].
  - cbn. repeat split; auto using NoDup_nil_2.
  - specialize (IH (<[fresh (dom t) := p]> t)).
    destruct (alloc_all ps (<[fresh (dom t) := p]> t)) as [ls t'] eqn:E.
    cbn [fst snd] in *. destruct IH as (Hn & Hkeep & Hnew & Hnd & Hval & Hdom).
    assert (Hfresh : t !! fresh (dom t) = None).
    { apply not_elem_of_dom, is_fresh. }
    assert (Hnotin : fresh (dom t) ∉ locs ls).
    { intros Hin. rewrite Forall_forall in Hnew. destruct (Hnew _ Hin) as [Hn' _].
      by rewrite lookup_insert_eq in Hn'. }
    repeat split.
    + cbn. by rewrite Hn.
    + intros l Hl. rewrite Hkeep.
      * apply lookup_insert_ne. intros <-. rewrite Hfresh in Hl. by destruct Hl.
      * rewrite lookup_insert_ne; [done|].
        intros <-. rewrite Hfresh in Hl. by destruct Hl.
    + cbn. constructor.
      * split; [done|]. rewrite Hkeep; rewrite lookup_insert_eq; eauto.
      * eapply Forall_impl; [exact Hnew|]. intros l [Hl Hs]. cbn in Hl. split; [|done].
        destruct (decide (fresh (dom t) = l)) as [<-|Hne]; [done|].
        by rewrite lookup_insert_ne in Hl.
    + cbn. by constructor.
    + cbn. rewrite Hkeep, lookup_insert_eq by (rewrite lookup_insert_eq; eauto).
      cbn. by rewrite Hval.
    + intros l Hl. destruct (Hdom l Hl) as [Hin|Hin].
      * destruct (decide (fresh (dom t) = l)) as [<-|Hne].
        -- right. cbn. left.
        -- left. by rewrite lookup_insert_ne in Hin.
      * right. cbn. by right.
Qed.

Lemma alloc_all_Forall2 (ps : list (string * Param)) (t : gmap loc Param) :
  Forall2 (fun nl np => fst nl = fst np /\
                        (snd (alloc_all ps t)) !! snd nl = Some (snd np))
          (fst (alloc_all ps t)) ps.
Proof.
  revert t. induction ps as [|[n p] ps IH]; intros t; cbn [alloc_all].
  - constructor.
  - specialize (IH (<[fresh (dom t) := p]> t)).
    destruct (alloc_all_spec ps (<[fresh (dom t) := p]> t)) as (_ & Hkeep & _).
    destruct (alloc_all ps (<[fresh (dom t) := p]> t)) as [ls t'].
    cbn [fst snd] in *. constructor; [|exact IH].
    split; [done|]. cbn. rewrite Hkeep; rewrite lookup_insert_eq; eauto.
Qed.


Lemma alloc_params_eq (ps : list (string * Param)) (w : World) :
  alloc_params ps w =
    (Ok (fst (alloc_all ps (tensors w))),
     with_tensors w (snd (alloc_all ps (tensors w)))).
Proof. unfold alloc_params. by destruct (alloc_all ps (tensors w)). Qed.

Lemma copies_ok (t : gmap loc Param) (ps : list (string * loc)) :
  Forall (fun l => is_Some (t !! l)) (locs ps) ->
  exists cs, copies t ps = Ok cs /\
    map (fun c => data (snd c)) cs = map data (omap (fun '(_, l) => t !! l) ps).
Proof.
  induction ps as [|[n l] ps IH]; intros Hall.
  - exists []. done.
  - apply Forall_cons in Hall as [[p Hp] Hall]. cbn in Hp.
    destruct (IH Hall) as (cs & Hcs & Hdata).
    cbn [copies omap]. rewrite Hp, Hcs. cbn.
    eexists. split; [reflexivity|]. cbn. rewrite Hp. cbn. f_equal. exact Hdata.
Qed.

End HeapFacts.


(** ** One optimisation step on the parameter map *)

Section UpdateFacts.
Context `{Repo}.

Lemma related_refl R (t : gmap loc Param) :
  (forall p, R p p) -> Train.related R t t.
Proof. intros HR l. destruct (t !! l); constructor. apply HR. Qed.

Lemma related_trans R (t1 t2 t3 : gmap loc Param) :
  (forall p q r, R p q -> R q r -> R p r) ->
  Train.related R t1 t2 -> Train.related R t2 t3 -> Train.related R t1 t3.
Proof.
  intros HR H12 H23 l. specialize (H12 l). specialize (H23 l).
  destruct H12 as [p q Hpq|]; inversion H23; subst; constructor; eauto.
Qed.

Lemma related_alter R (f : Param -> Param) (l : loc) (t : gmap loc Param) :
  (forall p, R p p) -> (forall p, R p (f p)) -> Train.related R t (alter f l t).
Proof.
  intros Hrefl Hf l'. rewrite lookup_alter.
  destruct (decide (l = l')) as [<-|_]; destruct (t !! _); constructor; auto.
Qed.

Lemma same_weights_refl p : Train.same_weights p p.
Proof. by repeat split. Qed.

Lemma same_weights_trans p q r :
  Train.same_weights p q -> Train.same_weights q r -> Train.same_weights p r.
Proof. intros (?&?&?) (?&?&?). repeat split; congruence. Qed.

Lemma same_kind_refl p : Train.same_kind p p.
Proof. by repeat split. Qed.

Lemma same_kind_trans p q r : Train.same_kind p q -> Train.same_kind q r -> Train.same_kind p r.
Proof. intros (?&?&?) (?&?&?). repeat split; congruence. Qed.

Lemma same_weights_kind p q : Train.same_weights p q -> Train.same_kind p q.
Proof. intros (Hd&?&?). repeat split; congruence. Qed.

Lemma zero_grad_map_related (o : Train.Optimizer) (t : gmap loc Param) :
  Train.related Train.same_weights t (Train.zero_grad_map o t).
Proof.
  unfold Train.zero_grad_map.
  induction (Train.param_group o) as [|l ls IH]; cbn [foldr].
  - apply related_refl, same_weights_refl.
  - eapply related_trans; [apply same_weights_trans | exact IH |].
    apply related_alter; [apply same_weights_refl|]. intros p. by repeat split.
Qed.

Lemma zero_grad_map_frame (o : Train.Optimizer) (t : gmap loc Param) (l : loc) :
  l ∉ Train.param_group o -> Train.zero_grad_map o t !! l = t !! l.
Proof.
  unfold Train.zero_grad_map.
  induction (Train.param_group o) as [|l' ls IH]; intros Hl; cbn [foldr]; [done|].
  apply not_elem_of_cons in Hl as [Hne Hl].
  rewrite lookup_alter_ne by done. by apply IH.
Qed.

Lemma receive_grad_same (g : list Q) (p : Param) :
  Train.same_weights p (Train.receive_grad g p).
Proof. unfold Train.receive_grad. destruct (requires_grad p); by repeat split. Qed.

Lemma backward_map_related (ps : list (string * loc)) (gs : list (list Q))
    (t : gmap loc Param) :
  Train.related Train.same_weights t (Train.backward_map ps gs t).
Proof.
  unfold Train.backward_map.
  induction (zip ps gs) as [|[[n l] g] z IH]; cbn [foldr].
  - apply related_refl, same_weights_refl.
  - eapply related_trans; [apply same_weights_trans | exact IH |].
    apply related_alter; [apply same_weights_refl | apply receive_grad_same].
Qed.

Lemma backward_map_frame (ps : list (string * loc)) (gs : list (list Q))
    (t : gmap loc Param) (l : loc) :
  l ∉ locs ps -> Train.backward_map ps gs t !! l = t !! l.
Proof.
  unfold Train.backward_map. revert gs.
  induction ps as [|[n l'] ps IH]; intros gs Hl; [done|].
  destruct gs as [|g gs]; [done|]. cbn [zip zip_with foldr].
  cbn in Hl. apply not_elem_of_cons in Hl as [Hne Hl].
  rewrite lookup_alter_ne by done. by apply IH.
Qed.

(** A parameter that requires no gradient is left as it is by
    [backward], gradient included. *)
Lemma backward_map_frozen (ps : list (string * loc)) (gs : list (list Q))
    (t : gmap loc Param) (l : loc) (p : Param) :
  t !! l = Some p -> requires_grad p = false ->
  Train.backward_map ps gs t !! l = Some p.
Proof.
  intros Hp Hrg. unfold Train.backward_map.
  induction (zip ps gs) as [|[[n l'] g] z IH]; cbn [foldr]; [done|].
  rewrite lookup_alter. destruct (decide (l' = l)) as [->|]; [|done].
  rewrite IH. cbn. unfold Train.receive_grad. by rewrite Hrg.
Qed.

Lemma step_param_spec (o : Train.Optimizer) (t : gmap loc Param) (l : loc) :
  let o' := fst (Train.step_param (o, t) l) in
  let t' := snd (Train.step_param (o, t) l) in
  Train.param_group o' = Train.param_group o /\
  Train.opt_lr o' = Train.opt_lr o /\
  Train.related Train.same_kind t t' /\
  (forall l', l' <> l -> t' !! l' = t !! l').
Proof.
  cbn [Train.step_param].
  destruct (t !! l) as [p|] eqn:Hp;
    [destruct (grad p) as [g|] eqn:Hg|];
    [destruct (Train.adam_tensor _ _ _ _) as [ss xs] eqn:E|..]; cbn [fst snd];
    repeat split; try done; try (apply related_refl, same_kind_refl).
  - intros l'. rewrite lookup_insert.
    destruct (decide (l = l')) as [<-|_].
    + rewrite Hp. constructor. by repeat split.
    + destruct (t !! l'); constructor. apply same_kind_refl.
  - intros l' Hne. by rewrite lookup_insert_ne.
Qed.

Lemma foldl_step_param_spec (ls : list loc) (o : Train.Optimizer)
    (t : gmap loc Param) :
  let o' := fst (foldl Train.step_param (o, t) ls) in
  let t' := snd (foldl Train.step_param (o, t) ls) in
  Train.param_group o' = Train.param_group o /\
  Train.opt_lr o' = Train.opt_lr o /\
  Train.related Train.same_kind t t' /\
  (forall l, l ∉ ls -> t' !! l = t !! l).
Proof.
  revert o t. induction ls as [|l ls IH]; intros o t; cbn [foldl].
  - repeat split; try done. apply related_refl, same_kind_refl.
  - destruct (step_param_spec o t l) as (Hg & Hlr & Hrel & Hfr).
    destruct (Train.step_param (o, t) l) as [o1 t1]. cbn [fst snd] in *.
    destruct (IH o1 t1) as (Hg' & Hlr' & Hrel' & Hfr').
    repeat split.
    + congruence.
    + congruence.
    + eapply related_trans; [apply same_kind_trans | exact Hrel | exact Hrel'].
    + intros l' Hl'. apply not_elem_of_cons in Hl' as [Hne Hl'].
      rewrite Hfr' by done. by apply Hfr.
Qed.

Lemma step_map_spec (o : Train.Optimizer) (t : gmap loc Param) :
  let o' := fst (Train.step_map o t) in
  let t' := snd (Train.step_map o t) in
  Train.param_group o' = Train.param_group o /\
  Train.opt_lr o' = Train.opt_lr o /\
  Train.related Train.same_kind t t' /\
  (forall l, l ∉ Train.param_group o -> t' !! l = t !! l).
Proof. apply foldl_step_param_spec. Qed.

Lemma related_weights_kind (t t' : gmap loc Param) :
  Train.related Train.same_weights t t' -> Train.related Train.same_kind t t'.
Proof.
  intros Hrel l. destruct (Hrel l); constructor. by apply same_weights_kind.
Qed.

Lemma update_spec (o : Train.Optimizer) (ps : list (string * loc))
    (gs : list (list Q)) (t : gmap loc Param) :
  let o' := fst (Train.update o ps gs t) in
  let t' := snd (Train.update o ps gs t) in
  Train.param_group o' = Train.param_group o /\
  Train.related Train.same_kind t t' /\
  (forall l, l ∉ Train.param_group o -> l ∉ locs ps -> t' !! l = t !! l) /\
  (forall l p, t !! l = Some p -> requires_grad p = false ->
               l ∉ Train.param_group o -> t' !! l = Some p).
Proof.
  unfold Train.update.
  destruct (step_map_spec o (Train.backward_map ps gs (Train.zero_grad_map o t)))
    as (Hg & _ & Hrel & Hfr).
  repeat split.
  - exact Hg.
  - eapply related_trans; [apply same_kind_trans | | exact Hrel].
    eapply related_trans; [apply same_kind_trans | |].
    + apply related_weights_kind, zero_grad_map_related.
    + apply related_weights_kind, backward_map_related.
  - intros l Hl Hps.
    by rewrite Hfr, backward_map_frame, zero_grad_map_frame.
  - intros l p Hp Hrg Hl.
    rewrite Hfr by done. apply backward_map_frozen; [|done].
    by rewrite zero_grad_map_frame.
Qed.

Lemma values_related (t t' : gmap loc Param) (ps : list (string * loc)) :
  Train.related Train.same_weights t t' ->
  map data (omap (fun '(_, l) => t' !! l) ps) =
  map data (omap (fun '(_, l) => t !! l) ps).
Proof.
  intros Hrel. induction ps as [|[n l] ps IH]; [done|]. cbn.
  destruct (Hrel l) as [p p' (Hd & _)|]; cbn; [|exact IH].
  by rewrite Hd, IH.
Qed.

Lemma related_is_Some R (t t' : gmap loc Param) (l : loc) :
  Train.related R t t' -> is_Some (t !! l) <-> is_Some (t' !! l).
Proof.
  intros Hrel. specialize (Hrel l).
  destruct Hrel; split; intros [? ?]; try done; eauto.
Qed.


End UpdateFacts.


(** ** The padding row under optimisation *)

Section Padding.
Context `{Repo}.
Variable quiet : adam_state -> Prop.
Hypothesis quiet_init : quiet adam_init.
Hypothesis quiet_step : forall lr s x,
  quiet s -> snd (adam lr s x 0) = x /\ quiet (fst (adam lr s x 0)).
Variables (l1 : loc) (d n : nat).

Lemma lookup_repeat {A} (a x : A) (k i : nat) :
  repeat a k !! i = Some x -> x = a.
Proof.
  revert i. induction k as [|k IH]; intros i Hx; [done|].
  destruct i as [|i]; cbn in Hx; [congruence | eauto].
Qed.

Lemma zero_prefix_zero_row (g : list Q) :
  Train.zero_prefix d (Layers.zero_row 0 d g).
Proof.
  intros i x Hi Hx. unfold Layers.zero_row in Hx.
  rewrite take_0, app_nil_l in Hx.
  rewrite lookup_app_l in Hx by (rewrite repeat_length; lia).
  by apply lookup_repeat in Hx.
Qed.

Lemma zero_prefix_plus (a b : list Q) :
  Train.zero_prefix d a -> Train.zero_prefix d b ->
  Train.zero_prefix d (zip_with Qplus a b).
Proof.
  intros Ha Hb i z Hi Hz.
  apply lookup_zip_with_Some in Hz as (x & y & -> & Hx & Hy).
  by rewrite (Ha i x Hi Hx), (Hb i y Hi Hy).
Qed.

Lemma zero_prefix_zeros (g : list Q) :
  Train.zero_prefix d (map (fun _ => 0%Q) g).
Proof.
  intros i x _ Hx. rewrite list_lookup_fmap in Hx.
  destruct (g !! i); cbn in Hx; [by injection Hx as <- | done].
Qed.

Lemma pad_ok_zero_grad (p : Param) :
  Train.pad_ok d n p ->
  Train.pad_ok d n
    (Train.set_grad p ((fun g => map (fun _ => 0%Q) g) <$> grad p)).
Proof.
  intros (Hp & Hs & Hl & Hz & Hg). repeat split; try done.
  cbn. intros g Hgz. destruct (grad p); [|done].
  injection Hgz as <-. apply zero_prefix_zeros.
Qed.

Lemma pad_ok_receive_grad (g : list Q) (p : Param) :
  Train.pad_ok d n p -> Train.pad_ok d n (Train.receive_grad g p).
Proof.
  intros (Hp & Hs & Hl & Hz & Hg). unfold Train.receive_grad.
  destruct (requires_grad p); [|by repeat split].
  repeat split; try done. cbn. intros g' [= <-].
  assert (Hm : Train.zero_prefix d (Train.mask_grad p g)).
  { unfold Train.mask_grad. rewrite Hp, Hs. cbn. apply zero_prefix_zero_row. }
  unfold Train.accumulate. destruct (grad p) as [old|]; [|exact Hm].
  apply zero_prefix_plus; [by apply Hg | exact Hm].
Qed.

Lemma adam_tensor_padding (lr : value) (ss : list adam_state) (xs gs : list Q) :
  Train.zero_prefix d xs -> Train.zero_prefix d gs ->
  (forall i s, (i < d)%nat -> ss !! i = Some s -> quiet s) ->
  let r := Train.adam_tensor lr ss xs gs in
  length (snd r) = length xs /\
  Train.zero_prefix d (snd r) /\
  forall i s, (i < d)%nat -> fst r !! i = Some s -> quiet s.
Proof.
  intros Hx Hg Hs. unfold Train.adam_tensor. cbn [fst snd].
  assert (Hstep : forall i x, (i < d)%nat -> xs !! i = Some x ->
            let r := adam lr (default adam_init (ss !! i)) x
                          (default 0%Q (gs !! i)) in
            snd r = 0%Q /\ quiet (fst r)).
  { intros i x Hi Hxi. cbv zeta.
    assert (Hq : quiet (default adam_init (ss !! i))).
    { destruct (ss !! i) eqn:E; cbn; eauto. }
    assert (Hg0 : default 0%Q (gs !! i) = 0%Q).
    { destruct (gs !! i) eqn:E; cbn; eauto. }
    rewrite Hg0. rewrite (Hx i x Hi Hxi).
    destruct (quiet_step lr _ 0%Q Hq). split; done. }
  split; [by rewrite length_map, length_imap|]. split.
  - intros i x Hi Hxi. rewrite list_lookup_fmap, list_lookup_imap in Hxi.
    destruct (xs !! i) as [y|] eqn:Ey; [|done]. cbn in Hxi.
    injection Hxi as <-. by apply (Hstep i y).
  - intros i s Hi Hsi. rewrite list_lookup_fmap, list_lookup_imap in Hsi.
    destruct (xs !! i) as [y|] eqn:Ey; [|done]. cbn in Hsi.
    injection Hsi as <-. by apply (Hstep i y).
Qed.

Lemma alter_preserves (P : Param -> Prop) (f : Param -> Param) (l : loc)
    (t : gmap loc Param) :
  (forall p, P p -> P (f p)) ->
  (exists p, t !! l1 = Some p /\ P p) ->
  exists p, alter f l t !! l1 = Some p /\ P p.
Proof.
  intros Hf (p & Hp & HP). rewrite lookup_alter.
  destruct (decide (l = l1)) as [->|_]; rewrite Hp; cbn; eauto.
Qed.

Lemma padded_zero_grad (o : Train.Optimizer) (t : gmap loc Param) :
  Train.padded quiet l1 d n t o ->
  Train.padded quiet l1 d n (Train.zero_grad_map o t) o.
Proof.
  intros [Hp Hs]. split; [|exact Hs]. unfold Train.zero_grad_map.
  induction (Train.param_group o) as [|l ls IH]; cbn [foldr]; [exact Hp|].
  apply alter_preserves; [|exact IH]. apply pad_ok_zero_grad.
Qed.

Lemma padded_backward (o : Train.Optimizer) (ps : list (string * loc))
    (gs : list (list Q)) (t : gmap loc Param) :
  Train.padded quiet l1 d n t o ->
  Train.padded quiet l1 d n (Train.backward_map ps gs t) o.
Proof.
  intros [Hp Hs]. split; [|exact Hs]. unfold Train.backward_map.
  induction (zip ps gs) as [|[[nm l] g] z IH]; cbn [foldr]; [exact Hp|].
  apply alter_preserves; [|exact IH]. apply pad_ok_receive_grad.
Qed.

Lemma padded_step_param (o : Train.Optimizer) (t : gmap loc Param) (l : loc) :
  Train.padded quiet l1 d n t o ->
  Train.padded quiet l1 d n (snd (Train.step_param (o, t) l))
                            (fst (Train.step_param (o, t) l)).
Proof.
  intros [(p1 & Hp1 & Hok) Hs]. cbn [Train.step_param].
  destruct (t !! l) as [p|] eqn:Hp; [|by split; eauto].
  destruct (grad p) as [g|] eqn:Hg; [|by split; eauto].
  destruct (Train.adam_tensor _ _ _ _) as [ss xs] eqn:E. cbn [fst snd].
  destruct (decide (l = l1)) as [->|Hne].
  - rewrite Hp1 in Hp. injection Hp as <-.
    destruct Hok as (Hpad & Hsh & Hlen & Hz & Hgz).
    destruct (adam_tensor_padding (Train.opt_lr o)
                (default [] (Train.opt_state o !! l1)) (elems (data p1)) g)
      as (Hlen' & Hz' & Hq'); [done | by apply Hgz | |].
    { intros i s Hi Hsi. destruct (Train.opt_state o !! l1) as [ss0|] eqn:Es.
      - by apply (Hs ss0 i s).
      - cbn in Hsi. by destruct i. }
    rewrite E in Hlen', Hz', Hq'. cbn [fst snd] in *.
    split.
    + exists (Train.set_data p1 xs). split; [apply lookup_insert_eq|].
      repeat split; try done. cbn. congruence.
    + cbn. intros ss' i s. rewrite lookup_insert_eq. intros [= <-]. apply Hq'.
  - split.
    + exists p1. by rewrite lookup_insert_ne.
    + cbn. intros ss' i s. rewrite lookup_insert_ne by done. apply Hs.
Qed.

Lemma padded_foldl_step (ls : list loc) (o : Train.Optimizer)
    (t : gmap loc Param) :
  Train.padded quiet l1 d n t o ->
  Train.padded quiet l1 d n (snd (foldl Train.step_param (o, t) ls))
                            (fst (foldl Train.step_param (o, t) ls)).
Proof.
  revert o t. induction ls as [|l ls IH]; intros o t Hp; [exact Hp|].
  cbn [foldl]. pose proof (padded_step_param o t l Hp) as Hp'.
  destruct (Train.step_param (o, t) l) as [o2 t2]. by apply IH.
Qed.

Lemma padded_update (ps : list (string * loc)) (o : Train.Optimizer)
    (gs : list (list Q)) (t : gmap loc Param) :
  Train.padded quiet l1 d n t o ->
  Train.padded quiet l1 d n (snd (Train.update o ps gs t))
                            (fst (Train.update o ps gs t)).
Proof.
  intros Hp. unfold Train.update, Train.step_map.
  by apply padded_foldl_step, padded_backward, padded_zero_grad.
Qed.

Lemma padded_alloc (o : Train.Optimizer) (t t' : gmap loc Param) :
  Train.padded quiet l1 d n t o ->
  (forall l, is_Some (t !! l) -> t' !! l = t !! l) ->
  Train.padded quiet l1 d n t' o.
Proof.
  intros [(p & Hp & Hok) Hs] Hext. split; [|exact Hs].
  exists p. split; [|done]. rewrite Hext; [done | eauto].
Qed.


End Padding.


(** ** The evaluation driver *)

Ltac munfold :=
  unfold mbind, M_bind, bind, mret, M_ret, ret, lift, raise, get, put, modify.

Section WorldFacts.

Lemma log_nil (w : World) : log w [] = w.
Proof. destruct w. unfold log. cbn. by rewrite app_nil_r. Qed.

Lemma log_log (w : World) (a b : list event) :
  log (log w a) b = log w (a ++ b).
Proof. unfold log. cbn. by rewrite app_assoc. Qed.

Lemma emit_log (e : event) (w : World) : emit e w = (Ok tt, log w [e]).
Proof. reflexivity. Qed.

Lemma set_training_mode (m : loc) (b : bool) (w : World) :
  set_training m b w = (Ok tt, set_mode w m b).
Proof. reflexivity. Qed.

Lemma module_at_set_mode (w : World) (m m' : loc) (b : bool) :
  named_parameters (module_at (set_mode w m b) m') =
  named_parameters (module_at w m').
Proof.
  unfold module_at, set_mode, with_modules. cbn.
  rewrite lookup_alter. destruct (decide (m = m')) as [->|]; [|done].
  by destruct (modules w !! m').
Qed.

Lemma training_set_mode (w : World) (m : loc) (b : bool) :
  is_Some (modules w !! m) ->
  training (module_at (set_mode w m b) m) = b.
Proof.
  intros [o Ho]. unfold module_at, set_mode, with_modules. cbn.
  rewrite lookup_alter, decide_True by done. by rewrite Ho.
Qed.

Lemma training_set_mode_ne (w : World) (m m' : loc) (b : bool) :
  m <> m' ->
  training (module_at (set_mode w m b) m') = training (module_at w m').
Proof.
  intros Hne. unfold module_at, set_mode, with_modules. cbn.
  by rewrite lookup_alter, decide_False.
Qed.

Lemma params_of_set_mode (w : World) (m m' : loc) (b : bool) :
  params_of (set_mode w m b) m' = params_of w m'.
Proof. unfold params_of. by rewrite module_at_set_mode. Qed.

Lemma param_values_set_mode (w : World) (m m' : loc) (b : bool) :
  param_values (set_mode w m b) m' = param_values w m'.
Proof. unfold param_values. by rewrite params_of_set_mode. Qed.

Lemma module_at_lookup (w : World) (m : loc) (o : Module_) :
  modules w !! m = Some o -> module_at w m = o.
Proof. intros Hm. unfold module_at. by rewrite Hm. Qed.

Lemma modules_set_mode_eq (w : World) (m : loc) (ns : list (string * loc))
    (mode b : bool) :
  modules w !! m = Some (mkModule ns mode) ->
  modules (set_mode w m b) !! m = Some (mkModule ns b).
Proof.
  intros Hm. unfold set_mode, with_modules. cbn.
  by rewrite lookup_alter_eq, Hm.
Qed.

End WorldFacts.

Section Evaluation.
Context `{Repo}.

Lemma test_body_spec (model : loc) (args : pyobj) (dt dev : value)
    (b : Batch) (s : Q * nat * nat) (a : Test.Acc) (w : World) :
  getattr args "data_type" = Ok dt ->
  getattr args "device" = Ok dev ->
  training (module_at w model) = false ->
  Test.batch_stats (param_values w model) dt dev b = Ok s ->
  Test.test_body model args b a w =
    (Ok (Test.add_stats a s), log w [Forward model false (grad_enabled w)]).
Proof.
  intros Hdt Hdev Hmode Hs.
  unfold Test.test_body, call_model. munfold.
  rewrite Hdt, Hdev, emit_log, Hmode.
  unfold Test.batch_stats in Hs.
  change (param_values (log w [Forward model false (grad_enabled w)]) model)
    with (param_values w model) in *.
  destruct (Test.max_dim1 _) as [idx|]; [|discriminate]. cbn in Hs |- *.
  destruct (Test.eq_sum idx (label b)) as [c|]; [|discriminate]. cbn in Hs |- *.
  by injection Hs as <-.
Qed.

Lemma test_loop_spec (model : loc) (args : pyobj) (dt dev : value)
    (it : list Batch) (stats : list (Q * nat * nat)) (a : Test.Acc)
    (w : World) :
  getattr args "data_type" = Ok dt ->
  getattr args "device" = Ok dev ->
  training (module_at w model) = false ->
  Test.split_stats (param_values w model) dt dev it = Ok stats ->
  Test.test_loop model args it a w =
    (Ok (fold_left Test.add_stats stats a),
     log w (map (fun _ => Forward model false (grad_enabled w)) it)).
Proof.
  intros Hdt Hdev. revert stats a w.
  induction it as [|b it IH]; intros stats a w Hmode Hs.
  - injection Hs as <-. cbn. by rewrite log_nil.
  - cbn [Test.split_stats] in Hs.
    destruct (Test.batch_stats _ dt dev b) as [s|] eqn:Hb; [|discriminate].
    cbn in Hs.
    destruct (Test.split_stats _ dt dev it) as [ss|] eqn:Hss; [|discriminate].
    injection Hs as <-.
    cbn [Test.test_loop]. munfold.
    rewrite (test_body_spec _ _ dt dev b s) by done.
    rewrite (IH ss) by done.
    by rewrite log_log.
Qed.

(** The result and the effects of [test] on a split. *)
Lemma test_spec (model : loc) (args : pyobj) (model_data : ModelData)
    (mode : string) (dt dev : value) (stats : list (Q * nat * nat))
    (w : World) :
  let it := if String.eqb mode "valid" then valid_iter model_data
            else test_iter model_data in
  mode = "valid" \/ mode = "test" ->
  is_Some (modules w !! model) ->
  getattr args "data_type" = Ok dt ->
  getattr args "device" = Ok dev ->
  Test.split_stats (param_values w model) dt dev it = Ok stats ->
  Test.test model args model_data mode w =
    (Test.metrics_of stats,
     log (set_mode w model false)
         (map (fun _ => Forward model false (grad_enabled w)) it)).
Proof.
  intros it Hmode Hm Hdt Hdev Hs.
  assert (Hsplit : Test.test model args model_data mode w =
                   Test.test_split model args (Some it) (set_mode w model false)).
  { unfold Test.test. munfold. rewrite set_training_mode.
    destruct Hmode as [-> | ->]; reflexivity. }
  rewrite Hsplit. unfold Test.test_split. munfold.
  rewrite (test_loop_spec _ _ dt dev it stats); try done.
  - unfold Test.metrics_of.
    destruct (Test.div_size _); reflexivity.
  - by apply training_set_mode.
  - by rewrite param_values_set_mode.
Qed.

Lemma fold_add_stats_loss (stats : list (Q * nat * nat)) (a : Test.Acc) :
  Test.loss (fold_left Test.add_stats stats a) =
  fold_left Qplus (map (fun s => fst (fst s)) stats) (Test.loss a).
Proof.
  revert a. induction stats as [|[[l c] n] stats IH]; intros a; [done|].
  cbn [fold_left map]. by rewrite IH.
Qed.

Lemma fold_add_stats_size (stats : list (Q * nat * nat)) (a : Test.Acc) :
  Test.size (fold_left Test.add_stats stats a) =
  (Test.size a + Test.total_size stats)%nat.
Proof.
  revert a. induction stats as [|[[l c] n] stats IH]; intros a.
  - cbn. lia.
  - cbn [fold_left]. rewrite IH. unfold Test.total_size. cbn. lia.
Qed.

Lemma fold_add_stats_acc (stats : list (Q * nat * nat)) (a : Test.Acc) :
  stats <> [] ->
  exists x, Test.acc (fold_left Test.add_stats stats a) = Some x /\
    (x == default 0 (Test.acc a) +
          inject_Z (Z.of_nat (Test.total_correct stats)))%Q.
Proof.
  revert a. induction stats as [|[[l c] n] stats IH]; intros a Hne; [done|].
  cbn [fold_left]. destruct stats as [|s stats].
  - cbn. eexists. split; [reflexivity|].
    unfold Test.total_correct. cbn. by rewrite Nat.add_0_r.
  - destruct (IH (Test.add_stats a (l, c, n))) as (x & Hx & Hq); [done|].
    exists x. split; [exact Hx|]. rewrite Hq. cbn [Test.add_stats Test.acc default].
    unfold Test.total_correct. cbn [map sum_list fst snd].
    rewrite !Nat2Z.inj_add, !inject_Z_plus. unfold id.
    generalize (default 0%Q (Test.acc a)). intros q. ring.
Qed.

(** C2, amended.  On the split named by [mode], when the shapes of every
    batch's predictions fit its labels and the split holds at least one
    example, [test] switches the model to inference mode, leaves the
    gradient switch as the caller had it, runs the model once on every
    batch of the split, in order and in inference mode, and returns the
    sum of the batch losses together with the fraction of correct
    predictions over the split.  No parameter is modified. *)
Theorem test_returns_loss_sum_and_accuracy (model : loc) (args : pyobj)
    (model_data : ModelData) (mode : string) (dt dev : value)
    (stats : list (Q * nat * nat)) (w : World) :
  let it := if String.eqb mode "valid" then valid_iter model_data
            else test_iter model_data in
  mode = "valid" \/ mode = "test" ->
  is_Some (modules w !! model) ->
  getattr args "data_type" = Ok dt ->
  getattr args "device" = Ok dev ->
  Test.split_stats (param_values w model) dt dev it = Ok stats ->
  Test.total_size stats <> 0%nat ->
  exists acc w',
    Test.test model args model_data mode w =
      (Ok (Test.Metrics (Test.total_loss stats) (Fin acc)), w') /\
    (acc == inject_Z (Z.of_nat (Test.total_correct stats)) /
            inject_Z (Z.of_nat (Test.total_size stats)))%Q /\
    training (module_at w' model) = false /\
    grad_enabled w' = grad_enabled w /\
    trace w' = trace w ++ map (fun _ => Forward model false (grad_enabled w)) it /\
    tensors w' = tensors w.
Proof.
  intros it Hmode Hm Hdt Hdev Hs Hsize.
  assert (Hne : stats <> []) by (intros ->; by apply Hsize).
  rewrite (test_spec _ _ _ _ dt dev stats) by done. fold it.
  unfold Test.metrics_of, Test.div_size.
  destruct (fold_add_stats_acc stats (Test.mkAcc None 0 0) Hne) as (x & Hx & Hq).
  rewrite Hx, fold_add_stats_size, fold_add_stats_loss. cbn [Test.size Test.loss].
  destruct (Nat.eqb_spec (0 + Test.total_size stats) 0) as [E|_]; [lia|].
  cbn [mbind result_bind rbind]. eexists _, _. split; [reflexivity|].
  split; [|split; [|split; [|split]]].
  - rewrite Hq. cbn [Test.acc default]. rewrite Qplus_0_l. reflexivity.
  - unfold log. cbn. by apply training_set_mode.
  - reflexivity.
  - reflexivity.
  - reflexivity.
Qed.


End Evaluation.


(** ** The set-up of a training run *)

Section Setup.
Context `{Repo}.

Lemma trainable_requires_grad (w : World) (m l : loc) :
  l ∈ Train.trainable w m ->
  l ∈ locs (named_parameters (module_at w m)) /\
  exists p, tensors w !! l = Some p /\ requires_grad p = true.
Proof.
  unfold Train.trainable.
  induction (named_parameters (module_at w m)) as [|[n l'] ns IH]; cbn.
  - by intros ?%elem_of_nil.
  - destruct (tensors w !! l') as [p|] eqn:Hp; cbn.
    + destruct (requires_grad p) eqn:Hrg.
      * intros [->|Hin]%elem_of_cons.
        -- split; [left | eauto].
        -- destruct (IH Hin) as [? ?]. split; [by right | done].
      * intros Hin. destruct (IH Hin) as [? ?]. split; [by right | done].
    + intros Hin. destruct (IH Hin) as [? ?]. split; [by right | done].
Qed.

Lemma elem_of_trainable (w : World) (m l : loc) (p : Param) :
  l ∈ locs (named_parameters (module_at w m)) ->
  tensors w !! l = Some p -> requires_grad p = true ->
  l ∈ Train.trainable w m.
Proof.
  unfold Train.trainable. intros Hin Hp Hrg.
  induction (named_parameters (module_at w m)) as [|[n l'] ns IH]; cbn in *.
  - by apply elem_of_nil in Hin.
  - apply elem_of_cons in Hin as [<-|Hin].
    + rewrite Hp. cbn. rewrite Hrg. left.
    + destruct (tensors w !! l') as [p'|]; cbn; [|by apply IH].
      destruct (requires_grad p'); [right|]; by apply IH.
Qed.

(** Lines 60 to 72 succeed once the word representation layer can be
    built and the arguments carry a false [gpu] (the model stays where it
    was built, line 62 is skipped), [lr] and a string [model_time]; the
    model's parameters are then allocated one after the other, the
    optimizer holds those that require a gradient, and the locals have
    their initial values. *)
Lemma setup_spec (args : pyobj) (model_data : ModelData) (w : World)
    (wrl : Layers.WordRepresentationLayer) (gpu lr : value) (mt : string) :
  Layers.WordRepresentationLayer_init args (vectors model_data) = Ok wrl ->
  getattr args "gpu" = Ok gpu ->
  truthy gpu = false ->
  getattr args "lr" = Ok lr ->
  getattr args "model_time" = Ok (VStr mt) ->
  let params := Layers.WordRepresentationLayer_parameters
                  (word_layer_name ++ ".")%string wrl ++
                other_parameters args model_data in
  let ps := fst (alloc_all params (tensors w)) in
  let model := fresh (dom (modules w)) in
  exists st0 w1,
    Train.setup args model_data w = (Ok (model, st0), w1) /\
    modules w1 !! model = Some (mkModule ps true) /\
    tensors w1 = snd (alloc_all params (tensors w)) /\
    Train.param_group (Train.optimizer st0) = Train.trainable w1 model /\
    Train.opt_state (Train.optimizer st0) = ∅ /\
    Train.max_valid_acc st0 = Fin 0 /\
    Train.best_model st0 = None /\
    files w1 = files w /\ dirs w1 = dirs w /\ grad_enabled w1 = grad_enabled w.
Proof.
  intros Hwrl Hgpu Hcpu Hlr Hmt params ps model.
  destruct (WordRepresentationLayer_init_inv _ _ _ Hwrl) as (_ & _ & _ & Hcre).
  destruct (CharacterRepresentationEncoder_init_inv _ _ Hcre)
    as (_ & _ & Hrg & _).
  set (w1 := with_modules (with_tensors w (snd (alloc_all params (tensors w))))
               (<[model := mkModule ps true]> (modules w))).
  assert (Hm1 : modules w1 !! model = Some (mkModule ps true))
    by apply lookup_insert_eq.
  assert (Hne : Train.trainable w1 model <> []).
  { pose proof (alloc_all_Forall2 params (tensors w)) as HF. fold ps in HF.
    assert (Hparams : exists p0 p1 rest,
              params = p0 :: p1 :: rest /\ requires_grad (snd p1) = true).
    { subst params. unfold Layers.WordRepresentationLayer_parameters,
        Layers.CharacterRepresentationEncoder_parameters,
        Layers.Embedding_parameters. cbn [app].
      eexists _, _, _. split; [reflexivity|]. exact Hrg. }
    destruct Hparams as (p0 & p1 & rest & Hp & Hrg1). rewrite Hp in HF.
    inversion HF as [|nl0 ? ps0 ? _ HF' Hps0]; subst.
    inversion HF' as [|nl1 ? ps1 ? [_ Hl1] _ Hps1]; subst.
    rewrite <- Hp in Hl1.
    assert (Hin : snd nl1 ∈ Train.trainable w1 model).
    { apply (elem_of_trainable w1 model _ (snd p1)); [|exact Hl1|exact Hrg1].
      rewrite (module_at_lookup _ _ _ Hm1). cbn [named_parameters].
      rewrite <- Hps0. cbn. right. left. }
    intros E. rewrite E in Hin. by apply elem_of_nil in Hin. }
  assert (Htr : forall es, Train.trainable (log w1 es) model =
                           Train.trainable w1 model) by reflexivity.
  unfold Train.setup, BiMPM. munfold.
  rewrite Hwrl, alloc_params_eq. unfold alloc_module.
  cbv beta iota. cbn [modules with_tensors].
  change (with_modules _ _) with w1. change (fresh (dom (modules w))) with model.
  rewrite Hgpu, Hcpu. rewrite Hlr;
    unfold Train.Adam;
    (destruct (Train.trainable w1 model) as [|l ls] eqn:Etr; [done|]);
    rewrite Hmt; cbn [as_str]; rewrite emit_log, set_training_mode;
    (eexists _, _; split; [reflexivity|]);
    cbn [Train.optimizer Train.param_group Train.opt_state
         Train.max_valid_acc Train.best_model];
    (split; [apply (modules_set_mode_eq _ _ _ true), Hm1|]);
    (split; [reflexivity|]);
    (split; [rewrite <- Etr; unfold Train.trainable;
             by rewrite module_at_set_mode|]);
    repeat split; reflexivity.
Qed.

End Setup.


(** ** One iteration of the training loop *)

Section Iteration.
Context `{Repo}.
Variables (args : pyobj) (model_data : ModelData) (model : loc)
          (ps : list (string * loc)) (dt gpu dev : value) (pi : Z).
Hypothesis Hdt : getattr args "data_type" = Ok dt.
Hypothesis Hgpu : getattr args "gpu" = Ok gpu.
Hypothesis Hdev : getattr args "device" = Ok dev.
Hypothesis Hpi : getattr args "print_interval" = Ok (VInt pi).
Hypothesis Hpi0 : pi <> 0%Z.
Hypothesis Hvalid : forall values,
  is_ok (Test.split_stats values dt dev (valid_iter model_data)) = true.
Hypothesis Htest : forall values,
  is_ok (Test.split_stats values dt dev (test_iter model_data)) = true.
Hypothesis Hvalid_ne : valid_iter model_data <> [].
Hypothesis Htest_ne : test_iter model_data <> [].
(** The release of the tensor library lets line 84 index the loss. *)
Hypothesis Hidx : scalar_index_allowed = true.

(** A property of the parameter map and the optimizer that every update
    preserves and that does not depend on later allocations. *)
Variable J : gmap loc Param -> Train.Optimizer -> Prop.
Hypothesis J_update : forall o gs t,
  J t o -> J (snd (Train.update o ps gs t)) (fst (Train.update o ps gs t)).
Hypothesis J_alloc : forall o t t',
  J t o -> (forall l, is_Some (t !! l) -> t' !! l = t !! l) -> J t' o.

(** Lines 78 to 88: the forward pass, the update, and the test for a
    periodic evaluation. *)
Lemma train_body_update (i : nat) (b : Batch) (st : Train.Locals) (w : World)
    (mode : bool) :
  modules w !! model = Some (mkModule ps mode) ->
  let s := generate b dt gpu in
  let preds := model_forward (param_values w model) mode s in
  let gs := autograd (param_values w model) s (label b) in
  let ot := Train.update (Train.optimizer st) ps gs (tensors w) in
  let st1 := Train.mkLocals
               (Train.train_loss st + CrossEntropyLoss preds (label b))%Q
               (Train.max_valid_acc st) (Train.max_test_acc st)
               (Train.best_model st) (Some s) (fst ot) in
  let w1 := with_tensors (log w [Forward model mode (grad_enabled w)]) (snd ot) in
  Train.train_body model args model_data i b st w =
    if ((Z.of_nat i + 1) mod pi =? 0)%Z
    then Train.evaluate model args model_data i st1 w1
    else (Ok st1, w1).
Proof.
  intros Hm s preds gs ot st1 w1. subst s preds gs ot st1 w1.
  unfold Train.train_body, call_model, Train.zero_grad, Train.backward,
    Train.step, Train.update, Train.scalar_index. munfold.
  rewrite Hdt, Hgpu, emit_log, Hidx. cbn [fst snd].
  unfold param_values, params_of, module_at, with_tensors, log.
  cbn [tensors modules grad_enabled dirs files trace].
  rewrite Hm. cbn [default named_parameters training].
  unfold id. cbn [named_parameters training].
  rewrite (values_related _ _ ps (zero_grad_map_related (Train.optimizer st) (tensors w))).
  destruct (Train.step_map _ _) as [o' t']. cbn [fst snd].
  rewrite Hpi. cbn [as_int]. unfold Train.py_mod.
  destruct (Z.eqb_spec pi 0) as [E|_]; [contradiction|].
  destruct (Z.eqb_spec ((Z.of_nat i + 1) mod pi) 0); reflexivity.
Qed.

Lemma split_stats_length (values : list Tensor) (it : list Batch)
    (stats : list (Q * nat * nat)) :
  Test.split_stats values dt dev it = Ok stats -> length stats = length it.
Proof.
  revert stats. induction it as [|b it IH]; intros stats Hs.
  - by injection Hs as <-.
  - cbn [Test.split_stats] in Hs.
    destruct (Test.batch_stats values dt dev b); [|discriminate]. cbn in Hs.
    destruct (Test.split_stats values dt dev it); [|discriminate].
    injection Hs as <-. cbn. f_equal. by apply IH.
Qed.

Lemma metrics_of_ok (stats : list (Q * nat * nat)) :
  stats <> [] -> exists l a, Test.metrics_of stats = Ok (Test.Metrics l a).
Proof.
  intros Hne. unfold Test.metrics_of, Test.div_size.
  destruct (fold_add_stats_acc stats (Test.mkAcc None 0 0) Hne) as (x & Hx & _).
  rewrite Hx. destruct (_ =? _)%nat; cbn; eauto.
Qed.

(** A split that is not empty always yields metrics. *)
Lemma split_metrics (values : list Tensor) (it : list Batch) :
  is_ok (Test.split_stats values dt dev it) = true -> it <> [] ->
  exists stats l a,
    Test.split_stats values dt dev it = Ok stats /\
    Test.metrics_of stats = Ok (Test.Metrics l a).
Proof.
  intros Hok Hne.
  destruct (Test.split_stats values dt dev it) as [stats|] eqn:Hs; [|discriminate].
  destruct (metrics_of_ok stats) as (l & a & Hm).
  - intros ->. apply split_stats_length in Hs. destruct it; [done | discriminate].
  - eauto.
Qed.


Lemma modules_set_mode_model (w : World) (mode b : bool) :
  modules w !! model = Some (mkModule ps mode) ->
  modules (set_mode w model b) !! model = Some (mkModule ps b).
Proof.
  intros Hm. unfold set_mode, with_modules. cbn.
  by rewrite lookup_alter_eq, Hm.
Qed.

Lemma modules_set_mode_other (w : World) (c : loc) (b : bool) :
  c <> model -> modules (set_mode w model b) !! c = modules w !! c.
Proof.
  intros Hne. unfold set_mode, with_modules. cbn. by rewrite lookup_alter_ne.
Qed.

(** The result and the effects of [deepcopy] on a model whose parameters
    are all allocated. *)
Lemma deepcopy_spec (w : World) (mode : bool) :
  modules w !! model = Some (mkModule ps mode) ->
  Forall (fun l => is_Some (tensors w !! l)) (locs ps) ->
  exists c cps w',
    deepcopy model w = (Ok c, w') /\
    modules w !! c = None /\
    modules w' = <[c := mkModule cps mode]> (modules w) /\
    (forall l, is_Some (tensors w !! l) -> tensors w' !! l = tensors w !! l) /\
    Forall (fun l => tensors w !! l = None /\ is_Some (tensors w' !! l)) (locs cps) /\
    param_values w' c = param_values w model /\
    grad_enabled w' = grad_enabled w /\ dirs w' = dirs w /\ files w' = files w.
Proof.
  intros Hm Hall.
  destruct (copies_ok (tensors w) ps Hall) as (cs & Hcs & Hdata).
  destruct (alloc_all_spec cs (tensors w)) as (Hn & Hkeep & Hnew & Hnd & Hval & Hdom).
  exists (fresh (dom (modules w))), (fst (alloc_all cs (tensors w))).
  eexists. split; [|split; [|split; [|split; [|split; [|split]]]]].
  - unfold deepcopy. munfold. unfold module_at. rewrite Hm.
    cbn [default id named_parameters training]. unfold id. cbn [named_parameters training].
    rewrite Hcs, alloc_params_eq. unfold alloc_module. reflexivity.
  - apply not_elem_of_dom, is_fresh.
  - reflexivity.
  - exact Hkeep.
  - exact Hnew.
  - unfold param_values, params_of, module_at, with_modules, with_tensors.
    cbn [modules tensors]. rewrite lookup_insert_eq, Hm.
    cbn [default named_parameters]. unfold id. cbn [named_parameters].
    by rewrite Hval, <- Hdata, map_map.
  - done.
Qed.


(** Lines 89 to 113: what a periodic evaluation does to the locals and
    to the world. *)
Lemma evaluate_spec (i : nat) (st : Train.Locals) (w : World) (mode : bool) :
  modules w !! model = Some (mkModule ps mode) ->
  Forall (fun l => is_Some (tensors w !! l)) (locs ps) ->
  let values := param_values w model in
  let a := Train.valid_accuracy values dt dev model_data in
  exists st' w',
    Train.evaluate model args model_data i st w = (Ok st', w') /\
    modules w' !! model = Some (mkModule ps true) /\
    (forall c, c <> model -> is_Some (modules w !! c) ->
               modules w' !! c = modules w !! c) /\
    (forall l, is_Some (tensors w !! l) -> tensors w' !! l = tensors w !! l) /\
    Train.pq st' = Train.pq st /\
    Train.optimizer st' = Train.optimizer st /\
    if Train.num_gt a (Train.max_valid_acc st) then
      Train.max_valid_acc st' = a /\
      exists c cps,
        Train.best_model st' = Some c /\
        modules w !! c = None /\
        modules w' !! c = Some (mkModule cps false) /\
        Forall (fun l => tensors w !! l = None /\ is_Some (tensors w' !! l))
               (locs cps) /\
        param_values w' c = values
    else
      Train.max_valid_acc st' = Train.max_valid_acc st /\
      Train.best_model st' = Train.best_model st /\
      tensors w' = tensors w.
Proof.
  intros Hm Hall values a.
  destruct (split_metrics values (valid_iter model_data) (Hvalid values) Hvalid_ne)
    as (sv & lv & av & Hsv & Hmv).
  destruct (split_metrics values (test_iter model_data) (Htest values) Htest_ne)
    as (stt & lt & at' & Hst & Hmt).
  assert (Ha : a = av).
  { subst a. unfold Train.valid_accuracy. rewrite Hsv. cbn. by rewrite Hmv. }
  set (w1 := log (set_mode w model false)
               (map (fun _ => Forward model false (grad_enabled w))
                    (valid_iter model_data))).
  assert (Hm1 : modules w1 !! model = Some (mkModule ps false))
    by (apply (modules_set_mode_model w mode), Hm).
  assert (Hv1 : param_values w1 model = values)
    by (apply param_values_set_mode).
  set (w2 := log (set_mode w1 model false)
               (map (fun _ => Forward model false (grad_enabled w1))
                    (test_iter model_data))).
  assert (Hm2 : modules w2 !! model = Some (mkModule ps false))
    by (apply (modules_set_mode_model w1 false), Hm1).
  unfold Train.evaluate. munfold.
  rewrite (test_spec model args model_data "valid" dt dev sv w); eauto.
  change (String.eqb "valid" "valid") with true. cbv iota.
  fold w1. rewrite Hmv. cbn [Train.unpack]. munfold. cbv beta iota.
  rewrite (test_spec model args model_data "test" dt dev stt w1); eauto;
    [|by rewrite Hv1].
  change (String.eqb "test" "valid") with false. cbv iota.
  fold w2. rewrite Hmt. cbn [Train.unpack]. munfold. cbv beta iota.
  rewrite Hpi. cbn [as_int]. unfold Train.py_floordiv.
  destruct (Z.eqb_spec pi 0) as [E|_]; [contradiction|].
  rewrite !emit_log, !log_log. cbn [app].
  match goal with |- context [log w2 ?es] => set (w3 := log w2 es) end.
  rewrite <- Ha.
  destruct (Train.num_gt a (Train.max_valid_acc st)) eqn:Hgt.
  - destruct (deepcopy_spec w3 false) as
      (c & cps & w4 & Hdc & Hnone & Hmods & Hkeep & Hnew & Hvals & _); [done..|].
    rewrite Hdc, set_training_mode. cbn [Train.max_valid_acc Train.best_model
      Train.pq Train.optimizer Train.max_test_acc].
    assert (Hm3 : modules w3 !! model = Some (mkModule ps false)) by exact Hm2.
    assert (Hcm : c <> model) by (intros ->; congruence).
    eexists _, _. split; [reflexivity|]. cbn [Train.max_valid_acc Train.best_model
      Train.pq Train.optimizer].
    split.
    { apply (modules_set_mode_model w4 false). rewrite Hmods.
      by rewrite lookup_insert_ne. }
    split.
    { intros c' Hne Hc'. rewrite modules_set_mode_other, Hmods by done.
      rewrite lookup_insert_ne.
      - cbn. unfold set_mode, with_modules. cbn. by rewrite !lookup_alter_ne.
      - intros <-. cbn in Hnone. unfold set_mode, with_modules in Hnone. cbn in Hnone.
        rewrite !lookup_alter_ne in Hnone by done. rewrite Hnone in Hc'.
        by destruct Hc'. }
    split; [intros l Hl; apply (Hkeep l Hl)|].
    split; [reflexivity|]. split; [reflexivity|]. split; [reflexivity|].
    exists c, cps. split; [reflexivity|]. split; [|split; [|split]].
    + cbn in Hnone. unfold set_mode, with_modules in Hnone. cbn in Hnone.
      by rewrite !lookup_alter_ne in Hnone.
    + rewrite modules_set_mode_other, Hmods by done. apply lookup_insert_eq.
    + exact Hnew.
    + rewrite param_values_set_mode, Hvals.
      change (param_values (set_mode w1 model false) model = values).
      rewrite param_values_set_mode. exact Hv1.
  - rewrite set_training_mode.
    eexists _, _. split; [reflexivity|]. cbn [Train.max_valid_acc Train.best_model
      Train.pq Train.optimizer].
    split; [by apply (modules_set_mode_model w3 false)|].
    split.
    { intros c' Hne Hc'. rewrite modules_set_mode_other by done.
      cbn. unfold set_mode, with_modules. cbn. by rewrite !lookup_alter_ne. }
    repeat split; reflexivity.
Qed.

Lemma omap_lookup_ext (t t' : gmap loc Param) (ns : list (string * loc)) :
  (forall l, l ∈ locs ns -> t' !! l = t !! l) ->
  omap (fun '(_, l) => t' !! l) ns = omap (fun '(_, l) => t !! l) ns.
Proof.
  induction ns as [|[n l] ns IH]; intros Hl; [done|].
  cbn. rewrite (Hl l) by (cbn; left). rewrite IH; [done|].
  intros l' Hl'. apply Hl. cbn. by right.
Qed.

Lemma param_values_frame (w w' : World) (m : loc) :
  named_parameters (module_at w' m) = named_parameters (module_at w m) ->
  (forall l, l ∈ locs (named_parameters (module_at w m)) ->
             tensors w' !! l = tensors w !! l) ->
  param_values w' m = param_values w m.
Proof.
  intros Hn Hl. unfold param_values, params_of. rewrite Hn. f_equal.
  by apply omap_lookup_ext.
Qed.

(** One iteration under the standing assumptions: it returns, keeps the
    model's parameter objects, touches no tensor outside the optimizer's
    group and the model's parameters, and updates the retained snapshot
    exactly when the validation accuracy improves. *)
Lemma train_body_spec (i : nat) (b : Batch) (st : Train.Locals) (w : World)
    (mode : bool) :
  modules w !! model = Some (mkModule ps mode) ->
  Forall (fun l => is_Some (tensors w !! l)) (locs ps) ->
  exists st' w',
    Train.train_body model args model_data i b st w = (Ok st', w') /\
    modules w' !! model = Some (mkModule ps (if ((Z.of_nat i + 1) mod pi =? 0)%Z
                                             then true else mode)) /\
    (forall c, c <> model -> is_Some (modules w !! c) ->
               modules w' !! c = modules w !! c) /\
    (forall l, is_Some (tensors w !! l) -> is_Some (tensors w' !! l)) /\
    (forall l, is_Some (tensors w !! l) ->
               l ∉ Train.param_group (Train.optimizer st) -> l ∉ locs ps ->
               tensors w' !! l = tensors w !! l) /\
    (forall l p, tensors w !! l = Some p -> requires_grad p = false ->
                 l ∉ Train.param_group (Train.optimizer st) ->
                 tensors w' !! l = Some p) /\
    Train.param_group (Train.optimizer st') =
      Train.param_group (Train.optimizer st) /\
    Train.pq st' <> None /\
    let values := param_values w' model in
    let a := Train.valid_accuracy values dt dev model_data in
    if ((Z.of_nat i + 1) mod pi =? 0)%Z && Train.num_gt a (Train.max_valid_acc st)
    then
      Train.max_valid_acc st' = a /\
      exists c cps,
        Train.best_model st' = Some c /\
        modules w !! c = None /\
        modules w' !! c = Some (mkModule cps false) /\
        Forall (fun l => tensors w !! l = None /\ is_Some (tensors w' !! l))
               (locs cps) /\
        param_values w' c = values
    else
      Train.max_valid_acc st' = Train.max_valid_acc st /\
      Train.best_model st' = Train.best_model st.
Proof.
  intros Hm Hall.
  rewrite (train_body_update i b st w mode Hm). cbv zeta.
  set (gs := autograd _ _ _).
  destruct (update_spec (Train.optimizer st) ps gs (tensors w))
    as (Hgrp & Hrel & Hframe & Hfrozen).
  set (ot := Train.update (Train.optimizer st) ps gs (tensors w)) in *.
  set (st1 := Train.mkLocals _ _ _ _ _ _).
  set (w1 := with_tensors _ _).
  assert (Hm1 : modules w1 !! model = Some (mkModule ps mode)) by exact Hm.
  assert (Hsome : forall l, is_Some (tensors w !! l) -> is_Some (tensors w1 !! l)).
  { intros l Hl. by apply (related_is_Some _ _ _ l Hrel). }
  assert (Hall1 : Forall (fun l => is_Some (tensors w1 !! l)) (locs ps)).
  { eapply Forall_impl; [exact Hall|]. intros l Hl. by apply Hsome. }
  destruct ((Z.of_nat i + 1) mod pi =? 0)%Z eqn:Heval; cbn [andb].
  - destruct (evaluate_spec i st1 w1 mode Hm1 Hall1)
      as (st' & w' & Hev & Hm' & Hmods & Hkeep & Hpq & Hopt & Hbest).
    exists st', w'. split; [exact Hev|]. split; [exact Hm'|].
    split; [exact Hmods|].
    split. { intros l Hl. rewrite Hkeep by auto. auto. }
    split. { intros l Hl Hg Hp. rewrite Hkeep by auto. by apply Hframe. }
    split. { intros l p Hp Hrg Hg. rewrite Hkeep.
             - by apply Hfrozen.
             - cbn. erewrite Hfrozen; eauto. }
    split. { rewrite Hopt. exact Hgrp. }
    split. { rewrite Hpq. done. }
    assert (Hvals : param_values w' model = param_values w1 model).
    { apply param_values_frame.
      - by rewrite (module_at_lookup _ _ _ Hm'), (module_at_lookup _ _ _ Hm1).
      - rewrite (module_at_lookup _ _ _ Hm1). cbn. intros l Hl.
        apply Hkeep. rewrite Forall_forall in Hall1. by apply Hall1. }
    rewrite Hvals.
    destruct (Train.num_gt _ _).
    + destruct Hbest as (Hmax & c & cps & Hb & Hnone & Hc & Hnew & Hcv).
      split; [exact Hmax|]. exists c, cps. split; [exact Hb|].
      split; [exact Hnone|]. split; [exact Hc|]. split; [|exact Hcv].
      eapply Forall_impl; [exact Hnew|]. intros l [Hn Hs]. split; [|done].
      destruct (tensors w !! l) eqn:El; [|done].
      destruct (Hsome l) as [? Hx]; [eauto|]. rewrite Hx in Hn. discriminate.
    + destruct Hbest as (Hmax & Hb & _). by split.
  - exists st1, w1. split; [reflexivity|]. split; [exact Hm1|].
    split; [done|]. split; [exact Hsome|]. split; [intros; by apply Hframe|].
    split; [exact Hfrozen|]. split; [exact Hgrp|]. split; [done|].
    by split.
Qed.


Lemma train_body_preserves (i : nat) (b : Batch) (st st' : Train.Locals)
    (w w' : World) (mode : bool) :
  modules w !! model = Some (mkModule ps mode) ->
  Forall (fun l => is_Some (tensors w !! l)) (locs ps) ->
  J (tensors w) (Train.optimizer st) ->
  Train.train_body model args model_data i b st w = (Ok st', w') ->
  J (tensors w') (Train.optimizer st').
Proof.
  intros Hm Hall HJ.
  rewrite (train_body_update i b st w mode Hm). cbv zeta.
  set (gs := autograd _ _ _).
  pose proof (J_update _ gs _ HJ) as HJ1.
  destruct (update_spec (Train.optimizer st) ps gs (tensors w))
    as (_ & Hrel & _).
  set (st1 := Train.mkLocals _ _ _ _ _ _).
  set (w1 := with_tensors _ _).
  destruct ((Z.of_nat i + 1) mod pi =? 0)%Z.
  - assert (Hall1 : Forall (fun l => is_Some (tensors w1 !! l)) (locs ps)).
    { eapply Forall_impl; [exact Hall|]. intros l Hl.
      by apply (related_is_Some _ _ _ l Hrel). }
    destruct (evaluate_spec i st1 w1 mode Hm Hall1)
      as (st2 & w2 & Hev & _ & _ & Hkeep & _ & Hopt & _).
    rewrite Hev. intros [= <- <-]. rewrite Hopt.
    eapply J_alloc; [exact HJ1 | exact Hkeep].
  - intros [= <- <-]. exact HJ1.
Qed.


(** The test accuracy an evaluation records: the fresh one when the
    validation accuracy improved, the old one otherwise. *)
Lemma evaluate_test_acc (i : nat) (st st' : Train.Locals) (w w' : World)
    (mode : bool) :
  modules w !! model = Some (mkModule ps mode) ->
  Forall (fun l => is_Some (tensors w !! l)) (locs ps) ->
  Train.evaluate model args model_data i st w = (Ok st', w') ->
  let values := param_values w model in
  Train.max_test_acc st' =
    if Train.num_gt (Train.valid_accuracy values dt dev model_data)
                    (Train.max_valid_acc st)
    then Train.test_accuracy values dt dev model_data
    else Train.max_test_acc st.
Proof.
  intros Hm Hall Hev values.
  destruct (split_metrics values (valid_iter model_data) (Hvalid values) Hvalid_ne)
    as (sv & lv & av & Hsv & Hmv).
  destruct (split_metrics values (test_iter model_data) (Htest values) Htest_ne)
    as (stt & lt & at' & Hst & Hmt).
  assert (Ha : Train.valid_accuracy values dt dev model_data = av).
  { unfold Train.valid_accuracy. rewrite Hsv. cbn. by rewrite Hmv. }
  assert (Ht : Train.test_accuracy values dt dev model_data = at').
  { unfold Train.test_accuracy. rewrite Hst. cbn. by rewrite Hmt. }
  set (w1 := log (set_mode w model false)
               (map (fun _ => Forward model false (grad_enabled w))
                    (valid_iter model_data))).
  assert (Hm1 : modules w1 !! model = Some (mkModule ps false))
    by (apply (modules_set_mode_model w mode), Hm).
  assert (Hv1 : param_values w1 model = values)
    by (apply param_values_set_mode).
  set (w2 := log (set_mode w1 model false)
               (map (fun _ => Forward model false (grad_enabled w1))
                    (test_iter model_data))).
  assert (Hm2 : modules w2 !! model = Some (mkModule ps false))
    by (apply (modules_set_mode_model w1 false), Hm1).
  revert Hev. unfold Train.evaluate. munfold.
  rewrite (test_spec model args model_data "valid" dt dev sv w); eauto.
  change (String.eqb "valid" "valid") with true. cbv iota.
  fold w1. rewrite Hmv. cbn [Train.unpack]. munfold. cbv beta iota.
  rewrite (test_spec model args model_data "test" dt dev stt w1); eauto;
    [|by rewrite Hv1].
  change (String.eqb "test" "valid") with false. cbv iota.
  fold w2. rewrite Hmt. cbn [Train.unpack]. munfold. cbv beta iota.
  rewrite Hpi. cbn [as_int]. unfold Train.py_floordiv.
  destruct (Z.eqb_spec pi 0) as [E|_]; [contradiction|].
  rewrite !emit_log, !log_log. cbn [app].
  match goal with |- context [log w2 ?es] => set (w3 := log w2 es) end.
  rewrite Ha, Ht.
  destruct (Train.num_gt av (Train.max_valid_acc st)).
  - destruct (deepcopy_spec w3 false) as (c & cps & w4 & Hdc & _); [done..|].
    rewrite Hdc, set_training_mode. by intros [= <- <-].
  - rewrite set_training_mode. by intros [= <- <-].
Qed.

Lemma train_body_test_acc (i : nat) (b : Batch) (st st' : Train.Locals)
    (w w' : World) (mode : bool) :
  modules w !! model = Some (mkModule ps mode) ->
  Forall (fun l => is_Some (tensors w !! l)) (locs ps) ->
  Train.train_body model args model_data i b st w = (Ok st', w') ->
  let values := param_values w' model in
  Train.max_test_acc st' =
    if ((Z.of_nat i + 1) mod pi =? 0)%Z &&
       Train.num_gt (Train.valid_accuracy values dt dev model_data)
                    (Train.max_valid_acc st)
    then Train.test_accuracy values dt dev model_data
    else Train.max_test_acc st.
Proof.
  intros Hm Hall.
  rewrite (train_body_update i b st w mode Hm). cbv zeta.
  set (gs := autograd _ _ _).
  destruct (update_spec (Train.optimizer st) ps gs (tensors w))
    as (_ & Hrel & _).
  set (st1 := Train.mkLocals _ _ _ _ _ _).
  set (w1 := with_tensors _ _).
  assert (Hm1 : modules w1 !! model = Some (mkModule ps mode)) by exact Hm.
  assert (Hall1 : Forall (fun l => is_Some (tensors w1 !! l)) (locs ps)).
  { eapply Forall_impl; [exact Hall|]. intros l Hl.
    by apply (related_is_Some _ _ _ l Hrel). }
  destruct ((Z.of_nat i + 1) mod pi =? 0)%Z; cbn [andb].
  - intros Hev.
    destruct (evaluate_spec i st1 w1 mode Hm1 Hall1)
      as (st2 & w2 & Hev2 & Hm' & _ & Hkeep & _).
    rewrite Hev in Hev2. injection Hev2 as <- <-.
    assert (Hvals : param_values w' model = param_values w1 model).
    { apply param_values_frame.
      - by rewrite (module_at_lookup _ _ _ Hm'), (module_at_lookup _ _ _ Hm1).
      - rewrite (module_at_lookup _ _ _ Hm1). cbn. intros l Hl.
        apply Hkeep. rewrite Forall_forall in Hall1. by apply Hall1. }
    rewrite Hvals.
    exact (evaluate_test_acc i st1 st' w1 w' mode Hm1 Hall1 Hev).
  - by intros [= <- <-].
Qed.


(** *** The loop as a sequence of iterations *)

Lemma train_loop_take (i : nat) (it : list Batch) (st : Train.Locals)
    (w : World) :
  Train.train_loop model args model_data i it st w =
  Train.train_loop model args model_data i
    (take (Train.iterations model_data i it) it) st w.
Proof.
  revert i st w. induction it as [|b it IH]; intros i st w; [done|].
  cbn [Train.train_loop Train.iterations].
  destruct (keep_training model_data i) eqn:Hk; [|done].
  cbn [take Train.train_loop]. rewrite Hk. munfold.
  destruct (Train.train_body _ _ _ _ _ _ _) as [[st'|e] w']; [|done].
  apply IH.
Qed.

Lemma iterations_keep (i : nat) (it : list Batch) (j : nat) :
  (j < Train.iterations model_data i it)%nat ->
  keep_training model_data (i + j) = true /\ (j < length it)%nat.
Proof.
  revert i j. induction it as [|b it IH]; intros i j Hj; cbn in Hj; [lia|].
  destruct (keep_training model_data i) eqn:Hk; [|lia].
  destruct j as [|j].
  - rewrite Nat.add_0_r. split; [done | cbn; lia].
  - destruct (IH (S i) j) as [Hk' Hl]; [lia|].
    replace (i + S j)%nat with (S i + j)%nat by lia. split; [done | cbn; lia].
Qed.

Lemma train_loop_snoc (i : nat) (it : list Batch) (b : Batch)
    (st : Train.Locals) (w : World) :
  (forall j, (j < length it)%nat -> keep_training model_data (i + j) = true) ->
  keep_training model_data (i + length it) = true ->
  Train.train_loop model args model_data i (it ++ [b]) st w =
  match Train.train_loop model args model_data i it st w with
  | (Ok st', w') =>
      Train.train_body model args model_data (i + length it) b st' w'
  | (Raise e, w') => (Raise e, w')
  end.
Proof.
  revert i st w. induction it as [|b' it IH]; intros i st w Hkeep Hlast.
  - cbn in *. rewrite Nat.add_0_r in *. rewrite Hlast. munfold.
    by destruct (Train.train_body _ _ _ _ _ _ _) as [[st'|e] w'].
  - assert (Hk0 : keep_training model_data i = true).
    { rewrite <- (Nat.add_0_r i). apply Hkeep. cbn. lia. }
    cbn [app Train.train_loop]. rewrite Hk0. munfold.
    destruct (Train.train_body _ _ _ _ _ _ _) as [[st'|e] w']; [|done].
    rewrite IH.
    + cbn [length]. by replace (S i + length it)%nat with (i + S (length it))%nat by lia.
    + intros j Hj. replace (S i + j)%nat with (i + S j)%nat by lia.
      apply Hkeep. cbn. lia.
    + replace (S i + length it)%nat with (i + length (b' :: it))%nat by (cbn; lia).
      done.
Qed.

Lemma evaluations_S (k : nat) :
  Train.evaluations pi (S k) =
  Train.evaluations pi k ++
    (if decide ((Z.of_nat (S k) mod pi)%Z = 0%Z) then [S k] else []).
Proof.
  unfold Train.evaluations. rewrite seq_S, filter_app. f_equal.
Qed.


(** *** The run from the start of the loop *)

Section Run.
Variables (st0 : Train.Locals) (w0 : World).
Hypothesis Hmod0 : modules w0 !! model = Some (mkModule ps true).
Hypothesis Hall0 : Forall (fun l => is_Some (tensors w0 !! l)) (locs ps).
Hypothesis Hgroup0 :
  Forall (fun l => is_Some (tensors w0 !! l))
         (Train.param_group (Train.optimizer st0)).
Hypothesis Hmax0 : Train.max_valid_acc st0 = Fin 0.
Hypothesis Hbest0 : Train.best_model st0 = None.
Hypothesis HJ0 : J (tensors w0) (Train.optimizer st0).

Let group := Train.param_group (Train.optimizer st0).
Let N := Train.iterations model_data 0 (train_iter model_data).
Let recs := Train.records model args model_data dt dev pi st0 w0.

Lemma records_S (k : nat) :
  recs (S k) =
  recs k ++
    (if decide ((Z.of_nat (S k) mod pi)%Z = 0%Z)
     then let values :=
            param_values (snd (Train.after model args model_data (S k) st0 w0))
                         model in
          [(Train.valid_accuracy values dt dev model_data, values)]
     else []).
Proof.
  unfold recs, Train.records. rewrite evaluations_S, map_app.
  by destruct (decide _).
Qed.

Lemma after_S (k : nat) (b : Batch) :
  (k < N)%nat -> train_iter model_data !! k = Some b ->
  Train.after model args model_data (S k) st0 w0 =
  match Train.after model args model_data k st0 w0 with
  | (Ok st, w) => Train.train_body model args model_data k b st w
  | (Raise e, w) => (Raise e, w)
  end.
Proof.
  intros Hk Hb. unfold Train.after.
  rewrite (take_S_r _ _ _ Hb).
  assert (Hlen : length (take k (train_iter model_data)) = k).
  { rewrite length_take. apply lookup_lt_Some in Hb. lia. }
  rewrite train_loop_snoc; rewrite ?Hlen.
  - done.
  - intros j Hj. apply (iterations_keep 0 (train_iter model_data) j). fold N. lia.
  - apply (iterations_keep 0 (train_iter model_data) k). by fold N.
Qed.

(** After any number of iterations of the run, the loop has not raised;
    the model and the optimizer still refer to the same parameter
    objects; the best accuracy and the retained snapshot are the ones the
    validation passes so far determine; parameters that require no
    gradient and are unknown to the optimizer hold what they held at the
    start; and the property [J] still holds. *)
Lemma after_spec (k : nat) :
  (k <= N)%nat ->
  exists st w,
    Train.after model args model_data k st0 w0 = (Ok st, w) /\
    (exists mode, modules w !! model = Some (mkModule ps mode)) /\
    Forall (fun l => is_Some (tensors w !! l)) (locs ps) /\
    Forall (fun l => is_Some (tensors w !! l)) group /\
    Train.param_group (Train.optimizer st) = group /\
    Train.max_valid_acc st = fst (Train.best_so_far (recs k)) /\
    Train.retained model ps group w (Train.best_model st)
                   (snd (Train.best_so_far (recs k))) /\
    (Train.best_model st <> None -> Train.pq st <> None) /\
    (forall l p, tensors w0 !! l = Some p -> requires_grad p = false ->
                 l ∉ group -> tensors w !! l = Some p) /\
    J (tensors w) (Train.optimizer st).
Proof.
  induction k as [|k IH]; intros Hk.
  - exists st0, w0. split; [reflexivity|]. split; [eauto|].
    split; [exact Hall0|]. split; [exact Hgroup0|]. split; [reflexivity|].
    split; [exact Hmax0|]. split; [exact Hbest0|].
    split; [by rewrite Hbest0|]. split; [by intros|]. exact HJ0.
  - destruct IH as (st & w & Haft & [mode Hm] & Hall & Hgrp & Hg & Hmax & Hret &
                    Hpq & Hfrozen & HJ); [lia|].
    destruct (lookup_lt_is_Some_2 (train_iter model_data) k) as [b Hb].
    { destruct (iterations_keep 0 (train_iter model_data) k); [fold N; lia | done]. }
    destruct (train_body_spec k b st w mode Hm Hall)
      as (st' & w' & Hbody & Hm' & Hmods & Hsome & Hframe & Hfr & Hg' & Hpq' & Hbest).
    assert (Haft' : Train.after model args model_data (S k) st0 w0 = (Ok st', w')).
    { rewrite (after_S k b) by (done || lia). by rewrite Haft. }
    exists st', w'. split; [exact Haft'|].
    split; [eauto|].
    split. { eapply Forall_impl; [exact Hall|]. auto. }
    split. { eapply Forall_impl; [exact Hgrp|]. auto. }
    split. { by rewrite Hg'. }
    assert (Hkeepret : Train.max_valid_acc st' = Train.max_valid_acc st ->
                       Train.best_model st' = Train.best_model st ->
                       Train.retained model ps group w' (Train.best_model st')
                         (snd (Train.best_so_far (recs k)))).
    { intros _ Hb'. rewrite Hb'. unfold Train.retained in *.
      destruct (snd (Train.best_so_far (recs k))) as [values|]; [|done].
      destruct Hret as (c & cps & cm & Hc & Hne & Hcm & Hcl & Hcv).
      exists c, cps, cm. split; [done|]. split; [done|].
      split. { rewrite Hmods; eauto. }
      split. { eapply Forall_impl; [exact Hcl|]. intros l (? & ? & ?). auto. }
      rewrite <- Hcv. apply param_values_frame.
      - unfold module_at. rewrite Hmods; eauto.
      - rewrite (module_at_lookup _ _ _ Hcm). cbn. intros l Hl.
        rewrite Forall_forall in Hcl. destruct (Hcl l Hl) as (Hs & Hps & Hgr).
        apply Hframe; [done | by rewrite Hg | done]. }
    rewrite records_S. rewrite Haft'. cbn [snd]. cbv zeta in Hbest.
    replace (Z.of_nat k + 1)%Z with (Z.of_nat (S k)) in Hbest by lia.
    unfold Train.best_so_far in *. rewrite fold_left_app.
    destruct (decide ((Z.of_nat (S k) mod pi)%Z = 0%Z)) as [He|He].
    + apply Z.eqb_eq in He. rewrite He in Hbest. cbn [andb fold_left] in Hbest |- *.
      unfold Train.retain at 1 3. cbn [fst snd]. rewrite <- Hmax.
      destruct (Train.num_gt _ _).
      * destruct Hbest as (Hmax' & c & cps & Hb' & Hnone & Hc & Hnew & Hcv).
        cbn [fst snd]. split; [exact Hmax'|].
        split.
        { exists c, cps, false. split; [done|].
          split. { intros ->. rewrite Hm in Hnone. discriminate. }
          split; [done|]. split; [|done].
          eapply Forall_impl; [exact Hnew|]. intros l [Hn Hs]. cbn in Hn.
          split; [done|]. split.
          - intros Hin. rewrite Forall_forall in Hall.
            destruct (Hall l Hin) as [? Hx]. congruence.
          - intros Hin. rewrite Forall_forall in Hgrp.
            destruct (Hgrp l Hin) as [? Hx]. congruence. }
        split; [done|].
        split. { intros l p Hp Hrg Hl. apply Hfr; [by apply Hfrozen | done |].
                 by rewrite Hg. }
        exact (train_body_preserves k b st st' w w' mode Hm Hall HJ Hbody).
      * destruct Hbest as (Hmax' & Hb').
        split; [by rewrite Hmax'|]. split; [by apply Hkeepret|].
        split; [done|].
        split. { intros l p Hp Hrg Hl. apply Hfr; [by apply Hfrozen | done |].
                 by rewrite Hg. }
        exact (train_body_preserves k b st st' w w' mode Hm Hall HJ Hbody).
    + assert (Hf : ((Z.of_nat (S k) mod pi)%Z =? 0)%Z = false) by by apply Z.eqb_neq.
      rewrite Hf in Hbest. cbn [andb fold_left] in Hbest |- *.
      destruct Hbest as (Hmax' & Hb').
      split; [by rewrite Hmax'|]. split; [by apply Hkeepret|].
      split; [done|].
      split. { intros l p Hp Hrg Hl. apply Hfr; [by apply Hfrozen | done |].
               by rewrite Hg. }
      exact (train_body_preserves k b st st' w w' mode Hm Hall HJ Hbody).
Qed.

(** After any number of iterations the model is back in training mode,
    and a retained snapshot is a module in inference mode: it was copied
    between the evaluation and the call of [model.train()]. *)
Lemma after_modes (k : nat) :
  (k <= N)%nat ->
  exists st w,
    Train.after model args model_data k st0 w0 = (Ok st, w) /\
    modules w !! model = Some (mkModule ps true) /\
    forall c, Train.best_model st = Some c ->
      exists cps, modules w !! c = Some (mkModule cps false).
Proof.
  induction k as [|k IH]; intros Hk.
  - exists st0, w0. split; [reflexivity|]. split; [exact Hmod0|].
    intros c Hc. rewrite Hbest0 in Hc. discriminate.
  - destruct IH as (st & w & Haft & Hm & Hbm); [lia|].
    destruct (after_spec k) as (st_ & w_ & Haft_ & _ & Hall & _); [lia|].
    rewrite Haft in Haft_. injection Haft_ as <- <-.
    destruct (lookup_lt_is_Some_2 (train_iter model_data) k) as [b Hb].
    { destruct (iterations_keep 0 (train_iter model_data) k); [fold N; lia | done]. }
    destruct (train_body_spec k b st w true Hm Hall)
      as (st' & w' & Hbody & Hm' & Hmods & _ & _ & _ & _ & _ & Hbest).
    exists st', w'. split.
    { rewrite (after_S k b) by (done || lia). by rewrite Haft. }
    split. { by destruct (_ =? _)%Z in Hm'. }
    intros c Hc. cbv zeta in Hbest.
    destruct (_ && _) in Hbest.
    + destruct Hbest as (_ & c' & cps & Hc' & _ & Hmc & _).
      rewrite Hc' in Hc. injection Hc as <-. eauto.
    + destruct Hbest as [_ Hsame]. rewrite Hsame in Hc.
      destruct (Hbm c Hc) as [cps Hcps]. exists cps.
      rewrite Hmods; [done | | eauto].
      intros ->. rewrite Hm in Hcps. discriminate.
Qed.

(** The test accuracy kept in [max_test_acc] is the one of the retained
    snapshot. *)
Lemma after_test_acc (k : nat) :
  (k <= N)%nat ->
  exists st w,
    Train.after model args model_data k st0 w0 = (Ok st, w) /\
    Train.max_test_acc st =
      match snd (Train.best_so_far (recs k)) with
      | Some values => Train.test_accuracy values dt dev model_data
      | None => Train.max_test_acc st0
      end.
Proof.
  induction k as [|k IH]; intros Hk.
  - exists st0, w0. split; reflexivity.
  - destruct IH as (st & w & Haft & Hacc); [lia|].
    destruct (after_spec k) as (st_ & w_ & Haft_ & [mode Hm] & Hall & _ & _ &
                                Hmax & _); [lia|].
    rewrite Haft in Haft_. injection Haft_ as <- <-.
    destruct (lookup_lt_is_Some_2 (train_iter model_data) k) as [b Hb].
    { destruct (iterations_keep 0 (train_iter model_data) k); [fold N; lia | done]. }
    destruct (train_body_spec k b st w mode Hm Hall) as (st' & w' & Hbody & _).
    assert (Haft' : Train.after model args model_data (S k) st0 w0 = (Ok st', w')).
    { rewrite (after_S k b) by (done || lia). by rewrite Haft. }
    exists st', w'. split; [exact Haft'|].
    pose proof (train_body_test_acc k b st st' w w' mode Hm Hall Hbody) as Ht.
    cbv zeta in Ht.
    replace (Z.of_nat k + 1)%Z with (Z.of_nat (S k)) in Ht by lia.
    rewrite Ht, records_S, Haft'. cbn [snd].
    unfold Train.best_so_far in *. rewrite fold_left_app.
    destruct (decide ((Z.of_nat (S k) mod pi)%Z = 0%Z)) as [He|He].
    + apply Z.eqb_eq in He. rewrite He. cbn [andb fold_left].
      unfold Train.retain at 1. cbn [fst snd]. rewrite <- Hmax.
      by destruct (Train.num_gt _ _).
    + apply Z.eqb_neq in He. rewrite He. cbn [andb fold_left]. exact Hacc.
Qed.

End Run.


End Iteration.


(** ** The loop on a release that refuses to index a 0-dim tensor *)

Section IndexingRefused.
Context `{Repo}.
Variables (args : pyobj) (model_data : ModelData) (model : loc)
          (ps : list (string * loc)) (dt gpu : value).
Hypothesis Hdt : getattr args "data_type" = Ok dt.
Hypothesis Hgpu : getattr args "gpu" = Ok gpu.
Hypothesis Hno : scalar_index_allowed = false.

(** Line 84 raises [IndexError]: the forward pass has run and the
    gradients of the optimizer's parameters have been zeroed, but neither
    [backward] nor [step] is reached. *)
Lemma train_body_index_error (i : nat) (b : Batch) (st : Train.Locals)
    (w : World) (mode : bool) :
  modules w !! model = Some (mkModule ps mode) ->
  Train.train_body model args model_data i b st w =
    (Raise IndexError,
     with_tensors (log w [Forward model mode (grad_enabled w)])
                  (Train.zero_grad_map (Train.optimizer st) (tensors w))).
Proof.
  intros Hm.
  unfold Train.train_body, call_model, Train.zero_grad, Train.scalar_index.
  munfold. rewrite Hdt, Hgpu, emit_log, Hno. cbn [fst snd].
  unfold module_at, log. cbn [tensors modules grad_enabled].
  rewrite Hm. reflexivity.
Qed.

(** The first iteration already stops the run, whatever the number of
    iterations asked for. *)
Lemma after_index_error (k : nat) (st : Train.Locals) (w : World)
    (mode : bool) :
  modules w !! model = Some (mkModule ps mode) ->
  (0 < k)%nat ->
  (0 < Train.iterations model_data 0 (train_iter model_data))%nat ->
  Train.after model args model_data k st w =
    (Raise IndexError,
     with_tensors (log w [Forward model mode (grad_enabled w)])
                  (Train.zero_grad_map (Train.optimizer st) (tensors w))).
Proof.
  intros Hm Hk HN. unfold Train.after.
  destruct (train_iter model_data) as [|b it]; [cbn in HN; lia|].
  cbn [Train.iterations] in HN.
  destruct (keep_training model_data 0) eqn:Hkeep; [|lia].
  destruct k as [|k]; [lia|]. cbn [take Train.train_loop]. rewrite Hkeep.
  munfold. by rewrite (train_body_index_error 0 b st w mode Hm).
Qed.

End IndexingRefused.



(** ** The training driver *)

Section Training.
Context `{Repo}.
Variables (args : pyobj) (model_data : ModelData) (w : World)
          (wrl : Layers.WordRepresentationLayer)
          (dt gpu dev lr : value) (mt : string) (pi : Z).
Hypothesis Hwrl :
  Layers.WordRepresentationLayer_init args (vectors model_data) = Ok wrl.
Hypothesis Hdt : getattr args "data_type" = Ok dt.
Hypothesis Hgpu : getattr args "gpu" = Ok gpu.
(** Line 62 is skipped: the model stays on the CPU. *)
Hypothesis Hcpu : truthy gpu = false.
Hypothesis Hdev : getattr args "device" = Ok dev.
Hypothesis Hlr : getattr args "lr" = Ok lr.
Hypothesis Hmt : getattr args "model_time" = Ok (VStr mt).
Hypothesis Hpi : getattr args "print_interval" = Ok (VInt pi).
Hypothesis Hpi0 : pi <> 0%Z.
Hypothesis Hvalid : forall values,
  is_ok (Test.split_stats values dt dev (valid_iter model_data)) = true.
Hypothesis Htest : forall values,
  is_ok (Test.split_stats values dt dev (test_iter model_data)) = true.
Hypothesis Hvalid_ne : valid_iter model_data <> [].
Hypothesis Htest_ne : test_iter model_data <> [].

Let params := Layers.WordRepresentationLayer_parameters
                (word_layer_name ++ ".")%string wrl ++
              other_parameters args model_data.
Let ps := fst (alloc_all params (tensors w)).
Let model := fresh (dom (modules w)).
Let N := Train.iterations model_data 0 (train_iter model_data).

(** The state at the start of the loop. *)
Lemma loop_start :
  exists st0 w1,
    Train.setup args model_data w = (Ok (model, st0), w1) /\
    modules w1 !! model = Some (mkModule ps true) /\
    tensors w1 = snd (alloc_all params (tensors w)) /\
    Forall (fun l => is_Some (tensors w1 !! l)) (locs ps) /\
    Forall (fun l => is_Some (tensors w1 !! l))
           (Train.param_group (Train.optimizer st0)) /\
    Train.param_group (Train.optimizer st0) = Train.trainable w1 model /\
    Train.opt_state (Train.optimizer st0) = ∅ /\
    Train.max_valid_acc st0 = Fin 0 /\
    Train.best_model st0 = None /\
    files w1 = files w.
Proof.
  destruct (setup_spec args model_data w wrl gpu lr mt Hwrl Hgpu Hcpu Hlr Hmt)
    as (st0 & w1 & Hsetup & Hm & Ht & Hg & Hs & Hmax & Hbest & Hf & _).
  fold params ps model in Hsetup, Hm, Ht, Hg.
  exists st0, w1. split; [exact Hsetup|]. split; [exact Hm|]. split; [exact Ht|].
  assert (Hall : Forall (fun l => is_Some (tensors w1 !! l)) (locs ps)).
  { rewrite Ht. destruct (alloc_all_spec params (tensors w)) as (_ & _ & Hnew & _).
    eapply Forall_impl; [exact Hnew|]. by intros l [_ ?]. }
  split; [exact Hall|]. split.
  { rewrite Hg. apply Forall_forall. intros l Hl.
    destruct (trainable_requires_grad _ _ _ Hl) as [_ (p & Hp & _)]. eauto. }
  repeat split; done.
Qed.

(** [train] is its three phases run one after the other. *)
Lemma train_phases (st0 : Train.Locals) (w1 : World) :
  Train.setup args model_data w = (Ok (model, st0), w1) ->
  Train.train args model_data w =
  match Train.after model args model_data N st0 w1 with
  | (Ok st, w') => Train.finish st w'
  | (Raise e, w') => (Raise e, w')
  end.
Proof.
  intros Hsetup. unfold Train.train. munfold. rewrite Hsetup.
  cbv beta iota. rewrite train_loop_take. reflexivity.
Qed.

(** X25.  On a release of the tensor library that lets line 84 index
    the loss, with [gpu] false, and under the conditions that let the
    training loop run (the layers can be built, the arguments carry the
    attributes the driver reads, the reporting interval is a non-zero
    integer, and both held-out splits are non-empty and well-shaped),
    [train] behaves as follows.  After any number [k] of iterations the
    loop has not raised, the local [max_valid_acc] is the best validation
    accuracy among the validation passes so far, and, if one of them
    improved on the best before it, the local [best_model] refers to a
    module of its own parameter objects, distinct from the model's and
    unknown to the optimizer, that holds the values the model's
    parameters had at the last such pass, however many updates followed.
    When the loop ends with a retained snapshot, [train] returns that
    module, still holding those values. *)
Theorem train_returns_best_snapshot :
  scalar_index_allowed = true ->
  exists st0 w1,
    Train.setup args model_data w = (Ok (model, st0), w1) /\
    let group := Train.param_group (Train.optimizer st0) in
    let recs := Train.records model args model_data dt dev pi st0 w1 in
    (forall k, (k <= N)%nat ->
       exists st wk,
         Train.after model args model_data k st0 w1 = (Ok st, wk) /\
         Train.max_valid_acc st = fst (Train.best_so_far (recs k)) /\
         Train.retained model ps group wk (Train.best_model st)
                        (snd (Train.best_so_far (recs k)))) /\
    (forall values,
       snd (Train.best_so_far (recs N)) = Some values ->
       exists best w',
         Train.train args model_data w = (Ok best, w') /\
         Train.retained model ps group w' (Some best) (Some values)).
Proof.
  intros Hidx.
  destruct loop_start as (st0 & w1 & Hsetup & Hm & _ & Hall & Hgrp & _ & _ &
                          Hmax & Hbest & _).
  exists st0, w1. split; [exact Hsetup|]. intros group recs.
  pose proof (after_spec args model_data model ps dt gpu dev pi Hdt Hgpu Hdev
                Hpi Hpi0 Hvalid Htest Hvalid_ne Htest_ne Hidx (fun _ _ => True)
                (fun _ _ _ _ => I) (fun _ _ _ _ _ => I) st0 w1 Hm Hall Hgrp
                Hmax Hbest I) as Hrun.
  split.
  - intros k Hk. destruct (Hrun k Hk) as (st & wk & Haft & _ & _ & _ & _ & Hmx &
                                          Hret & _).
    exists st, wk. by repeat split.
  - intros values Hvalues.
    destruct (Hrun N (le_n _)) as (st & wN & Haft & _ & _ & _ & _ & _ & Hret & Hpq & _).
    fold recs in Hret. rewrite Hvalues in Hret.
    rewrite (train_phases st0 w1 Hsetup), Haft.
    destruct Hret as (c & cps & cm & Hc & Hne & Hcm & Hcl & Hcv).
    unfold Train.finish. munfold. rewrite !emit_log, Hc.
    destruct (Train.pq st) eqn:Epq; [|exfalso; apply Hpq; by rewrite ?Hc].
    rewrite !emit_log, !log_log.
    eexists _, _. split; [reflexivity|].
    exists c, cps, cm. repeat split; done.
Qed.

(** When no validation pass improved on the baseline, the loop ends with
    [best_model] unbound and [train] raises. *)
Lemma train_without_snapshot (st0 : Train.Locals) (w1 : World) :
  scalar_index_allowed = true ->
  Train.setup args model_data w = (Ok (model, st0), w1) ->
  snd (Train.best_so_far
         (Train.records model args model_data dt dev pi st0 w1 N)) = None ->
  exists w', Train.train args model_data w =
             (Raise (UnboundLocalError "best_model"), w').
Proof.
  intros Hidx Hsetup Hnone.
  destruct loop_start as (st0' & w1' & Hsetup' & Hm & _ & Hall & Hgrp & _ & _ &
                          Hmax & Hbest & _).
  rewrite Hsetup in Hsetup'. injection Hsetup' as <- <-.
  destruct (after_spec args model_data model ps dt gpu dev pi Hdt Hgpu Hdev
              Hpi Hpi0 Hvalid Htest Hvalid_ne Htest_ne Hidx (fun _ _ => True)
              (fun _ _ _ _ => I) (fun _ _ _ _ _ => I) st0 w1 Hm Hall Hgrp
              Hmax Hbest I N (le_n _))
    as (st & wN & Haft & _ & _ & _ & _ & _ & Hret & _).
  rewrite Hnone in Hret. cbn in Hret.
  rewrite (train_phases st0 w1 Hsetup), Haft.
  unfold Train.finish. munfold. rewrite emit_log, Hret. eauto.
Qed.


(** Every parameter of the character representation encoder requires a
    gradient. *)
Lemma char_encoder_parameters_trainable (prefix : string)
    (enc : Layers.CharacterRepresentationEncoder) :
  Layers.weight_requires_grad (Layers.cre_char_encoder enc) = true ->
  Forall (fun np => requires_grad (snd np) = true)
         (Layers.CharacterRepresentationEncoder_parameters prefix enc).
Proof.
  intros Hrg. unfold Layers.CharacterRepresentationEncoder_parameters,
    Layers.Embedding_parameters, Layers.LSTM_parameters.
  cbn [app]. constructor; [exact Hrg|].
  apply Forall_map, Forall_forall. by intros [n t] _.
Qed.

(** C4.  With [gpu] false, so that line 62 is skipped, the set-up
    succeeds and the weight of the word embedding is the first parameter
    of the model.  After the set-up it holds the pretrained vectors and
    requires no gradient, and it is not among the parameters handed to
    the optimizer.  The parameters of the character representation
    encoder (its embedding table and the weights of its recurrent
    encoder), which follow it, are all handed to the optimizer.  However
    far the loop gets, in the world it leaves after [k] iterations the
    word embedding still holds exactly the pretrained vectors and the
    parameters of the character encoder still require a gradient; when
    the loop has not raised, the optimizer still holds the same
    parameters.  The loop does not raise on a release that lets line 84
    index the loss; on the others the only error is the [IndexError] of
    that line, in the first iteration. *)
Theorem pretrained_embedding_frozen :
  let frozen := mkParam (vectors model_data) false None None in
  let cre := Layers.CharacterRepresentationEncoder_parameters
               ((word_layer_name ++ ".") ++ "char_encoder.")%string
               (Layers.wrl_char_encoder wrl) in
  exists st0 w1 n0 l0 rest,
    Train.setup args model_data w = (Ok (model, st0), w1) /\
    ps = (n0, l0) :: rest /\
    n0 = (((word_layer_name ++ ".") ++ "word_encoder.") ++ "weight")%string /\
    tensors w1 !! l0 = Some frozen /\
    (l0 ∉ Train.param_group (Train.optimizer st0)) /\
    map fst (take (length cre) rest) = map fst cre /\
    Forall (fun l => l ∈ Train.param_group (Train.optimizer st0))
           (locs (take (length cre) rest)) /\
    forall k, (k <= N)%nat ->
      exists r wk,
        Train.after model args model_data k st0 w1 = (r, wk) /\
        tensors wk !! l0 = Some frozen /\
        Forall (fun l => exists p, tensors wk !! l = Some p /\
                                   requires_grad p = true)
               (locs (take (length cre) rest)) /\
        match r with
        | Ok st => Train.param_group (Train.optimizer st) =
                     Train.param_group (Train.optimizer st0)
        | Raise e => scalar_index_allowed = false /\ e = IndexError
        end /\
        (scalar_index_allowed = true -> is_ok r = true).
Proof.
  intros frozen cre.
  destruct loop_start as (st0 & w1 & Hsetup & Hm & Ht & Hall & Hgrp & Hg & _ &
                          Hmax & Hbest & _).
  destruct (WordRepresentationLayer_init_inv _ _ _ Hwrl) as (Hw & Hrg & Hpad & Hcre).
  destruct (CharacterRepresentationEncoder_init_inv _ _ Hcre) as (_ & _ & Hcrg & _).
  pose proof (alloc_all_Forall2 params (tensors w)) as HF.
  fold ps in HF. rewrite <- Ht in HF.
  assert (Hparams : params =
            ((((word_layer_name ++ ".") ++ "word_encoder.") ++ "weight")%string,
             frozen)
            :: cre ++ other_parameters args model_data).
  { subst params frozen cre. unfold Layers.WordRepresentationLayer_parameters,
      Layers.Embedding_parameters. cbn [app].
    by rewrite Hw, Hrg, Hpad. }
  rewrite Hparams in HF.
  apply Forall2_cons_inv_r in HF as ([n0 l0] & rest & [Hn0 Hl0] & HF' & Hps).
  cbn [fst snd] in Hn0, Hl0.
  apply Forall2_app_inv_r in HF' as (rc & ro & Hrc & _ & ->).
  assert (Hlen : length rc = length cre) by (eapply Forall2_length; eauto).
  assert (Htake : take (length cre) (rc ++ ro) = rc)
    by (rewrite <- Hlen; apply take_app_length).
  assert (Hnot : l0 ∉ Train.param_group (Train.optimizer st0)).
  { rewrite Hg. intros Hin.
    destruct (trainable_requires_grad _ _ _ Hin) as [_ (p & Hp & Hrq)].
    rewrite Hl0 in Hp. injection Hp as <-. discriminate. }
  assert (Hnames : map fst rc = map fst cre).
  { clear -Hrc. induction Hrc as [|nl np rc cre' [Hn _] _ IH]; [done|].
    cbn. by rewrite Hn, IH. }
  assert (Hrc0 : Forall (fun l => exists p, tensors w1 !! l = Some p /\
                                            requires_grad p = true) (locs rc)).
  { pose proof (char_encoder_parameters_trainable
                  ((word_layer_name ++ ".") ++ "char_encoder.")%string _ Hcrg) as Hall'.
    fold cre in Hall'. clear -Hrc Hall'. unfold locs.
    induction Hrc as [|[n l] [n' p] rc cre' [_ Hl] _ IH]; [constructor|].
    apply Forall_cons in Hall' as [Hp Hall']. constructor; eauto. }
  exists st0, w1, n0, l0, (rc ++ ro). rewrite Htake.
  split; [exact Hsetup|]. split; [exact Hps|]. split; [exact Hn0|].
  split; [exact Hl0|]. split; [exact Hnot|]. split; [exact Hnames|].
  split.
  { rewrite Hg. apply Forall_forall. intros l Hl.
    rewrite Forall_forall in Hrc0. destruct (Hrc0 l Hl) as (p & Hp & Hrq).
    apply (elem_of_trainable w1 model l p); [|done..].
    rewrite (module_at_lookup _ _ _ Hm). cbn [named_parameters].
    rewrite Hps. unfold locs in *. cbn. right. rewrite map_app.
    apply elem_of_app. by left. }
  set (Jk := fun (t : gmap loc Param) (_ : Train.Optimizer) =>
               forall l p0, tensors w1 !! l = Some p0 ->
                 exists p, t !! l = Some p /\ Train.same_kind p0 p).
  assert (Jk_update : forall o gs t,
            Jk t o -> Jk (snd (Train.update o ps gs t)) (fst (Train.update o ps gs t))).
  { intros o gs t HJ l p0 Hp0. destruct (HJ l p0 Hp0) as (p & Hp & Hk).
    destruct (update_spec o ps gs t) as (_ & Hrel & _).
    specialize (Hrel l). rewrite Hp in Hrel. inversion Hrel as [? p' Hk' |]; subst.
    exists p'. split; [done|]. eapply same_kind_trans; eauto. }
  assert (Jk_alloc : forall o t t',
            Jk t o -> (forall l, is_Some (t !! l) -> t' !! l = t !! l) -> Jk t' o).
  { intros o t t' HJ Hext l p0 Hp0. destruct (HJ l p0 Hp0) as (p & Hp & Hk).
    exists p. split; [|done]. rewrite Hext; [done | eauto]. }
  assert (Jk0 : Jk (tensors w1) (Train.optimizer st0)).
  { intros l p0 Hp0. exists p0. split; [done | apply same_kind_refl]. }
  intros k Hk.
  destruct scalar_index_allowed eqn:Hidx.
  - destruct (after_spec args model_data model ps dt gpu dev pi Hdt Hgpu Hdev
                Hpi Hpi0 Hvalid Htest Hvalid_ne Htest_ne Hidx Jk Jk_update
                Jk_alloc st0 w1 Hm Hall Hgrp Hmax Hbest Jk0 k Hk)
      as (st & wk & Haft & _ & _ & _ & Hgk & _ & _ & _ & Hfrozen & HJ).
    exists (Ok st), wk. split; [exact Haft|]. split; [by apply Hfrozen|].
    split; [|by split].
    eapply Forall_impl; [exact Hrc0|]. intros l (p0 & Hp0 & Hrq).
    destruct (HJ l p0 Hp0) as (p & Hp & (_ & Hrq' & _)).
    exists p. split; [done | congruence].
  - destruct k as [|k].
    { exists (Ok st0), w1. split; [reflexivity|]. split; [exact Hl0|].
      split; [exact Hrc0|]. by split. }
    rewrite (after_index_error args model_data model ps dt gpu Hdt Hgpu Hidx
               (S k) st0 w1 true Hm) by (fold N; lia).
    eexists _, _. split; [reflexivity|]. cbn [tensors with_tensors].
    split. { by rewrite zero_grad_map_frame. }
    split; [|by split].
    eapply Forall_impl; [exact Hrc0|]. intros l (p0 & Hp0 & Hrq).
    pose proof (zero_grad_map_related (Train.optimizer st0) (tensors w1) l)
      as Hrel.
    rewrite Hp0 in Hrel. inversion Hrel as [? p (_ & Hrq' & _) |]; subst.
    exists p. split; [done | congruence].
Qed.

Lemma zero_prefix_take (d : nat) (l : list Q) :
  Train.zero_prefix d l -> (d <= length l)%nat -> take d l = repeat 0%Q d.
Proof.
  revert l. induction d as [|d IH]; intros l Hz Hl; [by rewrite take_0|].
  destruct l as [|x l]; [cbn in Hl; lia|]. cbn.
  rewrite (Hz 0%nat x) by (lia || done). f_equal. apply IH.
  - intros i y Hi Hy. apply (Hz (S i) y); [lia | done].
  - cbn in Hl. lia.
Qed.

Section CharacterEncoder.
Variables (V D Hd : nat).
Hypothesis Hvocab : getattr args "char_vocab_size" = Ok (VInt (Z.of_nat V)).
Hypothesis Hdim : getattr args "char_dim" = Ok (VInt (Z.of_nat D)).
Hypothesis Hinput : getattr args "char_input_size" = Ok (VInt (Z.of_nat D)).
Hypothesis Hhidden : getattr args "char_hidden_size" = Ok (VInt (Z.of_nat Hd)).
Hypothesis HV : (0 < V)%nat.
Hypothesis HD : (0 < D)%nat.
Hypothesis HHd : (0 < Hd)%nat.
Hypothesis Hcell : forall ws st x, length (fst (lstm_cell Hd ws st x)) = Hd.
Variable quiet : adam_state -> Prop.
Hypothesis quiet_init : quiet adam_init.
Hypothesis quiet_step : forall lr s x,
  quiet s -> snd (adam lr s x 0) = x /\ quiet (fst (adam lr s x 0)).

Let enc := Layers.wrl_char_encoder wrl.

Lemma char_encoder_built :
  Layers.CharacterRepresentationEncoder_init args = Ok enc /\
  Layers.cre_args enc = args /\
  Layers.num_embeddings (Layers.cre_char_encoder enc) = V /\
  Layers.embedding_dim (Layers.cre_char_encoder enc) = D /\
  Layers.padding_idx (Layers.cre_char_encoder enc) = Some 0%nat /\
  Layers.weight_requires_grad (Layers.cre_char_encoder enc) = true /\
  shape (Layers.weight (Layers.cre_char_encoder enc)) = [V; D] /\
  elems (Layers.weight (Layers.cre_char_encoder enc)) =
    Layers.zero_row 0 D (map normal_ (seq 0 (V * D))) /\
  Layers.input_size (Layers.cre_lstm enc) = D /\
  Layers.hidden_size (Layers.cre_lstm enc) = Hd /\
  Layers.num_layers (Layers.cre_lstm enc) = 1%nat /\
  Layers.bidirectional (Layers.cre_lstm enc) = false /\
  Layers.batch_first (Layers.cre_lstm enc) = true.
Proof.
  destruct (WordRepresentationLayer_init_inv _ _ _ Hwrl) as (_ & _ & _ & Hcre).
  fold enc in Hcre.
  destruct (CharacterRepresentationEncoder_init_inv _ _ Hcre)
    as (Hargs & Hpad & Hrg & Hnl & Hbi & Hbf & _ & _ &
        (v & dd & i & h & Ev & Ed & Ei & Eh & Hemb & Hi & Hh)).
  rewrite Hvocab in Ev. rewrite Hdim in Ed. rewrite Hinput in Ei.
  rewrite Hhidden in Eh. injection Ev as <-. injection Ed as <-.
  injection Ei as <-. injection Eh as <-.
  rewrite as_size_of_nat in Hi, Hh. injection Hi as Hi. injection Hh as Hh.
  destruct (nn_Embedding_inv _ _ _ _ Hemb) as (_ & _ & Hsh & Hn & Hdd & _ & Hel).
  rewrite as_size_of_nat in Hn, Hdd. injection Hn as Hn. injection Hdd as Hdd.
  rewrite <- Hn, <- Hdd in Hsh, Hel.
  repeat split; done.
Qed.

(** C8.  The encoder is built with an embedding whose padding index is
    0 and whose row 0 is the zero vector, and with a single-layer,
    forward-only, batch-first recurrent encoder.  For every character-id
    tensor of shape (B, S, W) with positive S and W and ids within the
    vocabulary, the forward pass returns a tensor of shape (B, S, Hd)
    that holds, word by word, the last hidden state of the recurrent
    encoder run over the embedded characters of that word alone.  In a
    training run with [gpu] false the embedding table is the second
    parameter of the model and is handed to the optimizer; yet, however
    far the loop gets, in the world it leaves after [k] iterations row 0
    of the table is still the zero vector, provided an Adam entry that
    only ever saw zero gradients leaves its value alone.  The loop does
    not raise on a release that lets line 84 index the loss; on the
    others the only error is the [IndexError] of that line. *)
Theorem character_encoder_forward_and_padding :
  let table := Layers.cre_char_encoder enc in
  Layers.CharacterRepresentationEncoder_init args = Ok enc /\
  Layers.padding_idx table = Some 0%nat /\
  Layers.row D (elems (Layers.weight table)) 0 = repeat 0%Q D /\
  Layers.num_layers (Layers.cre_lstm enc) = 1%nat /\
  Layers.bidirectional (Layers.cre_lstm enc) = false /\
  (forall (B S W : nat) (ids : list nat),
     (0 < S)%nat -> (0 < W)%nat -> length ids = (B * S * W)%nat ->
     Forall (fun i => (i < V)%nat) ids ->
     Layers.CharacterRepresentationEncoder_forward enc
       (Layers.mkIntTensor [B; S; W] ids) =
     Ok (mkTensor [B; S; Hd]
           (concat (map (Layers.char_representation enc)
                        (Layers.chunks W ids)))) /\
     length (Layers.chunks W ids) = (B * S)%nat /\
     Forall (fun word => length word = W /\
                         length (Layers.char_representation enc word) = Hd)
            (Layers.chunks W ids)) /\
  exists st0 w1 p0 n1 l1 rest,
    Train.setup args model_data w = (Ok (model, st0), w1) /\
    ps = p0 :: (n1, l1) :: rest /\
    tensors w1 !! l1 = Some (mkParam (Layers.weight table) true None (Some 0%nat)) /\
    l1 ∈ Train.param_group (Train.optimizer st0) /\
    forall k, (k <= N)%nat ->
      exists r wk p,
        Train.after model args model_data k st0 w1 = (r, wk) /\
        tensors wk !! l1 = Some p /\
        Layers.row D (elems (data p)) 0 = repeat 0%Q D /\
        (forall e, r = Raise e ->
                   scalar_index_allowed = false /\ e = IndexError) /\
        (scalar_index_allowed = true -> is_ok r = true).
Proof.
  intros table.
  destruct char_encoder_built as (Hinit & Hargs & Hn & Hdd & Hpad & Hrg & Hsh &
                                  Hel & Hin & Hhid & Hnl & Hbi & Hbf).
  fold table in Hn, Hdd, Hpad, Hrg, Hsh, Hel.
  split; [exact Hinit|]. split; [exact Hpad|].
  split. { rewrite Hel. apply row_zero_row. }
  split; [exact Hnl|]. split; [exact Hbi|]. split.
  { intros B S W ids HS HW Hlen Hids.
    split; [|split].
    - rewrite <- Hhid. apply char_encoder_forward_spec; fold table;
        rewrite ?Hargs, ?Hdd, ?Hin, ?Hn, ?Hhid; try done.
      rewrite Hel, length_zero_row; rewrite length_map, length_seq; [done | nia].
    - by apply length_chunks.
    - eapply Forall_impl; [by apply (Forall_length_chunks W (B * S))|].
      intros word Hw. split; [done|]. rewrite <- Hhid.
      apply length_char_representation. by rewrite Hhid. }
  destruct loop_start as (st0 & w1 & Hsetup & Hm & Ht & Hall & Hgrp & Hg & Hos &
                          Hmax & Hbest & _).
  pose proof (alloc_all_Forall2 params (tensors w)) as HF.
  fold ps in HF. rewrite <- Ht in HF.
  assert (Hparams : exists np0 nm1 tl,
            params = np0 :: (nm1, mkParam (Layers.weight table) true None (Some 0%nat))
                     :: tl).
  { subst params. unfold Layers.WordRepresentationLayer_parameters,
      Layers.CharacterRepresentationEncoder_parameters,
      Layers.Embedding_parameters. cbn [app]. fold enc table.
    rewrite Hrg, Hpad. eauto. }
  destruct Hparams as (np0 & nm1 & tl & Hparams). rewrite Hparams in HF.
  apply Forall2_cons_inv_r in HF as (p0 & rest0 & _ & HF & Hps).
  apply Forall2_cons_inv_r in HF as ([n1 l1] & rest & [_ Hl1] & _ & ->).
  cbn [snd] in Hl1.
  assert (Hin1 : l1 ∈ Train.param_group (Train.optimizer st0)).
  { rewrite Hg. eapply elem_of_trainable; [|exact Hl1|done].
    rewrite (module_at_lookup _ _ _ Hm). cbn [named_parameters].
    rewrite Hps. cbn. right. left. }
  exists st0, w1, p0, n1, l1, rest.
  split; [exact Hsetup|]. split; [exact Hps|]. split; [exact Hl1|].
  split; [exact Hin1|].
  assert (Hpad0 : Train.padded quiet l1 D (V * D) (tensors w1) (Train.optimizer st0)).
  { split.
    - eexists. split; [exact Hl1|]. repeat split; cbn.
      + by rewrite Hsh.
      + rewrite Hel, length_zero_row; rewrite length_map, length_seq; [done | nia].
      + rewrite Hel. apply zero_prefix_zero_row.
      + done.
    - intros ss i s Hss. rewrite Hos in Hss. by rewrite lookup_empty in Hss. }
  assert (Hrow : forall (t : gmap loc Param) (o : Train.Optimizer),
            Train.padded quiet l1 D (V * D) t o ->
            exists p, t !! l1 = Some p /\
                      Layers.row D (elems (data p)) 0 = repeat 0%Q D).
  { intros t o [(p & Hp & Hok) _]. exists p. split; [exact Hp|].
    destruct Hok as (_ & _ & Hlen & Hz & _).
    unfold Layers.row. rewrite Nat.mul_0_l, drop_0.
    apply zero_prefix_take; [exact Hz | rewrite Hlen; nia]. }
  intros k Hk.
  destruct scalar_index_allowed eqn:Hidx.
  - destruct (after_spec args model_data model ps dt gpu dev pi Hdt Hgpu Hdev
                Hpi Hpi0 Hvalid Htest Hvalid_ne Htest_ne Hidx
                (Train.padded quiet l1 D (V * D))
                (padded_update quiet quiet_init quiet_step l1 D (V * D) ps)
                (padded_alloc quiet l1 D (V * D))
                st0 w1 Hm Hall Hgrp Hmax Hbest Hpad0 k Hk)
      as (st & wk & Haft & _ & _ & _ & _ & _ & _ & _ & _ & Hpadk).
    destruct (Hrow _ _ Hpadk) as (p & Hp & Hz).
    exists (Ok st), wk, p. split; [exact Haft|]. split; [exact Hp|].
    split; [exact Hz|]. by split.
  - destruct k as [|k].
    { destruct (Hrow _ _ Hpad0) as (p & Hp & Hz).
      exists (Ok st0), w1, p. split; [reflexivity|]. split; [exact Hp|].
      split; [exact Hz|]. by split. }
    rewrite (after_index_error args model_data model ps dt gpu Hdt Hgpu Hidx
               (S k) st0 w1 true Hm) by (fold N; lia).
    destruct (Hrow _ _ (padded_zero_grad quiet l1 D (V * D)
                          (Train.optimizer st0) (tensors w1) Hpad0))
      as (p & Hp & Hz).
    eexists _, _, p. split; [reflexivity|]. cbn [tensors with_tensors].
    split; [exact Hp|]. split; [exact Hz|].
    split; [by intros e [= <-] | done].
Qed.


End CharacterEncoder.

(** *** Runs that retain no snapshot, and the mode of the one returned *)

Lemma best_so_far_none {V : Type} (rs : list (num * V)) :
  Forall (fun r => Train.num_gt (fst r) (Fin 0) = false) rs ->
  Train.best_so_far rs = (Fin 0, None).
Proof.
  unfold Train.best_so_far. induction 1 as [|r rs Hr _ IH]; [reflexivity|].
  cbn [fold_left]. unfold Train.retain at 2. cbn [fst]. by rewrite Hr.
Qed.

Lemma evaluations_short (n : nat) :
  (Z.of_nat n < pi)%Z -> Train.evaluations pi n = [].
Proof.
  intros Hn. induction n as [|n IH]; [reflexivity|].
  rewrite evaluations_S, IH by lia.
  rewrite decide_False; [reflexivity|].
  rewrite Z.mod_small by lia. lia.
Qed.

(** X14.  On a release that lets line 84 index the loss and with [gpu]
    false: when every validation pass of the run measures an accuracy
    that is not above 0, the initial [max_valid_acc], the loop ends with
    [best_model] unbound, and [train] raises [UnboundLocalError] at
    [writer.add_graph] after the whole run, in place of returning a
    model. *)
Theorem train_raises_when_no_pass_improves (st0 : Train.Locals) (w1 : World) :
  scalar_index_allowed = true ->
  Train.setup args model_data w = (Ok (model, st0), w1) ->
  Forall (fun r => Train.num_gt (fst r) (Fin 0) = false)
         (Train.records model args model_data dt dev pi st0 w1 N) ->
  exists st wN w',
    Train.after model args model_data N st0 w1 = (Ok st, wN) /\
    Train.best_model st = None /\
    Train.train args model_data w =
      (Raise (UnboundLocalError "best_model"), w').
Proof.
  intros Hidx Hsetup Hnone.
  destruct loop_start as (st0' & w1' & Hsetup' & Hm & _ & Hall & Hgrp & _ & _ &
                          Hmax & Hbest & _).
  rewrite Hsetup in Hsetup'. injection Hsetup' as <- <-.
  destruct (after_spec args model_data model ps dt gpu dev pi Hdt Hgpu Hdev
              Hpi Hpi0 Hvalid Htest Hvalid_ne Htest_ne Hidx (fun _ _ => True)
              (fun _ _ _ _ => I) (fun _ _ _ _ _ => I) st0 w1 Hm Hall Hgrp
              Hmax Hbest I N (le_n _))
    as (st & wN & Haft & _ & _ & _ & _ & _ & Hret & _).
  rewrite (best_so_far_none _ Hnone) in Hret. cbn in Hret.
  destruct (train_without_snapshot st0 w1 Hidx Hsetup) as [w' Hw'].
  { by rewrite (best_so_far_none _ Hnone). }
  eauto 6.
Qed.

(** C1.  [train] does not always return the best snapshot.  With [gpu]
    false and under the conditions that let the set-up and the
    evaluations succeed, a run that ends before [print_interval]
    iterations are done, because the training data or the budget is
    exhausted, returns nothing: [train] raises.  On a release that lets
    line 84 index the loss, the loop ends without a validation pass,
    [best_model] was never bound, and line 119 raises
    [UnboundLocalError]; the same happens on every release when the loop
    has no iteration at all.  On the other releases line 84 raises
    [IndexError] in the first iteration. *)
Theorem train_short_run_raises :
  (Z.of_nat N < pi)%Z ->
  exists w',
    Train.train args model_data w =
      (Raise (if scalar_index_allowed || (N =? 0)%nat
              then UnboundLocalError "best_model" else IndexError), w').
Proof.
  intros Hshort.
  destruct loop_start as (st0 & w1 & Hsetup & Hm & _ & _ & _ & _ & _ & _ &
                          Hbest & _).
  destruct scalar_index_allowed eqn:Hidx; cbn [orb].
  - apply (train_without_snapshot st0 w1 Hidx Hsetup).
    unfold Train.records. by rewrite evaluations_short.
  - rewrite (train_phases st0 w1 Hsetup).
    destruct (Nat.eqb_spec N 0) as [HN|HN].
    + assert (Haft : Train.after model args model_data N st0 w1 = (Ok st0, w1))
        by (rewrite HN; reflexivity).
      rewrite Haft. unfold Train.finish. munfold. rewrite emit_log, Hbest.
      eauto.
    + rewrite (after_index_error args model_data model ps dt gpu Hdt Hgpu Hidx
                 N st0 w1 true Hm) by (fold N; lia).
      eauto.
Qed.

(** X16.  On a release that lets line 84 index the loss and with [gpu]
    false, the model [train] returns is in inference mode, not in
    training mode: the snapshot is copied after [test] has called
    [model.eval()] and before line 113 calls [model.train()].  The model
    being trained is itself left in training mode. *)
Theorem train_returns_model_in_inference_mode (values : list Tensor) :
  scalar_index_allowed = true ->
  (exists st0 w1,
     Train.setup args model_data w = (Ok (model, st0), w1) /\
     snd (Train.best_so_far
            (Train.records model args model_data dt dev pi st0 w1 N)) =
       Some values) ->
  exists best w',
    Train.train args model_data w = (Ok best, w') /\
    best <> model /\
    training (module_at w' best) = false /\
    training (module_at w' model) = true.
Proof.
  intros Hidx (st0' & w1' & Hsetup' & Hvalues).
  destruct loop_start as (st0 & w1 & Hsetup & Hm & _ & Hall & Hgrp & _ & _ &
                          Hmax & Hbest & _).
  rewrite Hsetup in Hsetup'. injection Hsetup' as <- <-.
  destruct (after_spec args model_data model ps dt gpu dev pi Hdt Hgpu Hdev
              Hpi Hpi0 Hvalid Htest Hvalid_ne Htest_ne Hidx (fun _ _ => True)
              (fun _ _ _ _ => I) (fun _ _ _ _ _ => I) st0 w1 Hm Hall Hgrp
              Hmax Hbest I N (le_n _))
    as (st & wN & Haft & _ & _ & _ & _ & _ & Hret & Hpq & _).
  destruct (after_modes args model_data model ps dt gpu dev pi Hdt Hgpu Hdev
              Hpi Hpi0 Hvalid Htest Hvalid_ne Htest_ne Hidx (fun _ _ => True)
              (fun _ _ _ _ => I) (fun _ _ _ _ _ => I) st0 w1 Hm Hall Hgrp
              Hmax Hbest I N (le_n _))
    as (st_ & wN_ & Haft_ & HmN & Hbm).
  rewrite Haft in Haft_. injection Haft_ as <- <-.
  rewrite Hvalues in Hret.
  destruct Hret as (c & cps & cm & Hc & Hne & _).
  destruct (Hbm c Hc) as [cps' Hcm].
  rewrite (train_phases st0 w1 Hsetup), Haft.
  unfold Train.finish. munfold. rewrite !emit_log, Hc.
  destruct (Train.pq st) eqn:Epq; [|exfalso; apply Hpq; by rewrite ?Hc].
  rewrite !emit_log, !log_log.
  eexists _, _. split; [reflexivity|]. split; [exact Hne|].
  unfold module_at, log. cbn [modules]. by rewrite Hcm, HmN.
Qed.



Lemma setup_max_test_acc (st0 : Train.Locals) (w1 : World) :
  Train.setup args model_data w = (Ok (model, st0), w1) ->
  Train.max_test_acc st0 = Fin 0.
Proof.
  intros Hsetup0.
  destruct loop_start as (st0' & w1' & Hsetup & _).
  rewrite Hsetup0 in Hsetup. injection Hsetup as <- <-.
  revert Hsetup0. unfold Train.setup. munfold.
  destruct (Bimpm.BiMPM args model_data w) as [[m|e] wb]; [|discriminate].
  rewrite Hgpu, Hcpu, Hlr, Hmt. cbn [as_str].
    match goal with
    | |- context [Train.Adam ?ps ?r] => destruct (Train.Adam ps r)
    end; try discriminate;
    unfold emit, set_training; munfold; cbv beta iota;
    by intros [= _ <- _].
Qed.

(** X24.  On a release that lets line 84 index the loss and with [gpu]
    false: after any number of iterations [max_valid_acc] is the best
    validation accuracy of the passes so far, and [max_test_acc] is the
    test accuracy that the parameter values of the retained snapshot
    achieve, the one measured in the pass that last raised
    [max_valid_acc]; it is 0 while no snapshot is retained. *)
Theorem max_test_acc_belongs_to_best_snapshot :
  scalar_index_allowed = true ->
  exists st0 w1,
    Train.setup args model_data w = (Ok (model, st0), w1) /\
    let recs := Train.records model args model_data dt dev pi st0 w1 in
    forall k, (k <= N)%nat ->
      exists st wk,
        Train.after model args model_data k st0 w1 = (Ok st, wk) /\
        Train.max_valid_acc st = fst (Train.best_so_far (recs k)) /\
        Train.max_test_acc st =
          match snd (Train.best_so_far (recs k)) with
          | Some values => Train.test_accuracy values dt dev model_data
          | None => Fin 0
          end.
Proof.
  intros Hidx.
  destruct loop_start as (st0 & w1 & Hsetup & Hm & _ & Hall & Hgrp & _ & _ &
                          Hmax & Hbest & _).
  exists st0, w1. split; [exact Hsetup|]. intros recs k Hk.
  destruct (after_spec args model_data model ps dt gpu dev pi Hdt Hgpu Hdev
              Hpi Hpi0 Hvalid Htest Hvalid_ne Htest_ne Hidx (fun _ _ => True)
              (fun _ _ _ _ => I) (fun _ _ _ _ _ => I) st0 w1 Hm Hall Hgrp
              Hmax Hbest I k Hk)
    as (st & wk & Haft & _ & _ & _ & _ & Hmx & _).
  destruct (after_test_acc args model_data model ps dt gpu dev pi Hdt Hgpu Hdev
              Hpi Hpi0 Hvalid Htest Hvalid_ne Htest_ne Hidx (fun _ _ => True)
              (fun _ _ _ _ => I) (fun _ _ _ _ _ => I) st0 w1 Hm Hall Hgrp
              Hmax Hbest I k Hk)
    as (st_ & wk_ & Haft_ & Hacc).
  rewrite Haft in Haft_. injection Haft_ as <- <-.
  exists st, wk. split; [exact Haft|]. split; [exact Hmx|].
  rewrite Hacc. fold recs. by rewrite (setup_max_test_acc st0 w1 Hsetup).
Qed.

End Training.


(** * Further properties *)

(** ** The evaluation driver at its edges *)

Section EvaluationEdges.
Context `{Repo}.

(** X1.  On an empty split, [test] raises [ZeroDivisionError]: the
    counters are still the integers 0 when [acc /= size] runs.  The model
    has been switched to inference mode by then, no forward pass has run,
    and the arguments are not even read. *)
Theorem test_empty_split_raises (model : loc) (args : pyobj)
    (model_data : ModelData) (mode : string) (w : World) :
  (mode = "valid" /\ valid_iter model_data = []) \/
  (mode = "test" /\ test_iter model_data = []) ->
  Test.test model args model_data mode w =
    (Raise ZeroDivisionError, set_mode w model false).
Proof.
  intros [[-> Hit]|[-> Hit]]; unfold Test.test; munfold;
    rewrite set_training_mode; cbn [String.eqb Ascii.eqb Bool.eqb];
    unfold Test.test_split; munfold; rewrite Hit; reflexivity.
Qed.

(** X2.  For a [mode] that is none of ['valid'], ['test'] and ['app'],
    no branch binds [iterator], and [test] raises [UnboundLocalError] at
    the loop header, after it has switched the model to inference mode. *)
Theorem test_unknown_mode_raises (model : loc) (args : pyobj)
    (model_data : ModelData) (mode : string) (w : World) :
  mode <> "valid" -> mode <> "test" -> mode <> "app" ->
  Test.test model args model_data mode w =
    (Raise (UnboundLocalError "iterator"), set_mode w model false).
Proof.
  intros Hv Ht Ha. unfold Test.test. munfold. rewrite set_training_mode.
  destruct (String.eqb_spec mode "valid") as [|_]; [contradiction|].
  destruct (String.eqb_spec mode "test") as [|_]; [contradiction|].
  destruct (String.eqb_spec mode "app") as [|_]; [contradiction|].
  reflexivity.
Qed.

(** X3.  In ['app'] mode [test] runs the model once, in inference mode,
    on the single batch of the data object and returns the first row of
    its predictions; neither split is consulted and no loss is computed.
    Without predictions the indexing raises [IndexError]. *)
Theorem test_app_mode_returns_first_row (model : loc) (args : pyobj)
    (model_data : ModelData) (b : Batch) (dt dev : value) (w : World) :
  is_Some (modules w !! model) ->
  batch model_data = Some b ->
  getattr args "data_type" = Ok dt ->
  getattr args "device" = Ok dev ->
  Test.test model args model_data "app" w =
    (match model_forward (param_values w model) false (generate b dt dev) with
     | row :: _ => Ok (Test.AppPreds row)
     | [] => Raise IndexError
     end,
     log (set_mode w model false) [Forward model false (grad_enabled w)]).
Proof.
  intros Hm Hb Hdt Hdev. unfold Test.test. munfold.
  rewrite set_training_mode. cbn [String.eqb Ascii.eqb Bool.eqb].
  rewrite Hb, Hdt, Hdev. unfold Bimpm.call_model. munfold.
  rewrite emit_log, training_set_mode, param_values_set_mode by done.
  cbn [grad_enabled set_mode with_modules].
  by destruct (model_forward _ _ _).
Qed.

(** X4.  Evaluating twice gives the same answer: [test] changes no
    parameter and leaves the model in inference mode, so a second call
    on the world the first one left sees the same values and returns the
    same loss and accuracy (or raises the same error). *)
Theorem test_is_repeatable (model : loc) (args : pyobj)
    (model_data : ModelData) (mode : string) (dt dev : value)
    (stats : list (Q * nat * nat)) (w : World) :
  let it := if String.eqb mode "valid" then valid_iter model_data
            else test_iter model_data in
  mode = "valid" \/ mode = "test" ->
  is_Some (modules w !! model) ->
  getattr args "data_type" = Ok dt ->
  getattr args "device" = Ok dev ->
  Test.split_stats (param_values w model) dt dev it = Ok stats ->
  exists w1 w2,
    Test.test model args model_data mode w = (Test.metrics_of stats, w1) /\
    Test.test model args model_data mode w1 = (Test.metrics_of stats, w2) /\
    tensors w2 = tensors w /\
    training (module_at w2 model) = false.
Proof.
  intros it Hmode Hm Hdt Hdev Hs.
  pose proof (test_spec model args model_data mode dt dev stats w
                Hmode Hm Hdt Hdev Hs) as H1.
  fold it in H1. eexists _, _. split; [exact H1|].
  set (w1 := log (set_mode w model false) _).
  assert (Hm1 : is_Some (modules w1 !! model)).
  { destruct Hm as [o Ho]. exists (mkModule (named_parameters o) false).
    subst w1. unfold log, set_mode, with_modules. cbn.
    by rewrite lookup_alter_eq, Ho. }
  assert (Hv1 : param_values w1 model = param_values w model).
  { subst w1. apply (param_values_set_mode w model model false). }
  pose proof (test_spec model args model_data mode dt dev stats w1
                Hmode Hm1 Hdt Hdev) as H2.
  fold it in H2. rewrite Hv1 in H2. specialize (H2 Hs).
  split; [exact H2|]. split; [reflexivity|].
  unfold log. cbn. change (training (module_at (set_mode w1 model false) model) = false).
  by apply training_set_mode.
Qed.

End EvaluationEdges.

(** ** The entry point of test.py *)

Section TestEntry.
Context `{Repo}.

(** X5.  With the app flag off, [main] of [test.py] chooses the data
    source by the lower-cased [data_type]: every spelling of [snli]
    loads SNLI and every spelling of [quora] loads Quora, and nothing
    but the progress line is done on the way. *)
Theorem test_load_data_ignores_case (a : Test.MainArgs) (args : pyobj)
    (s : string) (w : World) :
  truthy (Test.app a) = false ->
  getattr args "data_type" = Ok (VStr s) ->
  Test.lower s = "snli" \/ Test.lower s = "quora" ->
  Test.load_data a args w =
    if String.eqb (Test.lower s) "snli"
    then (Ok (SNLI args), log w [Print "Loading SNLI data..."])
    else (Ok (Quora args), log w [Print "Loading Quora data..."]).
Proof.
  intros Happ Hdt [Hs|Hs]; unfold Test.load_data; munfold;
    rewrite Happ, Hdt; cbn [Test.str_lower str_eq]; rewrite Hs; reflexivity.
Qed.

End TestEntry.

(** ** What the entry points hand to the layers *)

Section EntryArguments.
Context `{Repo}.

Lemma not_ok_bind {A B} (r : result A) (k : A -> result B) :
  is_ok r = false -> is_ok (r ≫= k) = false.
Proof. by destruct r. Qed.

(** [main] of [test.py] passes [main_args] on: once the data source is
    chosen, the model is loaded with that object, and a failure to load
    it is the outcome of [main]. *)
Lemma test_main_loads_with_main_args (a : Test.MainArgs)
    (model_data : ModelData) (args0 : pyobj) (w w1 : World) :
  Test.setattr (Test.Args (Test.locals a)) "device" device = Ok args0 ->
  Test.load_data a args0 w = (Ok model_data, w1) ->
  exists args,
    Test.main_args a model_data = Ok args /\
    forall e w2,
      Test.load_model args model_data (log w1 [Print "Loading model..."]) =
        (Raise e, w2) ->
      Test.main a w = (Raise e, w2).
Proof.
  intros Hdev Hload.
  unfold Test.main_args, Test.main. munfold. cbv zeta. rewrite Hdev.
  cbv beta iota. cbn [mbind result_bind rbind]. rewrite Hload. cbv beta iota.
  cbn in Hdev. injection Hdev as <-.
  cbn [Test.setattr mbind result_bind rbind].
  eexists. split; [reflexivity|]. intros e w2 Hm.
  rewrite emit_log, Hm. reflexivity.
Qed.

(** X7.  The argument object that [main] of [test.py] builds has
    [char_input_size] but no [char_dim], and [class_size] but no
    [num_classes].  Hence, whatever the command line and the data, the
    constructors of the character encoder, of the word representation
    layer and of the prediction layer raise on it. *)
Theorem test_main_args_cannot_build_layers (a : Test.MainArgs)
    (model_data : ModelData) :
  exists args,
    Test.main_args a model_data = Ok args /\
    getattr args "char_input_size" = Ok (Test.char_input_size a) /\
    Layers.CharacterRepresentationEncoder_init args =
      Raise (AttributeError "Args" "char_dim") /\
    (forall vectors,
       is_ok (Layers.WordRepresentationLayer_init args vectors) = false) /\
    is_ok (Layers.PredictionLayer_init args) = false.
Proof.
  eexists. split; [reflexivity|]. split; [reflexivity|].
  split; [reflexivity|]. split.
  - intros vectors. unfold Layers.WordRepresentationLayer_init.
    repeat first [reflexivity | apply bind_not_ok; intros].
  - unfold Layers.PredictionLayer_init.
    repeat first [reflexivity | apply bind_not_ok; intros].
Qed.

(** X8.  The argument object that [main] of [train.py] builds has
    [char_dim] but no [char_input_size], no [num_classes] and no
    [model_time].  The same three constructors raise on it; and when
    [char_dim] is a valid size the character encoder fails exactly at
    [args.char_input_size], after its embedding has been built. *)
Theorem train_main_args_cannot_build_layers (a : Train.MainArgs)
    (model_data : ModelData) :
  let args := Train.finish_args (Train.locals a) model_data in
  getattr args "char_dim" = Ok (Train.char_dim a) /\
  is_ok (Layers.CharacterRepresentationEncoder_init args) = false /\
  (forall d, Train.char_dim a = VInt (Z.of_nat d) ->
     (0 < char_vocab model_data)%nat ->
     Layers.CharacterRepresentationEncoder_init args =
       Raise (AttributeError "args" "char_input_size")) /\
  (forall vectors,
     is_ok (Layers.WordRepresentationLayer_init args vectors) = false) /\
  is_ok (Layers.PredictionLayer_init args) = false.
Proof.
  intros args. split; [reflexivity|].
  assert (Hcre : forall e, is_ok (e ≫= fun char_encoder : Layers.Embedding =>
            inp ← getattr args "char_input_size";
            hid ← getattr args "char_hidden_size";
            lstm ← Layers.nn_LSTM inp hid 1 false true;
            Ok (Layers.mkCRE args char_encoder lstm true)) = false).
  { intros e. apply bind_not_ok. intros. reflexivity. }
  assert (Hc : is_ok (Layers.CharacterRepresentationEncoder_init args) = false).
  { unfold Layers.CharacterRepresentationEncoder_init.
    apply bind_not_ok; intros. apply bind_not_ok; intros. apply Hcre. }
  split; [exact Hc|]. split; [|split].
  - intros d Hd Hv. unfold Layers.CharacterRepresentationEncoder_init.
    change (getattr args "char_vocab_size")
      with (Ok (Test.nat_value (char_vocab model_data)) : result value).
    change (getattr args "char_dim") with (Ok (Train.char_dim a) : result value).
    rewrite Hd. cbn [mbind result_bind rbind].
    unfold Layers.nn_Embedding, Test.nat_value. rewrite !as_size_of_nat.
    cbn [mbind result_bind rbind].
    destruct (Nat.ltb_spec 0 (char_vocab model_data)); [reflexivity | lia].
  - intros vectors. unfold Layers.WordRepresentationLayer_init.
    do 4 (apply bind_not_ok; intros). by apply not_ok_bind.
  - unfold Layers.PredictionLayer_init.
    repeat first [reflexivity | apply bind_not_ok; intros].
Qed.

End EntryArguments.

(** ** The entry point of train.py past its first statement *)

Section TrainEntry.
Context `{Repo}.

(** X9.  The saving block of [main] (lines 51 to 54), run on the
    argument object [main] builds, ends in an exception in every state of
    the file system and never writes a file.  When [saved_models] exists
    nothing is created and formatting the path raises [AttributeError]
    for [model_time]; when it is absent but [save_models] exists,
    [os.makedirs] raises [FileExistsError]; when both are absent,
    [save_models] is created and the path raises as before. *)
Theorem save_block_outcome (a : Train.MainArgs) (model_data : ModelData)
    (best : loc) (w : World) :
  Train.save_best_model (Train.finish_args (Train.locals a) model_data) best w =
    if Train.exists_path w "saved_models" then
      (Raise (AttributeError "args" "model_time"), w)
    else if Train.exists_path w "save_models" then
      (Raise (FileExistsError "save_models"), w)
    else
      (Raise (AttributeError "args" "model_time"),
       mkWorld (tensors w) (modules w) (grad_enabled w)
               ({["save_models"]} ∪ dirs w) (files w) (trace w)).
Proof.
  unfold Train.save_best_model, Train.makedirs. munfold. cbn.
  destruct (Train.exists_path w "saved_models"); cbn; [reflexivity|].
  destruct (Train.exists_path w "save_models"); reflexivity.
Qed.

(** Building the model touches neither the files nor the event trace. *)
Lemma BiMPM_quiet (args : pyobj) (model_data : ModelData) (w : World) :
  files (snd (Bimpm.BiMPM args model_data w)) = files w /\
  dirs (snd (Bimpm.BiMPM args model_data w)) = dirs w /\
  trace (snd (Bimpm.BiMPM args model_data w)) = trace w.
Proof.
  unfold Bimpm.BiMPM. munfold.
  destruct (Layers.WordRepresentationLayer_init _ _); [|done].
  rewrite alloc_params_eq. cbv beta iota. done.
Qed.

(** X10.  [train], called as [main] calls it, never reaches its loop.
    The argument object has no field [model_time] (the timestamp is
    stored under ['args']), so whatever the model constructor does, the
    set-up of lines 60 to 72 raises before the summary writer is opened;
    no forward pass has run and the file system is as it was. *)
Theorem train_on_main_args_raises_in_setup (a : Train.MainArgs)
    (model_data : ModelData) (w : World) :
  let args := Train.finish_args (Train.locals a) model_data in
  exists e w',
    Train.setup args model_data w = (Raise e, w') /\
    Train.train args model_data w = (Raise e, w') /\
    files w' = files w /\ dirs w' = dirs w /\
    (trace w' = trace w \/ exists model, trace w' = trace w ++ [Cuda model]).
Proof.
  intros args.
  destruct (BiMPM_quiet args model_data w) as (Hf & Hd & Ht).
  unfold Train.train, Train.setup. munfold.
  destruct (Bimpm.BiMPM args model_data w) as [[model|e] w1]; cbn [snd] in *.
  - change (getattr args "gpu") with (Ok (Train.gpu a) : result value).
    change (getattr args "lr") with (Ok (Train.lr a) : result value).
    cbv beta iota.
    destruct (truthy (Train.gpu a)); cbv beta iota;
      [unfold Train.model_cuda; destruct (Train.gpu a); munfold;
       cbv beta iota; try destruct (cuda _) as [[]|]; cbv beta iota;
       rewrite ?emit_log; cbv beta iota|];
      try match goal with
          | |- context [Train.Adam ?ps ?lr] => destruct (Train.Adam ps lr)
          end; cbv beta iota;
      eexists _, _; (split; [reflexivity|]); (split; [reflexivity|]);
      cbn [files dirs trace log]; rewrite ?Hf, ?Hd, ?Ht; eauto 6.
  - eexists _, _. split; [reflexivity|]. split; [reflexivity|]. eauto.
Qed.

End TrainEntry.

(** ** The layer module at its edges *)

(** X11.  Importing the layer module fails whatever is installed.  When
    one of its four imports cannot be resolved it fails there; and when
    all four resolve, so that the six classes do get defined, the last
    statement calls the string [__name__] and raises [TypeError].  No
    name can therefore ever be imported from the module. *)
Theorem import_layers_never_succeeds (installed : gset string) :
  is_ok (Layers.import_layers installed) = false /\
  (forall name, is_ok (Layers.from_layers_import installed name) = false) /\
  ("torch" ∈ installed -> "torch.nn" ∈ installed ->
   "torch.nn.Functional" ∈ installed -> "plac" ∈ installed ->
   exists ns,
     Layers.exec_body installed ["__name__"] Layers.layers_py =
       (Raise (TypeError "'str' object is not callable"), ns) /\
     forallb (fun c => mem c ns) Layers.layer_classes = true).
Proof.
  assert (Hb : (exists e ns,
                  Layers.exec_body installed ["__name__"] Layers.layers_py =
                    (Raise e, ns)) /\
               ("torch" ∈ installed -> "torch.nn" ∈ installed ->
                "torch.nn.Functional" ∈ installed -> "plac" ∈ installed ->
                exists ns,
                  Layers.exec_body installed ["__name__"] Layers.layers_py =
                    (Raise (TypeError "'str' object is not callable"), ns) /\
                  forallb (fun c => mem c ns) Layers.layer_classes = true)).
  { unfold Layers.layers_py.
    cbn [Layers.exec_body Layers.exec_stmt Layers.import_path app].
    change (Layers.dotted ["torch"]) with "torch".
    change (Layers.dotted ["torch"; "nn"]) with "torch.nn".
    change (Layers.dotted ["torch"; "nn"; "Functional"])
      with "torch.nn.Functional".
    change (Layers.dotted ["plac"]) with "plac".
    destruct (decide ("torch" ∈ installed)); cbn; [|split; [eauto | tauto]].
    destruct (decide ("torch.nn" ∈ installed)); cbn; [|split; [eauto | tauto]].
    destruct (decide ("torch.nn.Functional" ∈ installed)); cbn;
      [|split; [eauto | tauto]].
    destruct (decide ("plac" ∈ installed)); cbn; [|split; [eauto | tauto]].
    split; [eauto|]. intros _ _ _ _. eexists. split; reflexivity. }
  destruct Hb as [(e & ns & Hb) Hall].
  split; [|split; [|exact Hall]].
  - unfold Layers.import_layers. by rewrite Hb.
  - intros name. unfold Layers.from_layers_import, Layers.import_layers.
    by rewrite Hb.
Qed.

Section EncoderEdges.
Context `{Framework}.

Lemma lookup_rows_out_of_range (e : Layers.Embedding) (ids : list nat) :
  Exists (fun i => (Layers.num_embeddings e <= i)%nat) ids ->
  Layers.lookup_rows e ids = Raise IndexError.
Proof.
  induction ids as [|i ids IH]; intros Hex; [by apply Exists_nil in Hex|].
  cbn [Layers.lookup_rows].
  destruct (Nat.ltb_spec i (Layers.num_embeddings e)) as [Hlt|_]; [|reflexivity].
  apply Exists_cons in Hex as [Hge|Hex]; [lia|]. by rewrite IH.
Qed.

(** X12.  A character id outside the vocabulary is not mapped to the
    padding row: for every id tensor of shape (B, S, W) that holds such
    an id, the forward pass of the character encoder raises
    [IndexError] at the embedding lookup. *)
Theorem char_encoder_rejects_unknown_ids
    (enc : Layers.CharacterRepresentationEncoder) (B S W : nat)
    (ids : list nat) :
  length ids = (B * S * W)%nat ->
  Exists (fun i => (Layers.num_embeddings (Layers.cre_char_encoder enc) <= i)%nat)
         ids ->
  Layers.CharacterRepresentationEncoder_forward enc
    (Layers.mkIntTensor [B; S; W] ids) = Raise IndexError.
Proof.
  intros Hlen Hex. unfold Layers.CharacterRepresentationEncoder_forward.
  cbn [Layers.ishape]. unfold Layers.iview.
  cbn [Layers.ielems numel fold_right].
  replace ((B * S * (W * 1)) =? length ids)%nat with true
    by (symmetry; apply Nat.eqb_eq; lia).
  cbn [mbind result_bind rbind].
  unfold Layers.Embedding_forward. cbn [Layers.ielems].
  by rewrite lookup_rows_out_of_range.
Qed.

(** X13.  A width of the character embedding that differs from the input
    size of the recurrent encoder is not noticed when the encoder is
    built: the constructor succeeds.  The mismatch surfaces at the first
    forward pass, which raises [RuntimeError] for every well-formed id
    tensor, the empty batch included. *)
Theorem char_encoder_width_mismatch_surfaces_at_forward (args : pyobj)
    (V D I Hd : nat) :
  getattr args "char_vocab_size" = Ok (VInt (Z.of_nat V)) ->
  getattr args "char_dim" = Ok (VInt (Z.of_nat D)) ->
  getattr args "char_input_size" = Ok (VInt (Z.of_nat I)) ->
  getattr args "char_hidden_size" = Ok (VInt (Z.of_nat Hd)) ->
  (0 < V)%nat -> D <> I ->
  exists enc,
    Layers.CharacterRepresentationEncoder_init args = Ok enc /\
    forall (B S W : nat) (ids : list nat),
      length ids = (B * S * W)%nat ->
      Forall (fun i => (i < V)%nat) ids ->
      Layers.CharacterRepresentationEncoder_forward enc
        (Layers.mkIntTensor [B; S; W] ids) =
      Raise (RuntimeError "input.size(-1) must be equal to input_size").
Proof.
  intros Hv Hdim Hi Hh HV Hne.
  unfold Layers.CharacterRepresentationEncoder_init.
  rewrite Hv, Hdim, Hi, Hh. cbn [mbind result_bind rbind].
  unfold Layers.nn_Embedding, Layers.nn_LSTM. rewrite !as_size_of_nat.
  cbn [mbind result_bind rbind].
  destruct (Nat.ltb_spec 0 V) as [_|]; [|lia].
  eexists. split; [reflexivity|]. intros B S W ids Hlen Hids.
  unfold Layers.CharacterRepresentationEncoder_forward.
  cbn [Layers.ishape Layers.cre_char_encoder Layers.cre_lstm].
  unfold Layers.iview. cbn [Layers.ielems numel fold_right].
  replace ((B * S * (W * 1)) =? length ids)%nat with true
    by (symmetry; apply Nat.eqb_eq; lia).
  cbn [mbind result_bind rbind].
  unfold Layers.Embedding_forward. cbn [Layers.ielems Layers.ishape].
  rewrite lookup_rows_ok by exact Hids.
  cbn [mbind result_bind rbind app Layers.embedding_dim].
  unfold Layers.LSTM_forward. cbn [shape Layers.input_size].
  destruct (Nat.eqb_spec D I) as [|_]; [contradiction|]. reflexivity.
Qed.

End EncoderEdges.

(** ** A reporting interval of zero *)

Section ZeroInterval.
Context `{Repo}.
Variables (args : pyobj) (model_data : ModelData) (w : World)
          (wrl : Layers.WordRepresentationLayer)
          (dt gpu lr : value) (mt : string).
Hypothesis Hwrl :
  Layers.WordRepresentationLayer_init args (vectors model_data) = Ok wrl.
Hypothesis Hdt : getattr args "data_type" = Ok dt.
Hypothesis Hgpu : getattr args "gpu" = Ok gpu.
Hypothesis Hcpu : truthy gpu = false.
Hypothesis Hlr : getattr args "lr" = Ok lr.
Hypothesis Hmt : getattr args "model_time" = Ok (VStr mt).
Hypothesis Hpi : getattr args "print_interval" = Ok (VInt 0).

Let params := Layers.WordRepresentationLayer_parameters
                (word_layer_name ++ ".")%string wrl ++
              other_parameters args model_data.
Let ps := fst (alloc_all params (tensors w)).
Let model := fresh (dom (modules w)).

(** X17.  With [print_interval] 0 and [gpu] false, [train] raises in the
    first iteration, after the first batch has been run through the
    model once, in training mode.  On a release that lets line 84 index
    the loss, the test [(i + 1) % print_interval] raises
    [ZeroDivisionError], and it does so after [optimizer.step()]: the
    update of the first batch has been applied to the parameters.  On
    the other releases line 84 raises [IndexError] before that: the
    gradients have been zeroed and no parameter has been updated. *)
Theorem train_zero_print_interval_raises (b : Batch) (rest : list Batch) :
  train_iter model_data = b :: rest ->
  keep_training model_data 0 = true ->
  exists st0 w1 w',
    Train.setup args model_data w = (Ok (model, st0), w1) /\
    Train.train args model_data w =
      (Raise (if scalar_index_allowed then ZeroDivisionError else IndexError),
       w') /\
    tensors w' =
      (if scalar_index_allowed
       then snd (Train.update (Train.optimizer st0) ps
                   (autograd (param_values w1 model) (generate b dt gpu)
                             (label b))
                   (tensors w1))
       else Train.zero_grad_map (Train.optimizer st0) (tensors w1)) /\
    trace w' = trace w1 ++ [Forward model true (grad_enabled w1)].
Proof.
  intros Hit Hkeep.
  destruct (setup_spec args model_data w wrl gpu lr mt Hwrl Hgpu Hcpu Hlr Hmt)
    as (st0 & w1 & Hsetup & Hm & _).
  fold params ps model in Hsetup, Hm.
  exists st0, w1,
    (with_tensors (log w1 [Forward model true (grad_enabled w1)])
       (if scalar_index_allowed
        then snd (Train.update (Train.optimizer st0) ps
                    (autograd (param_values w1 model) (generate b dt gpu)
                              (label b))
                    (tensors w1))
        else Train.zero_grad_map (Train.optimizer st0) (tensors w1))).
  split; [exact Hsetup|]. split; [|split; reflexivity].
  unfold Train.train. munfold. rewrite Hsetup. cbv beta iota.
  rewrite Hit. cbn [Train.train_loop]. rewrite Hkeep. munfold.
  destruct scalar_index_allowed eqn:Hidx.
  - unfold Train.train_body, Bimpm.call_model, Train.zero_grad, Train.backward,
      Train.step, Train.update, Train.scalar_index. munfold.
    rewrite Hdt, Hgpu, emit_log, Hidx. cbn [fst snd].
    unfold param_values, params_of, module_at, with_tensors, log.
    cbn [tensors modules grad_enabled dirs files trace].
    rewrite Hm. cbn [default named_parameters training].
    unfold id. cbn [named_parameters training].
    rewrite (values_related _ _ ps
               (zero_grad_map_related (Train.optimizer st0) (tensors w1))).
    destruct (Train.step_map _ _) as [o' t'] eqn:Estep. cbn [fst snd].
    rewrite Hpi. reflexivity.
  - by rewrite (train_body_index_error args model_data model ps dt gpu Hdt Hgpu
                  Hidx 0 b st0 w1 true Hm).
Qed.

End ZeroInterval.

(** ** Runs that stop before any update *)

Section NoUpdate.
Context `{Repo}.
Variables (args : pyobj) (model_data : ModelData) (w : World)
          (wrl : Layers.WordRepresentationLayer).
Hypothesis Hwrl :
  Layers.WordRepresentationLayer_init args (vectors model_data) = Ok wrl.

Let params := Layers.WordRepresentationLayer_parameters
                (word_layer_name ++ ".")%string wrl ++
              other_parameters args model_data.
Let ps := fst (alloc_all params (tensors w)).
Let model := fresh (dom (modules w)).

(** X26.  With [gpu] a [bool] that is true, as it is when the flag of
    the command line is passed on, [train] raises [TypeError] at line 62:
    the model has been built, in training mode and with its parameters
    allocated, but no optimizer and no summary writer exist yet and no
    event has been recorded. *)
Theorem train_with_bool_gpu_raises :
  getattr args "gpu" = Ok (VBool true) ->
  exists msg w',
    Train.setup args model_data w = (Raise (TypeError msg), w') /\
    Train.train args model_data w = (Raise (TypeError msg), w') /\
    modules w' !! model = Some (mkModule ps true) /\
    tensors w' = snd (alloc_all params (tensors w)) /\
    trace w' = trace w.
Proof.
  intros Hgpu.
  unfold Train.train, Train.setup, Bimpm.BiMPM. munfold.
  rewrite Hwrl, alloc_params_eq. unfold alloc_module.
  cbv beta iota. cbn [modules with_tensors]. rewrite Hgpu.
  cbn [truthy Train.model_cuda]. unfold raise.
  eexists _, _. split; [reflexivity|]. split; [reflexivity|].
  split; [apply lookup_insert_eq|]. split; reflexivity.
Qed.

(** X27.  On a release that refuses to index a 0-dim tensor, with [gpu]
    false, a run with at least one iteration raises [IndexError] at line
    84 of the first one.  The first batch has been run through the model
    once, in training mode, and the gradients have been zeroed; no
    parameter of the model has changed its value. *)
Theorem train_index_error_before_any_update (dt gpu lr : value)
    (mt : string) :
  getattr args "data_type" = Ok dt ->
  getattr args "gpu" = Ok gpu ->
  truthy gpu = false ->
  getattr args "lr" = Ok lr ->
  getattr args "model_time" = Ok (VStr mt) ->
  scalar_index_allowed = false ->
  (0 < Train.iterations model_data 0 (train_iter model_data))%nat ->
  exists st0 w1 w',
    Train.setup args model_data w = (Ok (model, st0), w1) /\
    Train.train args model_data w = (Raise IndexError, w') /\
    tensors w' = Train.zero_grad_map (Train.optimizer st0) (tensors w1) /\
    param_values w' model = param_values w1 model /\
    trace w' = trace w1 ++ [Forward model true (grad_enabled w1)].
Proof.
  intros Hdt Hgpu Hcpu Hlr Hmt Hno HN.
  destruct (setup_spec args model_data w wrl gpu lr mt Hwrl Hgpu Hcpu Hlr Hmt)
    as (st0 & w1 & Hsetup & Hm & _).
  fold params ps model in Hsetup, Hm.
  exists st0, w1. eexists. split; [exact Hsetup|]. split.
  { rewrite (train_phases args model_data w st0 w1 Hsetup).
    fold model.
    by rewrite (after_index_error args model_data model ps dt gpu Hdt Hgpu Hno
                  _ st0 w1 true Hm) by done. }
  split; [reflexivity|]. split; [|reflexivity].
  unfold param_values, params_of, module_at, with_tensors, log.
  cbn [tensors modules]. rewrite Hm. cbn [default named_parameters].
  apply values_related, zero_grad_map_related.
Qed.

End NoUpdate.


(** ** Loading a saved model *)

Section LoadModel.
Context `{Repo}.

Lemma assoc_elem_of {A} (d : list (string * A)) (n : string) (v : A) :
  NoDup (map fst d) -> (n, v) ∈ d -> assoc n d = Some v.
Proof.
  induction d as [|[k x] d IH]; intros Hnd Hin; [by apply elem_of_nil in Hin|].
  cbn in Hnd |- *. apply NoDup_cons in Hnd as [Hk Hnd].
  apply elem_of_cons in Hin as [E|Hin].
  - injection E as -> ->. by rewrite String.eqb_refl.
  - destruct (String.eqb_spec n k) as [->|_]; [|by apply IH].
    exfalso. apply Hk. apply list_elem_of_In, in_map_iff.
    exists (k, v). split; [done|]. by apply list_elem_of_In.
Qed.

Lemma forallb_mem_self (l : list string) :
  forallb (fun k => mem k l) l = true.
Proof.
  apply forallb_forall. intros k Hk. unfold mem. apply existsb_exists.
  exists k. split; [done | apply String.eqb_refl].
Qed.

(** [load_into] on parameters at distinct locations, each with an entry
    of its shape in the state dict: every parameter receives the tensor
    stored under its name and keeps its flags and gradient. *)
Lemma load_into_spec (sd : list (string * Tensor)) (ps : list (string * loc))
    (w : World) :
  NoDup (locs ps) ->
  Forall (fun nl => exists t p, assoc (fst nl) sd = Some t /\
                                tensors w !! snd nl = Some p /\
                                shape (data p) = shape t) ps ->
  exists w',
    Test.load_into ps sd w = (Ok tt, w') /\
    modules w' = modules w /\ files w' = files w /\ dirs w' = dirs w /\
    trace w' = trace w /\ grad_enabled w' = grad_enabled w /\
    (forall l, l ∉ locs ps -> tensors w' !! l = tensors w !! l) /\
    Forall (fun nl => exists t p, assoc (fst nl) sd = Some t /\
                                  tensors w !! snd nl = Some p /\
                                  tensors w' !! snd nl =
                                    Some (mkParam t (requires_grad p) (grad p)
                                                  (padding_row p))) ps.
Proof.
  revert w. induction ps as [|[n l] ps IH]; intros w Hnd Hall.
  - exists w. cbn. repeat split; auto.
  - cbn in Hnd. apply NoDup_cons in Hnd as [Hl Hnd].
    apply Forall_cons in Hall as [(t & p & Ht & Hp & Hsh) Hall].
    cbn [fst snd] in *. cbn [Test.load_into]. rewrite Ht. munfold. rewrite Hp.
    rewrite decide_True by done.
    set (w1 := with_tensors w _).
    assert (Hall1 : Forall (fun nl => exists t p, assoc (fst nl) sd = Some t /\
                              tensors w1 !! snd nl = Some p /\
                              shape (data p) = shape t) ps).
    { apply Forall_forall. intros [n' l'] Hin.
      rewrite Forall_forall in Hall.
      destruct (Hall _ Hin) as (t' & p' & Ht' & Hp' & Hsh'). cbn [fst snd] in *.
      exists t', p'. split; [done|]. split; [|done].
      subst w1. cbn. rewrite lookup_insert_ne; [done|].
      intros ->. apply Hl. apply list_elem_of_In, in_map_iff.
      exists (n', l'). split; [done|]. by apply list_elem_of_In. }
    destruct (IH w1 Hnd Hall1) as (w' & Hload & Hmods & Hfiles & Hdirs & Htrace &
                                   Hgrad & Hframe & Hps).
    exists w'. split; [exact Hload|].
    split; [by rewrite Hmods|]. split; [by rewrite Hfiles|].
    split; [by rewrite Hdirs|]. split; [by rewrite Htrace|].
    split; [by rewrite Hgrad|]. split.
    { intros l' Hl'. cbn in Hl'. apply not_elem_of_cons in Hl' as [Hne Hl'].
      rewrite Hframe by done. subst w1. cbn. by rewrite lookup_insert_ne. }
    apply Forall_cons. split.
    { cbn [fst snd]. exists t, p. split; [done|]. split; [done|].
      rewrite Hframe by done. subst w1. cbn. by rewrite lookup_insert_eq. }
    apply Forall_forall. intros [n' l'] Hin.
    rewrite Forall_forall in Hps, Hall.
    destruct (Hps _ Hin) as (t' & p' & Ht' & Hp' & Hw').
    destruct (Hall _ Hin) as (t'' & p'' & Ht'' & Hp'' & _).
    cbn [fst snd] in *. exists t', p''. split; [done|]. split; [done|].
    rewrite Hw'. subst w1. cbn in Hp'. rewrite lookup_insert_ne in Hp'.
    { rewrite Hp'' in Hp'. by injection Hp' as <-. }
    intros ->. apply Hl. apply list_elem_of_In, in_map_iff.
    exists (n', l'). split; [done|]. by apply list_elem_of_In.
Qed.

Lemma Forall2_Forall_elem {A B} (R : A -> B -> Prop) (l : list A)
    (k : list B) :
  Forall2 R l k -> Forall (fun x => exists y, y ∈ k /\ R x y) l.
Proof.
  induction 1 as [|x y l k HR _ IH]; constructor.
  - exists y. split; [left | done].
  - eapply Forall_impl; [exact IH|]. intros x' (y' & Hin & HR').
    exists y'. split; [by right | done].
Qed.

Lemma Forall2_meet {A B C} (P : A -> B -> Prop) (Q : C -> B -> Prop)
    (R : A -> C -> Prop) (l : list A) (k : list B) (m : list C) :
  (forall x y z, P x y -> Q z y -> R x z) ->
  Forall2 P l k -> Forall2 Q m k -> Forall2 R l m.
Proof.
  intros HR HP. revert m. induction HP as [|x y l k Hxy _ IH]; intros m HQ.
  - apply Forall2_nil_inv_r in HQ as ->. constructor.
  - apply Forall2_cons_inv_r in HQ as (z & m' & Hzy & HQ & ->).
    constructor; [by eapply HR | by apply IH].
Qed.

Lemma values_after_load (t : gmap loc Param) (sd sd' : list (string * Tensor))
    (ps : list (string * loc)) :
  NoDup (map fst sd) ->
  (forall s, s ∈ sd' -> s ∈ sd) ->
  Forall2 (fun nl s => fst nl = fst s) ps sd' ->
  Forall (fun nl => exists x p, assoc (fst nl) sd = Some x /\
                                t !! snd nl = Some p /\ data p = x) ps ->
  map data (omap (fun '(_, l) => t !! l) ps) = map snd sd'.
Proof.
  intros Hnd Hsub HF. induction HF as [|[n l] [k x] ps sd' Hn _ IH];
    intros Hall; [reflexivity|].
  apply Forall_cons in Hall as [(x' & p & Hx & Hp & Hd) Hall].
  cbn [fst snd] in *. subst k. cbn [omap list_omap]. rewrite Hp. cbn [map snd].
  rewrite (assoc_elem_of sd n x Hnd) in Hx by (apply Hsub; left).
  injection Hx as <-. rewrite Hd. f_equal.
  apply IH; [|done]. intros s Hs. apply Hsub. by right.
Qed.

Lemma flags_after_load (t t' : gmap loc Param) (ps : list (string * loc)) :
  Forall (fun nl => exists p p', t !! snd nl = Some p /\
                                 t' !! snd nl = Some p' /\
                                 requires_grad p' = requires_grad p) ps ->
  map requires_grad (omap (fun '(_, l) => t' !! l) ps) =
  map requires_grad (omap (fun '(_, l) => t !! l) ps).
Proof.
  induction 1 as [|[n l] ps (p & p' & Hp & Hp' & Hrg) _ IH]; [reflexivity|].
  cbn [fst snd] in *. cbn [omap list_omap]. rewrite Hp, Hp'. cbn [map]. by rewrite Hrg, IH.
Qed.

Variables (args : pyobj) (model_data : ModelData) (w : World)
          (wrl : Layers.WordRepresentationLayer)
          (path : string) (dev : value) (sd : list (string * Tensor)).
Hypothesis Hwrl :
  Layers.WordRepresentationLayer_init args (vectors model_data) = Ok wrl.
Hypothesis Hpath : getattr args "model_path" = Ok (VStr path).
Hypothesis Hdev : getattr args "device" = Ok dev.

Let params := Layers.WordRepresentationLayer_parameters
                (word_layer_name ++ ".")%string wrl ++
              other_parameters args model_data.
Let ps := fst (alloc_all params (tensors w)).
Let model := fresh (dom (modules w)).

(** X18.  [load_model] restores what was saved.  When the file at
    [args.model_path] holds a state dict with one tensor per parameter of
    the model, under the parameter's name and of its shape, the model
    that [load_model] returns holds exactly those tensors, in
    registration order; every parameter keeps its [requires_grad] flag,
    so the pretrained embedding stays frozen; and the file system is not
    written to. *)
Theorem load_model_restores_saved_weights :
  files w !! path = Some sd ->
  NoDup (map fst sd) ->
  Forall2 (fun s np => fst s = fst np /\
                       shape (snd s) = shape (data (snd np))) sd params ->
  exists w',
    Test.load_model args model_data w = (Ok model, w') /\
    param_values w' model = map snd sd /\
    map requires_grad (params_of w' model) =
      map (fun np => requires_grad (snd np)) params /\
    training (module_at w' model) = true /\
    files w' = files w.
Proof.
  intros Hfile Hnd Hsd.
  destruct (alloc_all_spec params (tensors w))
    as (Hnames & _ & _ & Hlocs & Hvals & _).
  pose proof (alloc_all_Forall2 params (tensors w)) as HF.
  fold ps in Hnames, Hlocs, Hvals, HF.
  set (t1 := snd (alloc_all params (tensors w))) in *.
  set (w1 := with_modules (with_tensors w t1)
               (<[model := mkModule ps true]> (modules w))).
  assert (Hm1 : modules w1 !! model = Some (mkModule ps true))
    by apply lookup_insert_eq.
  assert (Hps_sd : Forall2 (fun nl s => fst nl = fst s /\
                              exists p, t1 !! snd nl = Some p /\
                                        shape (data p) = shape (snd s)) ps sd).
  { eapply Forall2_meet; [|exact HF|exact Hsd].
    intros nl np s [Hn Hl] [Hn' Hsh]. split; [congruence|]. eauto. }
  assert (Hpre : Forall (fun nl => exists x p, assoc (fst nl) sd = Some x /\
                           tensors w1 !! snd nl = Some p /\
                           shape (data p) = shape x) ps).
  { eapply Forall_impl; [exact (Forall2_Forall_elem _ _ _ Hps_sd)|].
    intros nl ([k x] & Hin & Hn & p & Hp & Hsh). cbn [fst snd] in *.
    exists x, p. split; [|done]. rewrite Hn. by apply assoc_elem_of. }
  destruct (load_into_spec sd ps w1 Hlocs Hpre)
    as (w' & Hload & Hmods & Hfiles & _ & _ & _ & _ & Hafter).
  exists w'. split.
  { unfold Test.load_model, Bimpm.BiMPM. munfold.
    rewrite Hwrl, alloc_params_eq. unfold alloc_module.
    cbv beta iota. cbn [modules with_tensors].
    change (with_modules _ _) with w1.
    change (fresh (dom (modules w))) with model.
    rewrite Hpath, Hdev. cbn [as_str].
    change (files w1) with (files w). rewrite Hfile.
    unfold Test.load_state_dict. munfold.
    rewrite (module_at_lookup _ _ _ Hm1). cbn [named_parameters].
    replace (map fst sd) with (map fst ps).
    2:{ clear -Hps_sd. induction Hps_sd as [|? ? ? ? [Hn _] _ IH]; [done|].
        cbn. by rewrite Hn, IH. }
    rewrite forallb_mem_self, Hload. reflexivity. }
  assert (Hmod' : module_at w' model = mkModule ps true).
  { apply module_at_lookup. by rewrite Hmods. }
  split; [|split; [|split]].
  - unfold param_values, params_of. rewrite Hmod'. cbn [named_parameters].
    apply (values_after_load _ sd sd ps Hnd); [done | |].
    + eapply Forall2_impl; [exact Hps_sd|]. by intros ? ? [? _].
    + eapply Forall_impl; [exact Hafter|].
      intros nl (x & p & Hx & _ & Hp'). eauto.
  - unfold params_of. rewrite Hmod'. cbn [named_parameters].
    rewrite (flags_after_load t1).
    + rewrite Hvals. by rewrite map_map.
    + eapply Forall_impl; [exact Hafter|].
      intros nl (x & p & _ & Hp & Hp'). eauto.
  - by rewrite Hmod'.
  - exact Hfiles.
Qed.

End LoadModel.


(** ** More on the character encoder and the layer widths *)

Section EncoderShapes.
Context `{Framework}.

Lemma lstm_scan_snoc (hid : nat) (ws : list Tensor) (st : list Q * list Q)
    (xs : list (list Q)) (x : list Q) :
  snd (Layers.lstm_scan hid ws st (xs ++ [x])) =
  lstm_cell hid ws (snd (Layers.lstm_scan hid ws st xs)) x.
Proof.
  revert st. induction xs as [|y xs IH]; intros st; [reflexivity|].
  cbn [app Layers.lstm_scan]. specialize (IH (lstm_cell hid ws st y)).
  destruct (Layers.lstm_scan hid ws (lstm_cell hid ws st y) (xs ++ [x])).
  destruct (Layers.lstm_scan hid ws (lstm_cell hid ws st y) xs).
  exact IH.
Qed.

(** X19.  Padding is not skipped.  For an encoder whose padding row is
    the zero vector, the forward pass over a single word that ends in one
    padding character returns the hidden state reached by one further
    step of the recurrent encoder, from the state the real characters
    left, on the zero vector: the final state taken at line 29 is the
    state after the padding, not the state after the last real
    character. *)
Theorem padding_advances_the_encoder
    (enc : Layers.CharacterRepresentationEncoder) (word : list nat) :
  let e := Layers.cre_char_encoder enc in
  let l := Layers.cre_lstm enc in
  let embed := map (Layers.row (Layers.embedding_dim e)
                               (elems (Layers.weight e))) in
  Layers.embedding_dim e = Layers.input_size l ->
  Layers.bidirectional l = false ->
  length (elems (Layers.weight e)) =
    (Layers.num_embeddings e * Layers.embedding_dim e)%nat ->
  getattr (Layers.cre_args enc) "char_hidden_size" =
    Ok (VInt (Z.of_nat (Layers.hidden_size l))) ->
  (0 < Layers.embedding_dim e)%nat -> (0 < Layers.hidden_size l)%nat ->
  (0 < Layers.num_embeddings e)%nat ->
  Forall (fun i => (i < Layers.num_embeddings e)%nat) word ->
  (forall ws st x,
     length (fst (lstm_cell (Layers.hidden_size l) ws st x)) =
     Layers.hidden_size l) ->
  Layers.row (Layers.embedding_dim e) (elems (Layers.weight e)) 0 =
    repeat 0%Q (Layers.embedding_dim e) ->
  Layers.CharacterRepresentationEncoder_forward enc
    (Layers.mkIntTensor [1; 1; S (length word)] (word ++ [0%nat])) =
  Ok (mkTensor [1; 1; Layers.hidden_size l]
        (fst (lstm_cell (Layers.hidden_size l) (map snd (Layers.weights_fwd l))
                (snd (Layers.lstm_run l (Layers.weights_fwd l) (embed word)))
                (repeat 0%Q (Layers.embedding_dim e))))).
Proof.
  intros e l embed Hdim Hbi Hw Hattr HD HH HV Hword Hcell Hpad.
  rewrite (char_encoder_forward_spec enc 1 1 (S (length word)));
    try done; try lia.
  - pose proof (chunks_concat [word ++ [0%nat]] (S (length word))) as Hch.
    cbn [concat] in Hch. rewrite app_nil_r in Hch.
    rewrite Hch.
    + cbn [map concat]. rewrite app_nil_r.
      unfold Layers.char_representation, Layers.lstm_run. fold e l.
      rewrite map_app. cbn [map]. rewrite Hpad.
      by rewrite lstm_scan_snoc.
    + lia.
    + constructor; [|constructor]. rewrite length_app. cbn. lia.
  - rewrite length_app. cbn. lia.
  - apply Forall_app. split; [exact Hword|]. by constructor.
Qed.

(** X20.  The forward pass has no result for empty sentences or empty
    words.  For an encoder whose embedding width is the input size of
    its recurrent encoder, an id tensor of shape (B, S, W) with [S = 0]
    or [W = 0] makes it raise [RuntimeError]: with [W = 0] the recurrent
    encoder rejects the zero-length sequences, and with [S = 0] the final
    [view(-1, seq_len, hidden)] cannot infer its first dimension. *)
Theorem char_encoder_rejects_empty_sentences
    (enc : Layers.CharacterRepresentationEncoder) (B S W hid : nat) :
  Layers.embedding_dim (Layers.cre_char_encoder enc) =
    Layers.input_size (Layers.cre_lstm enc) ->
  Layers.bidirectional (Layers.cre_lstm enc) = false ->
  getattr (Layers.cre_args enc) "char_hidden_size" = Ok (VInt (Z.of_nat hid)) ->
  S = 0%nat \/ W = 0%nat ->
  exists msg,
    Layers.CharacterRepresentationEncoder_forward enc
      (Layers.mkIntTensor [B; S; W] []) = Raise (RuntimeError msg).
Proof.
  intros Hdim Hbi Hhid Hzero.
  unfold Layers.CharacterRepresentationEncoder_forward.
  cbn [Layers.ishape]. unfold Layers.iview.
  cbn [Layers.ielems numel fold_right length].
  replace ((B * S * (W * 1)) =? 0)%nat with true
    by (symmetry; apply Nat.eqb_eq; destruct Hzero; subst; lia).
  cbn [mbind result_bind rbind].
  unfold Layers.Embedding_forward.
  cbn [Layers.ielems Layers.ishape Layers.lookup_rows mbind result_bind rbind
       concat app].
  unfold Layers.LSTM_forward. cbn [shape elems].
  rewrite Hdim, Nat.eqb_refl. cbn [negb].
  destruct (Nat.eqb_spec W 0) as [->|HW]; [eauto|].
  destruct Hzero as [->|]; [|contradiction].
  rewrite Hbi. cbn [mbind result_bind rbind fst snd].
  rewrite Hhid. cbn [mbind result_bind rbind]. rewrite as_size_of_nat.
  cbn [mbind result_bind rbind]. unfold Layers.view_infer. cbn [numel fold_right elems].
  rewrite Nat.mul_0_l. cbn. eauto.
Qed.

(** X21.  The widths of the first two layers fit.  The context layer is
    built with a bidirectional recurrent encoder whose input size is
    [word_dim + char_hidden_size]; the concatenation of line 52, of word
    vectors of width [word_dim] with character representations of width
    [char_hidden_size], has exactly that width; and on it the recurrent
    encoder of the context layer returns, at line 74, an output with
    twice [hidden_size] features per position. *)
Theorem context_layer_fits_word_representation (args : pyobj)
    (wd ch h : nat) :
  getattr args "word_dim" = Ok (VInt (Z.of_nat wd)) ->
  getattr args "char_hidden_size" = Ok (VInt (Z.of_nat ch)) ->
  getattr args "hidden_size" = Ok (VInt (Z.of_nat h)) ->
  exists crl,
    Layers.ContextRepresentationLayer_init args = Ok crl /\
    Layers.input_size (Layers.crl_lstm crl) = (wd + ch)%nat /\
    Layers.bidirectional (Layers.crl_lstm crl) = true /\
    forall (B S : nat) (ws cs : list Q),
      (0 < S)%nat ->
      exists x out hc,
        Layers.cat_last (mkTensor [B; S; wd] ws) (mkTensor [B; S; ch] cs) =
          Ok x /\
        shape x = [B; S; (wd + ch)%nat] /\
        Layers.LSTM_forward (Layers.crl_lstm crl) x = Ok (out, hc) /\
        shape out = [B; S; (2 * h)%nat].
Proof.
  intros Hwd Hch Hh. unfold Layers.ContextRepresentationLayer_init.
  rewrite Hwd, Hch, Hh. cbn [mbind result_bind rbind Layers.add_int as_int].
  replace (Z.of_nat wd + Z.of_nat ch)%Z with (Z.of_nat (wd + ch)) by lia.
  unfold Layers.nn_LSTM. rewrite !as_size_of_nat. cbn [mbind result_bind rbind].
  eexists. split; [reflexivity|]. split; [reflexivity|]. split; [reflexivity|].
  intros B S ws cs HS. unfold Layers.cat_last. cbn [shape reverse rev_append].
  change (reverse [B; S; wd]) with [wd; S; B].
  change (reverse [B; S; ch]) with [ch; S; B].
  rewrite decide_True by done. change (reverse [S; B]) with [B; S].
  eexists _, _, _. split; [reflexivity|]. split; [reflexivity|].
  unfold Layers.LSTM_forward.
  cbn [shape app Layers.crl_lstm Layers.input_size Layers.bidirectional
       Layers.hidden_size].
  rewrite Nat.eqb_refl. cbn [negb].
  destruct (Nat.eqb_spec S 0) as [|_]; [lia|].
  split; reflexivity.
Qed.

End EncoderShapes.
(** ** Loading a saved model: strictness *)

Section LoadModelStrict.
Context `{Repo}.

Lemma mem_true_elem_of (k : string) (l : list string) :
  mem k l = true -> k ∈ l.
Proof.
  unfold mem. intros Hk. apply existsb_exists in Hk as (x & Hin & Heq).
  apply String.eqb_eq in Heq as ->. by apply list_elem_of_In.
Qed.

Lemma load_into_missing (sd : list (string * Tensor))
    (ps : list (string * loc)) (w : World) :
  (exists n, n ∈ map fst ps /\ assoc n sd = None) ->
  exists msg w', Test.load_into ps sd w = (Raise (RuntimeError msg), w').
Proof.
  revert w. induction ps as [|[n l] ps IH]; intros w (m & Hin & Hm).
  - by apply elem_of_nil in Hin.
  - cbn [Test.load_into]. destruct (assoc n sd) as [t|] eqn:Hn; [|eauto].
    munfold. destruct (tensors w !! l) as [p|]; [|eauto].
    destruct (decide (shape (data p) = shape t)); [|eauto].
    apply IH. exists m. split; [|done].
    cbn in Hin. apply elem_of_cons in Hin as [->|Hin]; [congruence | done].
Qed.

Variables (args : pyobj) (model_data : ModelData) (w : World)
          (wrl : Layers.WordRepresentationLayer)
          (path : string) (dev : value).
Hypothesis Hwrl :
  Layers.WordRepresentationLayer_init args (vectors model_data) = Ok wrl.
Hypothesis Hpath : getattr args "model_path" = Ok (VStr path).
Hypothesis Hdev : getattr args "device" = Ok dev.

Let params := Layers.WordRepresentationLayer_parameters
                (word_layer_name ++ ".")%string wrl ++
              other_parameters args model_data.
Let model := fresh (dom (modules w)).

(** X22.  [load_model] builds the model before it looks for the file:
    when nothing is stored at [args.model_path] it raises
    [FileNotFoundError], with the new model already allocated and the
    file system as it was. *)
Theorem load_model_missing_file :
  files w !! path = None ->
  exists w',
    Test.load_model args model_data w = (Raise (FileNotFoundError path), w') /\
    is_Some (modules w' !! model) /\
    files w' = files w.
Proof.
  intros Hfile. unfold Test.load_model, Bimpm.BiMPM. munfold.
  rewrite Hwrl, alloc_params_eq. unfold alloc_module.
  cbv beta iota. cbn [modules with_tensors files with_modules].
  rewrite Hpath, Hdev. cbn [as_str]. rewrite Hfile.
  eexists. split; [reflexivity|]. split; [|reflexivity].
  unfold with_modules. cbn [modules]. apply lookup_insert_is_Some. by left.
Qed.

(** X23.  Loading is strict.  A state dict with a key that names no
    parameter of the model, or without an entry for one of the
    parameters, makes [load_model] raise [RuntimeError]; no model is
    returned with some of its weights left at their initial values. *)
Theorem load_model_is_strict (sd : list (string * Tensor)) :
  files w !! path = Some sd ->
  (exists k, k ∈ map fst sd /\ k ∉ map fst params) \/
  (exists n, n ∈ map fst params /\ assoc n sd = None) ->
  exists msg w',
    Test.load_model args model_data w = (Raise (RuntimeError msg), w').
Proof.
  intros Hfile Hkeys.
  destruct (alloc_all_spec params (tensors w)) as (Hnames & _).
  unfold Test.load_model, Bimpm.BiMPM. munfold.
  rewrite Hwrl, alloc_params_eq. unfold alloc_module.
  cbv beta iota. cbn [modules with_tensors files with_modules].
  rewrite Hpath, Hdev. cbn [as_str]. rewrite Hfile.
  unfold Test.load_state_dict. munfold.
  unfold module_at, with_modules. cbn [modules]. rewrite lookup_insert_eq.
  cbn [default named_parameters]. unfold id. cbn [named_parameters].
  fold params. rewrite Hnames.
  destruct (forallb _ _) eqn:Hall; [|eauto].
  destruct Hkeys as [(k & Hk & Hnot)|Hmissing].
  - exfalso. apply Hnot. rewrite forallb_forall in Hall.
    apply mem_true_elem_of, Hall. by apply list_elem_of_In.
  - edestruct (load_into_missing sd) as (msg & w' & Hload).
    { rewrite Hnames. exact Hmissing. }
    rewrite Hload. eauto.
Qed.

End LoadModelStrict.

(** * Concrete runs *)

Section Concrete.
Import Toy.

(** C10 at a concrete input: the default arguments in an empty world. *)
Lemma main_never_saves_witness :
  (exists e, Train.main Train.defaults Toy.world = (Raise e, Toy.world) /\
             is_attribute_error e = true) /\
  getattr (Train.finish_args (Train.locals Train.defaults)
             (Toy.dataset [] [] [])) "args" = Ok (VStr "12:00:00") /\
  exists w',
    Train.save_best_model
      (Train.finish_args (Train.locals Train.defaults) (Toy.dataset [] [] []))
      0%nat Toy.world = (Raise (AttributeError "args" "model_time"), w') /\
    dirs w' = ({["save_models"]} ∪ dirs Toy.world) /\
    ("saved_models" ∉ dirs w') /\
    files w' = files Toy.world.
Proof.
  apply (main_never_saves Train.defaults (Toy.dataset [] [] []) 0%nat Toy.world);
    reflexivity.
Defined.


(** ** Facts about the toy framework *)

Lemma toy_max_dim1 (s : Q) (b : list nat) :
  Test.max_dim1 (map (fun _ => [0%Q; s]) b) =
  Ok (map (fun _ => Test.argmax_from 0 0 1 [s]) b).
Proof.
  induction b as [|x b IH]; [reflexivity|].
  cbn [map Test.max_dim1]. rewrite IH. reflexivity.
Qed.

(** The toy model scores every example of a batch, so the evaluation of
    a split never fails on shapes. *)
Lemma toy_split_ok_with (indexing : bool) (values : list Tensor)
    (dt dev : value) (it : list (@Batch (Toy.framework_with indexing))) :
  is_ok (@Test.split_stats (Toy.framework_with indexing) values dt dev it) =
    true.
Proof.
  induction it as [|b it IH]; [reflexivity|].
  cbn [Test.split_stats]. unfold Test.batch_stats.
  cbn [model_forward generate label framework_with].
  rewrite toy_max_dim1. cbn [mbind result_bind rbind].
  unfold Test.eq_sum. rewrite !length_map, Nat.eqb_refl.
  cbn [mbind result_bind rbind].
  destruct (Test.split_stats values dt dev it); [reflexivity | discriminate IH].
Qed.

Lemma toy_split_ok (values : list Tensor) (dt dev : value)
    (it : list (@Batch Toy.framework)) :
  is_ok (Test.split_stats values dt dev it) = true.
Proof. exact (toy_split_ok_with true values dt dev it). Qed.

Lemma toy_cell_length (hid : nat) ws st x :
  length (fst (lstm_cell hid ws st x)) = hid.
Proof.
  cbn [lstm_cell framework framework_with fst].
  rewrite length_take, length_app, repeat_length. lia.
Qed.

(** An optimizer entry that receives a zero gradient keeps its value. *)
Lemma toy_adam_quiet (lr : value) (s : adam_state) (x : Q) :
  (fun _ : adam_state => True) s ->
  snd (adam lr s x 0) = x /\ (fun _ : adam_state => True) (fst (adam lr s x 0)).
Proof. intros _. split; [reflexivity | exact I]. Qed.

(** ** The claims at concrete inputs *)

(** C2, as stated, at a test split of two one-example batches: the
    evaluation returns the sum of the two batch losses, which is not
    their mean, and both forward passes ran with gradient tracking
    switched on. *)
Lemma test_returns_sum_not_mean :
  let stats := [(1%Q, 0%nat, 1%nat); (1%Q, 0%nat, 1%nat)] in
  Test.split_stats (param_values Toy.built 0%nat) (VStr "SNLI") (VStr "cpu")
                   (test_iter Toy.two_batches) = Ok stats /\
  exists w',
    Test.test 0%nat Toy.args Toy.two_batches "test" Toy.built =
      (Ok (Test.Metrics 2 (Fin (0 # 2))), w') /\
    ~ (2 == Test.mean_loss stats)%Q /\
    grad_enabled w' = true /\
    trace w' = [Forward 0%nat false true; Forward 0%nat false true].
Proof.
  split; [vm_compute; reflexivity|].
  eexists. split; [vm_compute; reflexivity|].
  split; [|split; reflexivity].
  vm_compute. discriminate.
Qed.

(** C6, as stated, at two zero vectors of width 2: the matching layer
    produces no similarity at all, neither 0 nor any other tensor; the
    call raises, and the call without inputs returns [None]. *)
Lemma matching_layer_no_similarity_on_zero_vectors :
  let self := Layers.mkML false in
  let z := zeros [2%nat] in
  (forall t, Layers.MatchingLayer_forward self [z; z] <> Ok (Some t)) /\
  is_ok (Layers.MatchingLayer_forward self [z; z]) = false /\
  Layers.MatchingLayer_forward self [] = Ok None.
Proof.
  intros self z. split; [intros t; discriminate|]. split; reflexivity.
Qed.


(** The amended C2 on the toy test split, evaluated in the world where
    the model has just been built. *)
Lemma test_returns_loss_sum_and_accuracy_witness :
  exists acc w',
    Test.test 0%nat Toy.args Toy.model_data "test" Toy.built =
      (Ok (Test.Metrics 1 (Fin acc)), w') /\
    (acc == 1 # 2)%Q /\
    training (module_at w' 0%nat) = false /\
    grad_enabled w' = true /\
    trace w' = [Forward 0%nat false true] /\
    tensors w' = tensors Toy.built.
Proof.
  destruct (test_returns_loss_sum_and_accuracy 0%nat Toy.args Toy.model_data
              "test" (VStr "SNLI") (VStr "cpu") [(1%Q, 1%nat, 2%nat)] Toy.built)
    as (acc & w' & Ht & Hacc & Hmode & Hgrad & Htrace & Htensors).
  - right. reflexivity.
  - vm_compute. eauto.
  - reflexivity.
  - reflexivity.
  - vm_compute. reflexivity.
  - vm_compute. lia.
  - exists acc, w'. split; [exact Ht|]. split; [exact Hacc|].
    split; [exact Hmode|]. split; [exact Hgrad|]. split; [exact Htrace|].
    exact Htensors.
Defined.

(** C9 in an environment with PyTorch and plac installed. *)
Lemma import_layers_raises_witness :
  let installed : gset string :=
    {["torch"; "torch.nn"; "torch.nn.functional"; "plac"]} in
  ("torch.nn.Functional" ∉ installed) /\
  (exists e, Layers.import_layers installed = Raise e /\
             is_import_error e = true) /\
  (forall name, exists e, Layers.from_layers_import installed name = Raise e /\
                          is_import_error e = true) /\
  forallb (fun c => negb (mem c (snd (Layers.exec_body installed ["__name__"]
                                        Layers.layers_py))))
          Layers.layer_classes = true.
Proof.
  intros installed.
  assert (Hno : "torch.nn.Functional" ∉ installed) by (apply (bool_decide_unpack _); vm_compute; exact I).
  split; [exact Hno|]. exact (import_layers_raises installed Hno).
Defined.


(** C1 at a concrete input: the toy data, with two training batches,
    the default reporting interval of 500 and [gpu] false.  On a release
    that lets line 84 index the loss, both updates run and [train] raises
    [UnboundLocalError]; on a later release it raises [IndexError]. *)
Lemma train_short_run_raises_witness :
  (Z.of_nat (Train.iterations Toy.model_data 0 (train_iter Toy.model_data))
   < 500)%Z /\
  (exists w',
     Train.train (Toy.args_with_interval 500) Toy.model_data Toy.world =
       (Raise (UnboundLocalError "best_model"), w')) /\
  (exists w',
     @Train.train Toy.later_framework Toy.later_repo
       (Toy.args_with_interval 500) Toy.later_model_data Toy.world =
       (Raise IndexError, w')).
Proof.
  split; [cbn; lia|]. split.
  - exact (train_short_run_raises (Toy.args_with_interval 500) Toy.model_data
             Toy.world (Toy.wrl_of (Toy.args_with_interval 500))
             (VStr "SNLI") (VBool false) (VStr "cpu") (VFloat (1 # 1000))
             "12:00:00" 500%Z eq_refl eq_refl eq_refl eq_refl eq_refl eq_refl
             eq_refl eq_refl ltac:(discriminate)
             (fun v => toy_split_ok v _ _ _) (fun v => toy_split_ok v _ _ _)
             ltac:(discriminate) ltac:(discriminate) ltac:(cbn; lia)).
  - exact (@train_short_run_raises Toy.later_framework Toy.later_repo
             (Toy.args_with_interval 500) Toy.later_model_data
             Toy.world (Toy.wrl_of (Toy.args_with_interval 500))
             (VStr "SNLI") (VBool false) (VStr "cpu") (VFloat (1 # 1000))
             "12:00:00" 500%Z eq_refl eq_refl eq_refl eq_refl eq_refl eq_refl
             eq_refl eq_refl ltac:(discriminate)
             (fun v => toy_split_ok_with false v _ _ _)
             (fun v => toy_split_ok_with false v _ _ _)
             ltac:(discriminate) ltac:(discriminate) ltac:(cbn; lia)).
Defined.


(** X25 on the toy run: two iterations, a validation pass after each.
    The first pass reaches accuracy 1 and is retained; the second update
    changes the model but not the snapshot, which [train] returns. *)
Lemma train_returns_best_snapshot_witness :
  (forall values,
     is_ok (Test.split_stats values (VStr "SNLI") (VStr "cpu")
                             (valid_iter Toy.model_data)) = true) /\
  exists best w',
    Train.train Toy.args Toy.model_data Toy.world = (Ok best, w') /\
    best <> 0%nat /\
    param_values w' best = Toy.snapshot /\
    param_values w' 0%nat <> Toy.snapshot.
Proof.
  split; [intros values; apply toy_split_ok|].
  destruct (train_returns_best_snapshot Toy.args Toy.model_data Toy.world
              Toy.wrl (VStr "SNLI") (VBool false) (VStr "cpu")
              (VFloat (1 # 1000)) "12:00:00" 1%Z)
    as (st0 & w1 & Hsetup & Hrun);
    try reflexivity; try discriminate; try (intros values; apply toy_split_ok).
  cbv zeta in Hrun. destruct Hrun as [_ Hret].
  vm_compute in Hsetup. injection Hsetup as <- <-.
  destruct (Hret Toy.snapshot) as (best & w' & Htrain & Hkept).
  { vm_compute. reflexivity. }
  destruct Hkept as (c & cps & m & Hc & Hne & _ & _ & Hv).
  injection Hc as <-. exists best, w'.
  split; [exact Htrain|]. split; [exact Hne|]. split; [exact Hv|].
  vm_compute in Htrain. injection Htrain as _ <-.
  vm_compute. discriminate.
Defined.


(** C4 on the toy run: the pretrained table sits at location 0, outside
    the optimizer's group, and still holds the pretrained vectors after
    both iterations. *)
Lemma pretrained_embedding_frozen_witness :
  (forall values,
     is_ok (Test.split_stats values (VStr "SNLI") (VStr "cpu")
                             (test_iter Toy.model_data)) = true) /\
  exists st0 w1 st w2,
    Train.setup Toy.args Toy.model_data Toy.world = (Ok (0%nat, st0), w1) /\
    (0%nat ∉ Train.param_group (Train.optimizer st0)) /\
    Train.after 0%nat Toy.args Toy.model_data 2 st0 w1 = (Ok st, w2) /\
    tensors w2 !! 0%nat =
      Some (mkParam (vectors Toy.model_data) false None None).
Proof.
  split; [intros values; apply toy_split_ok|].
  destruct (pretrained_embedding_frozen Toy.args Toy.model_data Toy.world
              Toy.wrl (VStr "SNLI") (VBool false) (VStr "cpu")
              (VFloat (1 # 1000)) "12:00:00" 1%Z)
    as (st0 & w1 & n0 & l0 & rest & Hsetup & Hps & _ & _ & Hnot & _ & _ & Hk);
    try reflexivity; try discriminate; try (intros values; apply toy_split_ok).
  vm_compute in Hps. injection Hps as _ <- _.
  destruct (Hk 2%nat) as (r & w2 & Haft & Hfrozen & _ & _ & Hok);
    [vm_compute; lia|].
  destruct r as [st|e]; [|discriminate (Hok eq_refl)].
  exists st0, w1, st, w2.
  split; [exact Hsetup|]. split; [exact Hnot|]. split; [exact Haft|].
  exact Hfrozen.
Defined.

(** C8 on the toy encoder: one sentence of two words of two characters,
    the first word ending in the padding character; and the padding row
    of the table at location 1 after both iterations of the toy run. *)
Lemma character_encoder_forward_and_padding_witness :
  (forall ws st x, length (fst (lstm_cell 2 ws st x)) = 2%nat) /\
  Layers.CharacterRepresentationEncoder_forward
    (Layers.wrl_char_encoder Toy.wrl)
    (Layers.mkIntTensor [1; 2; 2]%nat [1; 0; 2; 2]%nat) =
    Ok (mkTensor [1; 2; 2]%nat [1; 1; 2; 2]%Q) /\
  exists st0 w1 st w2 p,
    Train.setup Toy.args Toy.model_data Toy.world = (Ok (0%nat, st0), w1) /\
    (1%nat ∈ Train.param_group (Train.optimizer st0)) /\
    Train.after 0%nat Toy.args Toy.model_data 2 st0 w1 = (Ok st, w2) /\
    tensors w2 !! 1%nat = Some p /\
    Layers.row 2 (elems (data p)) 0 = [0; 0]%Q.
Proof.
  split; [apply toy_cell_length|].
  destruct (character_encoder_forward_and_padding Toy.args Toy.model_data
              Toy.world Toy.wrl (VStr "SNLI") (VBool false) (VStr "cpu")
              (VFloat (1 # 1000)) "12:00:00" 1%Z eq_refl eq_refl eq_refl
              eq_refl eq_refl eq_refl eq_refl eq_refl ltac:(discriminate)
              (fun v => toy_split_ok v _ _ _) (fun v => toy_split_ok v _ _ _)
              ltac:(discriminate) ltac:(discriminate)
              3%nat 2%nat 2%nat eq_refl eq_refl eq_refl eq_refl
              ltac:(lia) ltac:(lia) ltac:(lia) (toy_cell_length 2)
              (fun _ => True) I toy_adam_quiet)
    as (_ & _ & _ & _ & _ & Hfwd & st0 & w1 & p0 & n1 & l1 & rest & Hsetup &
        Hps & _ & Hin & Hk).
  split.
  - destruct (Hfwd 1%nat 2%nat 2%nat [1; 0; 2; 2]%nat) as [Hf _];
      [lia | lia | reflexivity | repeat constructor; lia |].
    rewrite Hf. vm_compute. reflexivity.
  - vm_compute in Hps. injection Hps as _ _ <- _.
    destruct (Hk 2%nat) as (r & w2 & p & Haft & Hp & Hrow & _ & Hok);
      [vm_compute; lia|].
    destruct r as [st|e]; [|discriminate (Hok eq_refl)].
    exists st0, w1, st, w2, p.
    split; [exact Hsetup|]. split; [exact Hin|]. split; [exact Haft|].
    split; [exact Hp | exact Hrow].
Defined.


End Concrete.

(** * Concrete runs of the further properties *)

Section FurtherRuns.
Import Toy.

(** X1 on the app data, whose splits are empty. *)
Lemma test_empty_split_raises_witness :
  valid_iter (AppData Toy.args) = [] /\
  Test.test 0%nat Toy.args (AppData Toy.args) "valid" Toy.built =
    (Raise ZeroDivisionError, set_mode Toy.built 0%nat false).
Proof.
  split; [reflexivity|].
  apply (test_empty_split_raises 0%nat Toy.args (AppData Toy.args) "valid"
           Toy.built).
  left. split; reflexivity.
Defined.

(** X2 with the mode ['train']. *)
Lemma test_unknown_mode_raises_witness :
  Test.test 0%nat Toy.args Toy.model_data "train" Toy.built =
    (Raise (UnboundLocalError "iterator"), set_mode Toy.built 0%nat false).
Proof.
  apply (test_unknown_mode_raises 0%nat Toy.args Toy.model_data "train"
           Toy.built); discriminate.
Defined.

(** X3 on the app batch of two examples: the freshly built toy model
    scores class 1 with 0. *)
Lemma test_app_mode_returns_first_row_witness :
  batch Toy.app_data = Some [1; 0]%nat /\
  Test.test 0%nat Toy.args Toy.app_data "app" Toy.built =
    (Ok (Test.AppPreds [0; 0]%Q),
     log (set_mode Toy.built 0%nat false) [Forward 0%nat false true]).
Proof.
  split; [reflexivity|].
  rewrite (test_app_mode_returns_first_row 0%nat Toy.args Toy.app_data
             [1; 0]%nat (VStr "SNLI") (VStr "cpu") Toy.built).
  - reflexivity.
  - vm_compute. eauto.
  - reflexivity.
  - reflexivity.
  - reflexivity.
Defined.

(** X4 on the toy test split. *)
Lemma test_is_repeatable_witness :
  exists w1 w2,
    Test.test 0%nat Toy.args Toy.model_data "test" Toy.built =
      (Test.metrics_of [(1%Q, 1%nat, 2%nat)], w1) /\
    Test.test 0%nat Toy.args Toy.model_data "test" w1 =
      (Test.metrics_of [(1%Q, 1%nat, 2%nat)], w2) /\
    tensors w2 = tensors Toy.built /\
    training (module_at w2 0%nat) = false.
Proof.
  apply (test_is_repeatable 0%nat Toy.args Toy.model_data "test"
           (VStr "SNLI") (VStr "cpu") [(1%Q, 1%nat, 2%nat)] Toy.built).
  - right. reflexivity.
  - vm_compute. eauto.
  - reflexivity.
  - reflexivity.
  - vm_compute. reflexivity.
Defined.

(** X5 with the name in capitals. *)
Lemma test_load_data_ignores_case_witness :
  Test.lower "SNLI" = "snli" /\
  Test.load_data (Toy.cli "SNLI") Toy.args Toy.world =
    (Ok (SNLI Toy.args), log Toy.world [Print "Loading SNLI data..."]).
Proof.
  split; [reflexivity|].
  apply (test_load_data_ignores_case (Toy.cli "SNLI") Toy.args "SNLI"
           Toy.world); [reflexivity | reflexivity | left; reflexivity].
Defined.

(** X6 with the data type MNLI. *)
Lemma test_main_rejects_unknown_dataset_witness :
  Test.main (Toy.cli "MNLI") Toy.world =
    (Raise (RuntimeError "Data source other than SNLI or Quora was provided."),
     Toy.world).
Proof.
  apply (test_main_rejects_unknown_dataset (Toy.cli "MNLI") "MNLI" Toy.world);
    [reflexivity | reflexivity | discriminate | discriminate].
Defined.

(** X11 with the misspelt module installed as well. *)
Lemma import_layers_never_succeeds_witness :
  let installed : gset string :=
    {["torch"; "torch.nn"; "torch.nn.Functional"; "plac"]} in
  is_ok (Layers.import_layers installed) = false /\
  exists ns,
    Layers.exec_body installed ["__name__"] Layers.layers_py =
      (Raise (TypeError "'str' object is not callable"), ns) /\
    forallb (fun c => mem c ns) Layers.layer_classes = true.
Proof.
  intros installed.
  destruct (import_layers_never_succeeds installed) as (Hno & _ & Hlast).
  split; [exact Hno|].
  apply Hlast; apply (bool_decide_unpack _); vm_compute; exact I.
Defined.

(** X12 on the toy encoder, whose vocabulary has three characters. *)
Lemma char_encoder_rejects_unknown_ids_witness :
  Layers.CharacterRepresentationEncoder_forward
    (Layers.wrl_char_encoder Toy.wrl)
    (Layers.mkIntTensor [1; 2; 2]%nat [1; 3; 2; 2]%nat) = Raise IndexError.
Proof.
  apply (char_encoder_rejects_unknown_ids (Layers.wrl_char_encoder Toy.wrl)
           1 2 2 [1; 3; 2; 2]%nat); [reflexivity|].
  right. left. cbn. lia.
Defined.

(** X13 with an embedding of width 3 feeding an encoder of input size 2. *)
Lemma char_encoder_width_mismatch_witness :
  exists enc,
    Layers.CharacterRepresentationEncoder_init Toy.mismatched_args = Ok enc /\
    Layers.CharacterRepresentationEncoder_forward enc
      (Layers.mkIntTensor [1; 1; 2]%nat [1; 2]%nat) =
    Raise (RuntimeError "input.size(-1) must be equal to input_size").
Proof.
  destruct (char_encoder_width_mismatch_surfaces_at_forward
              Toy.mismatched_args 3 3 2 2)
    as (enc & Hinit & Hfwd); try reflexivity; try lia.
  exists enc. split; [exact Hinit|].
  apply Hfwd; [reflexivity | repeat constructor; lia].
Defined.

(** X14 on toy data whose validation label the updated model never
    predicts: one iteration, one validation pass with accuracy 0. *)
Lemma train_raises_when_no_pass_improves_witness :
  exists w',
    Train.train Toy.args Toy.never_right Toy.world =
      (Raise (UnboundLocalError "best_model"), w').
Proof.
  pose (r := Train.setup Toy.args Toy.never_right Toy.world).
  pose (st0 := match fst r with Ok x => Some (snd x) | Raise _ => None end).
  vm_compute in st0.
  match eval unfold st0 in st0 with
  | Some ?s => pose (s0 := s)
  end.
  pose (w1 := snd r). vm_compute in w1.
  destruct (train_raises_when_no_pass_improves Toy.args Toy.never_right
               Toy.world Toy.wrl (VStr "SNLI") (VBool false) (VStr "cpu")
               (VFloat (1 # 1000)) "12:00:00" 1%Z eq_refl eq_refl eq_refl
               eq_refl eq_refl eq_refl eq_refl eq_refl ltac:(discriminate)
               (fun v => toy_split_ok v _ _ _) (fun v => toy_split_ok v _ _ _)
               ltac:(discriminate) ltac:(discriminate) s0 w1)
    as (st & wN & w' & _ & _ & Htrain).
  - reflexivity.
  - vm_compute. reflexivity.
  - vm_compute. repeat constructor.
  - exists w'. exact Htrain.
Defined.

(** X16 on the toy run: the module returned is not the model at
    location 0; it is in inference mode, the model in training mode. *)
Lemma train_returns_model_in_inference_mode_witness :
  exists best w',
    Train.train Toy.args Toy.model_data Toy.world = (Ok best, w') /\
    best <> 0%nat /\
    training (module_at w' best) = false /\
    training (module_at w' 0%nat) = true.
Proof.
  pose (r := Train.setup Toy.args Toy.model_data Toy.world).
  pose (st0 := match fst r with Ok x => Some (snd x) | Raise _ => None end).
  vm_compute in st0.
  match eval unfold st0 in st0 with
  | Some ?s => pose (s0 := s)
  end.
  pose (w1 := snd r). vm_compute in w1.
  apply (train_returns_model_in_inference_mode Toy.args Toy.model_data
           Toy.world Toy.wrl (VStr "SNLI") (VBool false) (VStr "cpu")
           (VFloat (1 # 1000)) "12:00:00" 1%Z eq_refl eq_refl eq_refl
           eq_refl eq_refl eq_refl eq_refl eq_refl ltac:(discriminate)
           (fun v => toy_split_ok v _ _ _) (fun v => toy_split_ok v _ _ _)
           ltac:(discriminate) ltac:(discriminate) Toy.snapshot);
    [reflexivity|].
  exists s0, w1. split; vm_compute; reflexivity.
Defined.

(** X17 on the toy data with a reporting interval of 0, on a release
    that lets line 84 index the loss and on a later one. *)
Lemma train_zero_print_interval_raises_witness :
  (exists w',
     Train.train (Toy.args_with_interval 0) Toy.model_data Toy.world =
       (Raise ZeroDivisionError, w') /\
     trace w' = [WriterOpen "runs/12:00:00"; Forward 0%nat true true]) /\
  (exists w',
     @Train.train Toy.later_framework Toy.later_repo
       (Toy.args_with_interval 0) Toy.later_model_data Toy.world =
       (Raise IndexError, w') /\
     trace w' = [WriterOpen "runs/12:00:00"; Forward 0%nat true true]).
Proof.
  split.
  - destruct (train_zero_print_interval_raises (Toy.args_with_interval 0)
                Toy.model_data Toy.world
                (Toy.wrl_of (Toy.args_with_interval 0))
                (VStr "SNLI") (VBool false) (VFloat (1 # 1000)) "12:00:00"
                eq_refl eq_refl eq_refl eq_refl eq_refl eq_refl eq_refl
                [1]%nat [[1]]%nat eq_refl eq_refl)
      as (st0 & w1 & w' & Hsetup & Htrain & _ & Htrace).
    exists w'. split; [exact Htrain|].
    vm_compute in Hsetup. injection Hsetup as _ <-. exact Htrace.
  - destruct (@train_zero_print_interval_raises Toy.later_framework
                Toy.later_repo (Toy.args_with_interval 0)
                Toy.later_model_data Toy.world
                (Toy.wrl_of (Toy.args_with_interval 0))
                (VStr "SNLI") (VBool false) (VFloat (1 # 1000)) "12:00:00"
                eq_refl eq_refl eq_refl eq_refl eq_refl eq_refl eq_refl
                [1]%nat [[1]]%nat eq_refl eq_refl)
      as (st0 & w1 & w' & Hsetup & Htrain & _ & Htrace).
    exists w'. split; [exact Htrain|].
    vm_compute in Hsetup. injection Hsetup as _ <-. exact Htrace.
Defined.

(** X18 on the toy model: the file holds the values of the toy snapshot
    under the names of the seven parameters. *)
Lemma load_model_restores_saved_weights_witness :
  files Toy.world_with_saved_model !! "model.pt" = Some Toy.saved_state /\
  exists w',
    Test.load_model (Toy.args_with_interval 1) Toy.model_data
                    Toy.world_with_saved_model = (Ok 0%nat, w') /\
    param_values w' 0%nat = Toy.snapshot /\
    map requires_grad (params_of w' 0%nat) =
      [false; true; true; true; true; true; true] /\
    files w' = files Toy.world_with_saved_model.
Proof.
  split; [vm_compute; reflexivity|].
  destruct (load_model_restores_saved_weights (Toy.args_with_interval 1)
              Toy.model_data Toy.world_with_saved_model
              (Toy.wrl_of (Toy.args_with_interval 1)) "model.pt" (VStr "cpu")
              Toy.saved_state eq_refl eq_refl eq_refl)
    as (w' & Hload & Hvalues & Hflags & _ & Hfiles).
  - vm_compute. reflexivity.
  - apply (bool_decide_unpack _). vm_compute. exact I.
  - repeat constructor.
  - exists w'. split; [exact Hload|]. split; [exact Hvalues|].
    split; [exact Hflags | exact Hfiles].
Defined.

(** X19 on the toy encoder and the one-character word [1], padded to
    two characters. *)
Lemma padding_advances_the_encoder_witness :
  (forall ws st x, length (fst (lstm_cell 2 ws st x)) = 2%nat) /\
  Layers.CharacterRepresentationEncoder_forward
    (Layers.wrl_char_encoder Toy.wrl)
    (Layers.mkIntTensor [1; 1; 2]%nat [1; 0]%nat) =
  Ok (mkTensor [1; 1; 2]%nat
        (fst (lstm_cell 2 (map snd (Layers.lstm_weights "" 2 2))
                (snd (Layers.lstm_run
                        (Layers.cre_lstm (Layers.wrl_char_encoder Toy.wrl))
                        (Layers.lstm_weights "" 2 2) [[1; 1]%Q]))
                [0; 0]%Q))).
Proof.
  split; [apply toy_cell_length|].
  apply (padding_advances_the_encoder (Layers.wrl_char_encoder Toy.wrl)
           [1]%nat);
    try reflexivity; try (cbn; lia).
  - repeat constructor.
  - apply toy_cell_length.
Defined.

(** X20 on the toy encoder and a batch of one empty sentence. *)
Lemma char_encoder_rejects_empty_sentences_witness :
  exists msg,
    Layers.CharacterRepresentationEncoder_forward
      (Layers.wrl_char_encoder Toy.wrl)
      (Layers.mkIntTensor [1; 0; 2]%nat []) = Raise (RuntimeError msg).
Proof.
  apply (char_encoder_rejects_empty_sentences
           (Layers.wrl_char_encoder Toy.wrl) 1 0 2 2);
    [reflexivity | reflexivity | reflexivity | left; reflexivity].
Defined.

(** X21 on the toy sizes: words of width 1, character representations
    of width 2, hidden size 2. *)
Lemma context_layer_fits_word_representation_witness :
  exists crl,
    Layers.ContextRepresentationLayer_init Toy.args = Ok crl /\
    Layers.input_size (Layers.crl_lstm crl) = 3%nat /\
    Layers.bidirectional (Layers.crl_lstm crl) = true.
Proof.
  destruct (context_layer_fits_word_representation Toy.args 1 2 2)
    as (crl & Hinit & Hin & Hbi & _); try reflexivity.
  exists crl. split; [exact Hinit|]. split; [exact Hin | exact Hbi].
Defined.

(** X22 in a world without files. *)
Lemma load_model_missing_file_witness :
  exists w',
    Test.load_model (Toy.args_with_interval 1) Toy.model_data Toy.world =
      (Raise (FileNotFoundError "model.pt"), w') /\
    is_Some (modules w' !! 0%nat) /\
    files w' = files Toy.world.
Proof.
  apply (load_model_missing_file (Toy.args_with_interval 1) Toy.model_data
           Toy.world (Toy.wrl_of (Toy.args_with_interval 1)) "model.pt"
           (VStr "cpu") eq_refl eq_refl eq_refl).
  reflexivity.
Defined.

(** X23 on a file saved from some other model. *)
Lemma load_model_is_strict_witness :
  exists msg w',
    Test.load_model (Toy.args_with_interval 1) Toy.model_data
                    Toy.world_with_foreign_model =
      (Raise (RuntimeError msg), w').
Proof.
  apply (load_model_is_strict (Toy.args_with_interval 1) Toy.model_data
           Toy.world_with_foreign_model
           (Toy.wrl_of (Toy.args_with_interval 1)) "model.pt" (VStr "cpu")
           eq_refl eq_refl eq_refl
           [("encoder.weight", mkTensor [1]%nat [1%Q])]).
  - vm_compute. reflexivity.
  - left. exists "encoder.weight". split; [left|].
    apply (bool_decide_unpack _). vm_compute. exact I.
Defined.

(** X24 on the toy run: after both iterations [max_test_acc] is the test
    accuracy of the snapshot taken after the first. *)
Lemma max_test_acc_belongs_to_best_snapshot_witness :
  exists st0 w1 st w2,
    Train.setup Toy.args Toy.model_data Toy.world = (Ok (0%nat, st0), w1) /\
    Train.after 0%nat Toy.args Toy.model_data 2 st0 w1 = (Ok st, w2) /\
    Train.max_test_acc st =
      Train.test_accuracy Toy.snapshot (VStr "SNLI") (VStr "cpu") Toy.model_data.
Proof.
  destruct (max_test_acc_belongs_to_best_snapshot Toy.args Toy.model_data
              Toy.world Toy.wrl (VStr "SNLI") (VBool false) (VStr "cpu")
              (VFloat (1 # 1000)) "12:00:00" 1%Z eq_refl eq_refl eq_refl
              eq_refl eq_refl eq_refl eq_refl eq_refl ltac:(discriminate)
              (fun v => toy_split_ok v _ _ _) (fun v => toy_split_ok v _ _ _)
              ltac:(discriminate) ltac:(discriminate) eq_refl)
    as (st0 & w1 & Hsetup & Hrun).
  cbv zeta in Hrun.
  destruct (Hrun 2%nat) as (st & w2 & Haft & _ & Hacc); [vm_compute; lia|].
  exists st0, w1, st, w2. split; [exact Hsetup|]. split; [exact Haft|].
  rewrite Hacc. vm_compute in Hsetup. injection Hsetup as <- <-.
  vm_compute. reflexivity.
Defined.

(** X26 on the toy arguments with [gpu] set. *)
Lemma train_with_bool_gpu_raises_witness :
  exists msg w',
    Train.train Toy.args_with_gpu Toy.model_data Toy.world =
      (Raise (TypeError msg), w') /\
    trace w' = [].
Proof.
  destruct (train_with_bool_gpu_raises Toy.args_with_gpu Toy.model_data
              Toy.world (Toy.wrl_of Toy.args_with_gpu) eq_refl eq_refl)
    as (msg & w' & _ & Htrain & _ & _ & Htrace).
  exists msg, w'. split; [exact Htrain | exact Htrace].
Defined.

(** X27 on the toy data, on the later release. *)
Lemma train_index_error_before_any_update_witness :
  exists st0 w1 w',
    @Train.setup Toy.later_framework Toy.later_repo Toy.args
      Toy.later_model_data Toy.world = (Ok (0%nat, st0), w1) /\
    @Train.train Toy.later_framework Toy.later_repo Toy.args
      Toy.later_model_data Toy.world = (Raise IndexError, w') /\
    param_values w' 0%nat = param_values w1 0%nat.
Proof.
  destruct (@train_index_error_before_any_update Toy.later_framework
              Toy.later_repo Toy.args Toy.later_model_data Toy.world Toy.wrl
              eq_refl (VStr "SNLI") (VBool false) (VFloat (1 # 1000))
              "12:00:00" eq_refl eq_refl eq_refl eq_refl eq_refl eq_refl
              ltac:(cbn; lia))
    as (st0 & w1 & w' & Hsetup & Htrain & _ & Hvalues & _).
  exists st0, w1, w'. split; [exact Hsetup|]. split; [exact Htrain|].
  exact Hvalues.
Defined.

End FurtherRuns.
